(** * Minesweeper: the board engine of [src/js/minesweeper.js]

    A shallow embedding of the game's data ([data.grid], [data.stats], the
    class attribute of the table cells) and of the functions that work on
    them: [utility.getCell], [utility.countSurroundingMines],
    [utility.generateGrid], [utility.plantMine], [utility.plantAllMines],
    [utility.buildGrid], [utility.revealEmptyAdjacent], [events.validate],
    [events.cellClicked] and [events.init]; then of the page around them:
    [events.updateClock], [events.cheat] and [events.cheatGame],
    [events.save] and [events.loadGame], [bindings.clickCell] and
    [bindings.clickCellUnbind], the timer and local storage.

    Conventions.
    - Counters and coordinates are integers ([Z]); binary64 rounding is not
      modelled.
    - A function that can raise a JavaScript [TypeError] (reading a property
      of [null] or [undefined]) returns in the error monad [res].
    - The two loops that are not structurally recursive (the planting loop
      and the recursive reveal) take a fuel argument and answer [NoFuel]
      when it is used up.
    - [Math.random] is a stream of rationals in [0,1).
    - A table cell (td) is identified with the position that
      [utility.buildGrid] writes into its [data-row] / [data-col]
      attributes; its state is the list of its CSS classes.
    - The first part works on the data and the table alone.  The timer, the
      click binding of the tds and local storage are added around them in
      the record [page]; there the functions of [events] are given again
      with what they do to the timer and to the binding.
    - A dialog is what it shows (title and message of a notice); the
      question that [events.cheat] and [events.load] ask before they go on
      is taken as answered with yes.  Key bindings, fades and the text of
      the statistics bar are presentation only and are left out. *)

From Stdlib Require Import ZArith QArith Qround Lia Ascii String Bool.
From stdpp Require Import base tactics option list.

Local Open Scope Z_scope.

(** ** Results of fallible code *)

Inductive res (A : Type) : Type :=
| Ok (a : A)
| TypeError
| NoFuel.
Arguments Ok {A} a.
Arguments TypeError {A}.
Arguments NoFuel {A}.

#[global] Instance res_ret : MRet res := fun A a => Ok a.
#[global] Instance res_bind : MBind res := fun A B k m =>
  match m with
  | Ok a => k a
  | TypeError => TypeError
  | NoFuel => NoFuel
  end.

(** ** JavaScript values that reach the board engine *)

Module JS.

(** Numbers, kept exact. *)
Inductive number : Type :=
| NaN
| Infinity (negative : bool)
| Fin (q : Q).

(** What jQuery's [val()] and the defaults of [data.stats] can hold. *)
Inductive value : Type :=
| Undefined
| Number (x : number)
| Str (s : string).

Definition of_Z (z : Z) : number := Fin (inject_Z z).

(** Code units 0..255 that ECMAScript counts as WhiteSpace or
    LineTerminator: TAB, LF, VT, FF, CR, SP and NBSP. *)
Definition isWhiteSpace (a : ascii) : bool :=
  let n := nat_of_ascii a in
  existsb (Nat.eqb n) [9; 10; 11; 12; 13; 32; 160]%nat.

Fixpoint dropWhile {A} (p : A -> bool) (l : list A) : list A :=
  match l with
  | [] => []
  | x :: l' => if p x then dropWhile p l' else l
  end.

Definition trim (l : list ascii) : list ascii :=
  rev (dropWhile isWhiteSpace (rev (dropWhile isWhiteSpace l))).

(** Value of a digit in the given base, if it is one. *)
Definition digit (base : Z) (a : ascii) : option Z :=
  let n := Z.of_nat (nat_of_ascii a) in
  let v :=
    if (48 <=? n) && (n <=? 57) then Some (n - 48)
    else if (97 <=? n) && (n <=? 102) then Some (n - 87)
    else if (65 <=? n) && (n <=? 70) then Some (n - 55)
    else None in
  match v with
  | Some d => if d <? base then Some d else None
  | None => None
  end.

(** Longest prefix of digits: its value (continuing [acc]), how many
    digits were read, and the rest. *)
Fixpoint digits (base : Z) (l : list ascii) (acc : Z) (n : nat)
  : Z * nat * list ascii :=
  match l with
  | [] => (acc, n, [])
  | a :: l' =>
      match digit base a with
      | Some d => digits base l' (acc * base + d) (S n)
      | None => (acc, n, l)
      end
  end.

Definition isChar (c : string) (a : ascii) : bool :=
  match c with
  | String b EmptyString => Ascii.eqb a b
  | _ => false
  end.

(** ExponentPart_opt followed by the end of the string. *)
Definition exponent (l : list ascii) : option Z :=
  match l with
  | [] => Some 0
  | e :: l1 =>
      if isChar "e" e || isChar "E" e then
        let '(neg, l2) :=
          match l1 with
          | s :: l2 =>
              if isChar "-" s then (true, l2)
              else if isChar "+" s then (false, l2)
              else (false, l1)
          | [] => (false, l1)
          end in
        match digits 10 l2 0 0 with
        | (v, S _, []) => Some (if neg then - v else v)
        | _ => None
        end
      else None
  end.

(** StrUnsignedDecimalLiteral other than [Infinity]. *)
Definition unsignedDecimal (l : list ascii) : option Q :=
  let '(ip, n1, l1) := digits 10 l 0 0 in
  let '(m, n2, l2, ok) :=
    match l1 with
    | d :: l1' =>
        if isChar "." d then
          let '(m, n, l2) := digits 10 l1' ip 0 in
          (m, n, l2, negb (Nat.eqb (n1 + n) 0))
        else (ip, 0%nat, l1, negb (Nat.eqb n1 0))
    | [] => (ip, 0%nat, l1, negb (Nat.eqb n1 0))
    end in
  if ok then
    match exponent l2 with
    | Some e => Some (inject_Z m * Qpower (inject_Z 10) (e - Z.of_nat n2))%Q
    | None => None
    end
  else None.

(** [0x], [0o] and [0b] literals (no sign). *)
Definition nonDecimal (l : list ascii) : option (option Q) :=
  match l with
  | z :: p :: l' =>
      let base :=
        if negb (isChar "0" z) then None
        else if isChar "x" p || isChar "X" p then Some 16
        else if isChar "o" p || isChar "O" p then Some 8
        else if isChar "b" p || isChar "B" p then Some 2
        else None in
      match base with
      | Some b =>
          Some match digits b l' 0 0 with
               | (v, S _, []) => Some (inject_Z v)
               | _ => None
               end
      | None => None
      end
  | _ => None
  end.

(** ToNumber applied to a string (StringNumericLiteral). *)
Definition StringToNumber (s : string) : number :=
  let l := trim (list_ascii_of_string s) in
  match l with
  | [] => Fin 0
  | c :: l' =>
      match nonDecimal l with
      | Some (Some q) => Fin q
      | Some None => NaN
      | None =>
          let '(neg, u) :=
            if isChar "-" c then (true, l')
            else if isChar "+" c then (false, l')
            else (false, l) in
          if String.eqb (string_of_list_ascii u) "Infinity" then Infinity neg
          else match unsignedDecimal u with
               | Some q => Fin (if neg then - q else q)%Q
               | None => NaN
               end
      end
  end.

Definition ToNumber (v : value) : number :=
  match v with
  | Undefined => NaN
  | Number x => x
  | Str s => StringToNumber s
  end.

(** The global [isNaN]. *)
Definition isNaN (v : value) : bool :=
  match ToNumber v with
  | NaN => true
  | _ => false
  end.

(** [a < b] on numbers; a comparison with [NaN] is false. *)
Definition lt (a b : number) : bool :=
  match a, b with
  | NaN, _ | _, NaN => false
  | Fin x, Fin y => match (x ?= y)%Q with Lt => true | _ => false end
  | Fin _, Infinity neg => negb neg
  | Infinity neg, Fin _ => neg
  | Infinity n1, Infinity n2 => n1 && negb n2
  end.

End JS.

(** ** The page: [data], and the part of the DOM the engine reads and writes *)

(** [data.classes]; [one] .. [eight] are the number classes that
    [events.cellClicked] keeps in its local array [classes]. *)
Module classes.
Inductive t : Type :=
| cheat | empty | flagged | mined | miss | sprite | unknown
| one | two | three | four | five | six | seven | eight.
#[global] Instance eq_dec : EqDecision t.
Proof. solve_decision. Defined.
End classes.

(** A td element is its class attribute. *)
Abbreviation classList := (list classes.t).

(** A jQuery selection of at most one td ([None]: nothing selected). *)
Definition hasClass (c : classes.t) (sel : option classList) : bool :=
  match sel with
  | Some cs => bool_decide (c ∈ cs)
  | None => false
  end.

Definition addClass (names : list classes.t) (cs : classList) : classList :=
  foldl (fun acc c => if bool_decide (c ∈ acc) then acc else acc ++ [c]) cs names.

Definition removeClass (c : classes.t) (cs : classList) : classList :=
  filter (fun c' => c' ≠ c) cs.

(** An element of [data.grid]. *)
Record cell : Type := Cell { mined : bool }.

(** [data.stats]. *)
Record statsT : Type := Stats {
  clicks : Z;
  cols : Z;
  mines : JS.value;
  minesPlanted : Z;
  rows : Z;
  seconds : Z
}.

Record game : Type := Game {
  active : bool;                        (* data.active *)
  grid : option (list (list cell));     (* data.grid, [None] for null *)
  stats : statsT;                       (* data.stats *)
  table : list (list classList);               (* the tds of elements.grid, row by row *)
  gameresult : option string;           (* text of the h1.gameresult heading *)
  modal : option (string * string)      (* title and message of the notice shown *)
}.

Definition set_active (b : bool) (g : game) : game :=
  Game b (grid g) (stats g) (table g) (gameresult g) (modal g).
Definition set_grid (gr : option (list (list cell))) (g : game) : game :=
  Game (active g) gr (stats g) (table g) (gameresult g) (modal g).
Definition set_stats (s : statsT) (g : game) : game :=
  Game (active g) (grid g) s (table g) (gameresult g) (modal g).
Definition set_table (t : list (list classList)) (g : game) : game :=
  Game (active g) (grid g) (stats g) t (gameresult g) (modal g).
Definition set_gameresult (r : option string) (g : game) : game :=
  Game (active g) (grid g) (stats g) (table g) r (modal g).
Definition set_modal (m : option (string * string)) (g : game) : game :=
  Game (active g) (grid g) (stats g) (table g) (gameresult g) m.

Definition set_clicks (n : Z) (s : statsT) : statsT :=
  Stats n (cols s) (mines s) (minesPlanted s) (rows s) (seconds s).
Definition set_minesPlanted (n : Z) (s : statsT) : statsT :=
  Stats (clicks s) (cols s) (mines s) n (rows s) (seconds s).

(** [a[i]] on an array: [None] stands for [undefined]. *)
Definition index {A} (a : list A) (i : Z) : option A :=
  if 0 <=? i then a !! Z.to_nat i else None.

(** [a[i][j]] where row [i] exists. *)
Definition lookup2 {A} (a : list (list A)) (i j : Z) : option A :=
  ar ← index a i; index ar j.

(** In-place change of [a[i][j]]; nothing happens when there is no such
    element. *)
Definition alter2 {A} (f : A -> A) (i j : Z) (a : list (list A)) : list (list A) :=
  if (0 <=? i) && (0 <=? j) then alter (alter f (Z.to_nat j)) (Z.to_nat i) a
  else a.

(** Number of elements of a two-dimensional array that satisfy [p]. *)
Definition count2 {A} (p : A -> bool) (a : list (list A)) : Z :=
  Z.of_nat (length (List.filter p (concat a))).

(** [data.directions]. *)
Record direction : Type := Direction { x : Z; y : Z }.

Definition directions : list direction :=
  [ Direction (-1) 0;     (* left center *)
    Direction (-1) 1;     (* top left *)
    Direction 0 1;        (* top center *)
    Direction 1 1;        (* top right *)
    Direction 1 0;        (* right center *)
    Direction 1 (-1);     (* bottom right *)
    Direction 0 (-1);     (* bottom center *)
    Direction (-1) (-1)   (* bottom left *) ].

(** [elements.td(row, col)]: the td at that position of the table, if any. *)
Definition elements_td (g : game) (row col : Z) : option classList :=
  lookup2 (table g) row col.

(** Apply a chain of class changes to the td selected by [elements_td]. *)
Definition with_td (row col : Z) (f : classList -> classList) (g : game) : game :=
  set_table (alter2 f row col (table g)) g.

(** [$("td.unknown").length]. *)
Definition count_class (c : classes.t) (t : list (list classList)) : Z :=
  count2 (fun cs => bool_decide (c ∈ cs)) t.

(** A loop body run for each element of a list, threading a state. *)
Fixpoint for_each {A S} (l : list A) (s : S) (body : A -> S -> res S) : res S :=
  match l with
  | [] => Ok s
  | a :: l' => s' ← body a s; for_each l' s' body
  end.

(** ** utility *)

Definition getCell (g : game) (r c : Z) : res (option cell) :=
  if (r >=? 0) && (r <? rows (stats g)) && (c >=? 0) && (c <? cols (stats g)) then
    match grid g with
    | None => TypeError
    | Some a =>
        match index a r with
        | None => TypeError
        | Some ar => Ok (index ar c)
        end
    end
  else Ok None.

Definition isGameActive (g : game) : bool :=
  match grid g with
  | None => false
  | Some _ => active g
  end.

Definition countSurroundingMines (g : game) (row col : Z) : res Z :=
  for_each directions 0 (fun d surrounding =>
    cellToCheck ← getCell g (row + y d) (col + x d);
    match cellToCheck with
    | Some cl => Ok (if mined cl then surrounding + 1 else surrounding)
    | None => Ok surrounding
    end).

(** [sizeOfGame] is the number that the multiplication makes of the value
    of the size selector; [numberOfMines] is the value of the mine field. *)
Definition generateGrid (sizeOfGame : Z) (numberOfMines : JS.value) (g : game) : game :=
  let s := stats g in
  let rows' := rows s * sizeOfGame in
  let cols' := cols s * sizeOfGame in
  let mines' := if negb (JS.isNaN numberOfMines) then numberOfMines else mines s in
  let randomGrid := replicate (Z.to_nat rows') (replicate (Z.to_nat cols') (Cell false)) in
  set_grid (Some randomGrid)
    (set_stats (Stats (clicks s) cols' mines' (minesPlanted s) rows' (seconds s)) g).

Definition plantMine (r c : Z) (g : game) : res (game * bool) :=
  match grid g with
  | None => TypeError
  | Some a =>
      match index a r with
      | None => TypeError
      | Some ar =>
          match index ar c with
          | Some cellToPlant =>
              if negb (mined cellToPlant)
              then Ok (set_grid (Some (alter2 (fun _ => Cell true) r c a)) g, true)
              else Ok (g, false)
          | None => Ok (g, false)
          end
      end
  end.

(** Iteration [n] of the loop draws [random (2n)] for the row and
    [random (2n+1)] for the column. *)
Fixpoint plantAllMines (fuel : nat) (random : nat -> Q) (n : nat) (g : game) : res game :=
  if JS.lt (JS.of_Z (minesPlanted (stats g))) (JS.ToNumber (mines (stats g))) then
    match fuel with
    | O => NoFuel
    | S fuel' =>
        let r := Qfloor (random (2 * n)%nat * inject_Z (rows (stats g))) in
        let c := Qfloor (random (2 * n + 1)%nat * inject_Z (cols (stats g))) in
        '(g1, planted) ← plantMine r c g;
        plantAllMines fuel' random (S n)
          (if planted : bool
           then set_stats (set_minesPlanted (minesPlanted (stats g1) + 1) (stats g1)) g1
           else g1)
    end
  else Ok g.

(** The td template is markup outside the script; [buildGrid] puts
    [data.classes.unknown] in the place of its class. *)
Definition buildGrid (g : game) : game :=
  set_table
    (replicate (Z.to_nat (rows (stats g)))
       (replicate (Z.to_nat (cols (stats g))) [classes.unknown])) g.

Fixpoint revealEmptyAdjacent (fuel : nat) (r c : Z) (g : game) : res game :=
  match fuel with
  | O => NoFuel
  | S fuel' =>
      if (r <? 0) || (r >=? rows (stats g)) || (c <? 0) || (c >=? cols (stats g))
      then Ok g
      else
        cellToCheck ← getCell g r c;
        let td := elements_td g r c in
        num ← countSurroundingMines g r c;
        halt ← (if negb (hasClass classes.unknown td) then Ok true
                else match cellToCheck with
                     | None => TypeError
                     | Some cl => Ok (mined cl || (num >? 0))
                     end);
        if halt : bool then Ok g
        else
          let g1 := with_td r c (fun cs => addClass [classes.empty]
                                   (removeClass classes.unknown cs)) g in
          for_each directions g1 (fun d g' =>
            revealEmptyAdjacent fuel' (r + y d) (c + x d) g')
  end.

(** ** events *)

(** The tds of the table in document order, each with its [data-row] and
    [data-col]. *)
Definition tds (g : game) : list (Z * Z * classList) :=
  concat (imap (fun r tr => imap (fun c td => (Z.of_nat r, Z.of_nat c, td)) tr) (table g)).

(** A handler run on each element of a list that may rewrite the element
    it is given; [i] is the position of the head. *)
Fixpoint each_from {A} (i : nat) (f : nat -> A -> res A) (l : list A) : res (list A) :=
  match l with
  | [] => Ok []
  | a :: l' => a' ← f i a; l'' ← each_from (S i) f l'; Ok (a' :: l'')
  end.

Definition each_td (f : Z -> Z -> classList -> res classList) (t : list (list classList))
  : res (list (list classList)) :=
  each_from 0 (fun r tr => each_from 0 (fun c td => f (Z.of_nat r) (Z.of_nat c) td) tr) t.

(** The first [each] of [validate], on one td: count it when it is still
    unknown and holds a mine; a flag on a mine-free cell loses the game. *)
Definition validate_check (g : game) (t : Z * Z * classList) (acc : string * Z)
  : res (string * Z) :=
  let '(r, c, td) := t in
  let '(result, numUnknownWithMine) := acc in
  cellToCheck ← getCell g r c;
  numUnknownWithMine ←
    (if hasClass classes.unknown (Some td) then
       match cellToCheck with
       | None => TypeError
       | Some cl => Ok (if mined cl then numUnknownWithMine + 1 else numUnknownWithMine)
       end
     else Ok numUnknownWithMine);
  result ←
    (if hasClass classes.flagged (Some td) then
       match cellToCheck with
       | None => TypeError
       | Some cl => Ok (if negb (mined cl) then "You Lose!"%string else result)
       end
     else Ok result);
  Ok (result, numUnknownWithMine).

(** The second [each] of [validate], on one td: an unknown td of a mined
    cell is shown as a missed mine. *)
Definition validate_miss (g : game) (r c : Z) (td : classList) : res classList :=
  if hasClass classes.unknown (Some td) then
    cellToCheck ← getCell g r c;
    match cellToCheck with
    | None => TypeError
    | Some cl =>
        Ok (if mined cl
            then addClass [classes.sprite; classes.mined; classes.miss]
                   (removeClass classes.unknown td)
            else td)
    end
  else Ok td.

Definition validate (g : game) : res game :=
  if negb (isGameActive g) then
    Ok (set_modal (Some ("Error",
      "You must be actively playing a game in order to <strong>validate</strong>.")%string) g)
  else
    let g := set_active false g in
    '(result, numUnknownWithMine) ← for_each (tds g) ("You Win!"%string, 0) (validate_check g);
    '(result, g) ←
      (if negb (numUnknownWithMine =? 0)
          && negb (numUnknownWithMine =? count_class classes.unknown (table g))
       then
         t' ← each_td (validate_miss g) (table g);
         Ok ("You Lose!"%string, set_table t' g)
       else Ok (result, g));
    Ok (set_gameresult (Some result) g).

(** The local array [classes] of [cellClicked]: the class for [num]
    adjacent mines, nothing for 0. *)
Definition number_class (num : Z) : list classes.t :=
  default [] (index [[]; [classes.one]; [classes.two]; [classes.three];
                     [classes.four]; [classes.five]; [classes.six];
                     [classes.seven]; [classes.eight]] num).

(** A click on the td at [(r, c)], with or without the shift key. *)
Definition cellClicked (shiftKey : bool) (r c : Z) (fuel : nat) (g : game) : res game :=
  currentCell ← getCell g r c;
  let g := set_stats (set_clicks (clicks (stats g) + 1) (stats g)) g in
  match currentCell with
  | Some cl =>
      '(g, clickedMine) ←
        (if shiftKey then
           let g := with_td r c (fun cs => addClass [classes.sprite]
                                    (removeClass classes.unknown cs)) g in
           if hasClass classes.flagged (elements_td g r c) then
             let g := with_td r c (fun cs => addClass [classes.unknown]
                                      (removeClass classes.flagged cs)) g in
             Ok (set_stats (set_minesPlanted (minesPlanted (stats g) + 1) (stats g)) g, false)
           else
             let g := with_td r c (addClass [classes.flagged]) g in
             Ok (set_stats (set_minesPlanted (minesPlanted (stats g) - 1) (stats g)) g, false)
         else if negb (mined cl) then
           num ← countSurroundingMines g r c;
           if num =? 0 then
             g ← revealEmptyAdjacent fuel r c g; Ok (g, false)
           else
             Ok (with_td r c (fun cs =>
                   addClass ([classes.sprite; classes.empty] ++ number_class num)
                     (removeClass classes.unknown cs)) g, false)
         else
           let g := with_td r c (addClass [classes.mined; classes.sprite]) g in
           g ← validate g; Ok (g, true));
      if negb clickedMine && isGameActive g then
        g ← (if minesPlanted (stats g) =? 0 then validate g else Ok g);
        if count_class classes.unknown (table g) <=? minesPlanted (stats g)
        then validate g
        else Ok g
      else Ok g
  | None => Ok g
  end.

(** What [events.save] stores and [events.loadGame] hands to [init]. *)
Record savedGame : Type := SavedGame {
  gamestats : statsT;
  gamegrid : option (list (list cell));
  gametable : list (list classList)
}.

(** The assignments with which [init] puts [data] back to the starting
    defaults of a new game. *)
Definition init_defaults (g : game) : game :=
  set_active false (set_grid None
    (set_stats (Stats 0 8 (JS.Number (JS.of_Z 10)) 0 8 0) g)).

(** [init(savedData)]; the inputs of the start dialog, the fuel and the
    random stream are used by a new game only. *)
Definition init (savedData : option savedGame) (sizeOfGame : Z) (numberOfMines : JS.value)
    (fuel : nat) (random : nat -> Q) (g : game) : res game :=
  let g := set_gameresult None g in
  g ← match savedData with
      | Some sd =>
          Ok (set_table (gametable sd) (set_grid (gamegrid sd) (set_stats (gamestats sd) g)))
      | None =>
          let g := init_defaults g in
          let g := generateGrid sizeOfGame numberOfMines g in
          g ← plantAllMines fuel random 0 g;
          Ok (set_modal None (buildGrid g))
      end;
  Ok (set_active true g).

(** ** events: the dialog, the clock, cheating *)

(** [events.modal.notice] and [events.modal.close], as far as the page is
    modelled: what the dialog shows. *)
Definition modal_notice (title message : string) (g : game) : game :=
  set_modal (Some (title, message)) g.

Definition modal_close (g : game) : game := set_modal None g.

Definition set_seconds (n : Z) (s : statsT) : statsT :=
  Stats (clicks s) (cols s) (mines s) (minesPlanted s) (rows s) n.

Definition updateClock (g : game) : game :=
  set_stats (set_seconds (seconds (stats g) + 1) (stats g)) g.

(** The handler that [cheatGame] runs on each td. *)
Definition cheat_td (g : game) (r c : Z) (td : classList) : res classList :=
  cellToCheck ← getCell g r c;
  match cellToCheck with
  | None => TypeError
  | Some cl => Ok (if mined cl then addClass [classes.cheat] td else td)
  end.

Definition cheatGame (g : game) : res game :=
  let g := modal_close g in
  t' ← each_td (cheat_td g) (table g);
  Ok (set_table t' g).

(** ** The page around the board: the timer, the click binding, local storage *)

(** The page around the board: [data.timer], the intervals that the browser
    runs, the click handlers that [bindings.clickCell] has delegated on the
    tds, and [window.localStorage] with its one entry [save].  The entry is
    kept as the object that [JSON.parse] makes of the stored text: the
    statistics, the grid, and the table that the saved markup gives back.
    JSON keeps a finite number, a string and an absent field as they are; a
    mine count that holds [NaN] or an infinity as a number would come back
    as [null], so what is proved about stored games is for other values. *)
Record page : Type := Page {
  doc : game;                                  (* data and the table, as above *)
  timer : option nat;                          (* data.timer, [None] for null *)
  intervals : list nat;                        (* handles of the running intervals *)
  handles : nat;                               (* handles given out so far *)
  delegated : nat;                             (* click handlers delegated on the tds *)
  localStorage : option (option savedGame)     (* [None]: no local storage *)
}.

Definition set_doc (g : game) (p : page) : page :=
  Page g (timer p) (intervals p) (handles p) (delegated p) (localStorage p).
Definition set_delegated (n : nat) (p : page) : page :=
  Page (doc p) (timer p) (intervals p) (handles p) n (localStorage p).
Definition set_localStorage (s : option (option savedGame)) (p : page) : page :=
  Page (doc p) (timer p) (intervals p) (handles p) (delegated p) s.

Definition on_doc (f : game -> game) (p : page) : page := set_doc (f (doc p)) p.

(** [window.clearInterval(data.timer)]: nothing happens for [null] and for
    a handle that is not running. *)
Definition clearInterval (p : page) : page :=
  match timer p with
  | Some h =>
      Page (doc p) (timer p) (filter (fun h' => h' ≠ h) (intervals p)) (handles p)
        (delegated p) (localStorage p)
  | None => p
  end.

(** [data.timer = setInterval(events.updateClock, 1000)]: the browser gives
    a handle it has not given before. *)
Definition setInterval (p : page) : page :=
  let h := S (handles p) in
  Page (doc p) (Some h) (h :: intervals p) h (delegated p) (localStorage p).

Module bindings.

(** One more click handler delegated for the selector
    [td.unknown, td.flagged]. *)
Definition clickCell (p : page) : page := set_delegated (S (delegated p)) p.

(** [undelegate] takes away every handler delegated for the selector. *)
Definition clickCellUnbind (p : page) : page := set_delegated 0 p.

End bindings.

Module events.

(** [init] with the click binding and the timer; the assignments to [data]
    and the table are [init] above. *)
Definition init (savedData : option savedGame) (sizeOfGame : Z) (numberOfMines : JS.value)
    (fuel : nat) (random : nat -> Q) (p : page) : res page :=
  let p := bindings.clickCellUnbind p in
  let p := clearInterval p in
  g ← init savedData sizeOfGame numberOfMines fuel random (doc p);
  let p := set_doc g p in
  let p := bindings.clickCell p in
  Ok (setInterval p).

(** [validate] with the timer and the click binding: a running game is
    ended by [validate] above, the timer is cleared and the clicks are
    unbound. *)
Definition validate (p : page) : res page :=
  if negb (isGameActive (doc p)) then
    g ← validate (doc p); Ok (set_doc g p)
  else
    let p := clearInterval p in
    let p := bindings.clickCellUnbind p in
    g ← validate (doc p); Ok (set_doc g p).

(** [cellClicked], with the calls of [validate] that reach the timer and
    the click binding. *)
Definition cellClicked (shiftKey : bool) (r c : Z) (fuel : nat) (p : page) : res page :=
  currentCell ← getCell (doc p) r c;
  let p := on_doc (fun g => set_stats (set_clicks (clicks (stats g) + 1) (stats g)) g) p in
  match currentCell with
  | Some cl =>
      '(p, clickedMine) ←
        (if shiftKey then
           let p := on_doc (with_td r c (fun cs => addClass [classes.sprite]
                                           (removeClass classes.unknown cs))) p in
           if hasClass classes.flagged (elements_td (doc p) r c) then
             let p := on_doc (with_td r c (fun cs => addClass [classes.unknown]
                                             (removeClass classes.flagged cs))) p in
             Ok (on_doc (fun g => set_stats
                           (set_minesPlanted (minesPlanted (stats g) + 1) (stats g)) g) p,
                 false)
           else
             let p := on_doc (with_td r c (addClass [classes.flagged])) p in
             Ok (on_doc (fun g => set_stats
                           (set_minesPlanted (minesPlanted (stats g) - 1) (stats g)) g) p,
                 false)
         else if negb (mined cl) then
           num ← countSurroundingMines (doc p) r c;
           if num =? 0 then
             g ← revealEmptyAdjacent fuel r c (doc p); Ok (set_doc g p, false)
           else
             Ok (on_doc (with_td r c (fun cs =>
                   addClass ([classes.sprite; classes.empty] ++ number_class num)
                     (removeClass classes.unknown cs))) p, false)
         else
           let p := on_doc (with_td r c (addClass [classes.mined; classes.sprite])) p in
           p ← validate p; Ok (p, true));
      if negb clickedMine && isGameActive (doc p) then
        p ← (if minesPlanted (stats (doc p)) =? 0 then validate p else Ok p);
        if count_class classes.unknown (table (doc p)) <=? minesPlanted (stats (doc p))
        then validate p
        else Ok p
      else Ok p
  | None => Ok p
  end.

(** [cheat] when the user goes on in the dialog that asks whether to
    cheat: [cheatGame]. *)
Definition cheat (p : page) : res page :=
  if isGameActive (doc p) then
    g ← cheatGame (doc p); Ok (set_doc g p)
  else
    Ok (on_doc (modal_notice "Error"
          "You must be actively playing a game in order to <strong>cheat</strong>.") p).

Definition save (p : page) : page :=
  if negb (isGameActive (doc p)) then
    on_doc (modal_notice "Error"
      "You must be actively playing a game in order to <strong>save</strong>.") p
  else
    match localStorage p with
    | Some _ =>
        let savedData := SavedGame (stats (doc p)) (grid (doc p)) (table (doc p)) in
        let p := set_localStorage (Some (Some savedData)) p in
        on_doc (modal_notice "Save Successful" "Your game has successfully been saved") p
    | None =>
        on_doc (modal_notice "Error"
          "Saving &amp; loading was implemented with localstorage. Your browser does not support this feature and is unable to load/save.") p
    end.

(** [init] is given the saved game; the start dialog, the random numbers
    and the fuel are for a new game and are not looked at. *)
Definition loadGame (p : page) : res page :=
  let p := on_doc modal_close p in
  match localStorage p with
  | Some store =>
      match store with
      | Some savedGame =>
          let p := on_doc (modal_notice "Load Successful"
                     "Your previously saved game has successfully been loaded") p in
          init (Some savedGame) 0 JS.Undefined 0 (fun _ => 0%Q) p
      | None =>
          Ok (on_doc (modal_notice "Error"
                "You do not have any saved games to <strong>load</strong>...") p)
      end
  | None =>
      Ok (on_doc (modal_notice "Error"
            "Saving &amp; loading was implemented with localstorage. Your browser does not support this feature and is unable to load/save.") p)
  end.

End events.

(** A click on the td at [(r, c)]: the handlers delegated for
    [td.unknown, td.flagged] run when the td has one of the two classes. *)
Definition click (shiftKey : bool) (r c : Z) (fuel : nat) (p : page) : res page :=
  match elements_td (doc p) r c with
  | Some td =>
      if bool_decide (classes.unknown ∈ td) || bool_decide (classes.flagged ∈ td)
      then for_each (replicate (delegated p) ()) p
             (fun _ p' => events.cellClicked shiftKey r c fuel p')
      else Ok p
  | None => Ok p
  end.

(** A second goes by: every running interval calls [events.updateClock]. *)
Definition second (p : page) : page :=
  on_doc (fun g => foldr (fun _ g' => updateClock g') g (intervals p)) p.

(** What the user and the clock do to the page. *)
Inductive event : Type :=
| Start (sizeOfGame : Z) (numberOfMines : JS.value) (random : nat -> Q)
| Click (shiftKey : bool) (r c : Z)
| Validate
| Cheat
| Save
| Load
| Close
| Second.

Definition fire (fuel : nat) (e : event) (p : page) : res page :=
  match e with
  | Start sizeOfGame numberOfMines random =>
      events.init None sizeOfGame numberOfMines fuel random p
  | Click shiftKey r c => click shiftKey r c fuel p
  | Validate => events.validate p
  | Cheat => events.cheat p
  | Save => Ok (events.save p)
  | Load => events.loadGame p
  | Close => Ok (on_doc modal_close p)
  | Second => Ok (second p)
  end.

(** * Vocabulary of the properties *)

(** ** Shape of a running game *)

(** [a] has [h] rows of [w] elements each. *)
Definition rectangular {A} (h w : Z) (a : list (list A)) : bool :=
  (Z.of_nat (length a) =? h) && forallb (fun ar => Z.of_nat (length ar) =? w) a.

(** [data.grid] is the array that [generateGrid] allocates for
    [data.stats.rows] and [data.stats.cols]. *)
Definition grid_ok (g : game) : bool :=
  match grid g with
  | Some a => rectangular (rows (stats g)) (cols (stats g)) a
  | None => false
  end.

(** The table has the tds that [buildGrid] appends. *)
Definition table_ok (g : game) : bool :=
  rectangular (rows (stats g)) (cols (stats g)) (table g).

Definition in_bounds (g : game) (r c : Z) : bool :=
  (0 <=? r) && (r <? rows (stats g)) && (0 <=? c) && (c <? cols (stats g)).

(** [data.grid[r][c]] read without the bounds check. *)
Definition cellAt (g : game) (r c : Z) : option cell :=
  a ← grid g; lookup2 a r c.

(** The cell at [(r, c)] exists and holds a mine. *)
Definition is_mined (g : game) (r c : Z) : bool :=
  in_bounds g r c && match cellAt g r c with Some cl => mined cl | None => false end.

(** ** Adjacent mines *)

(** The eight neighbour offsets as the specification lists them, read as
    (row offset, column offset). *)
Definition neighbor_offsets : list (Z * Z) :=
  [(-1, 0); (-1, 1); (0, 1); (1, 1); (1, 0); (1, -1); (0, -1); (-1, -1)].

(** The number of neighbour offsets that lead to an in-bounds, mined cell. *)
Definition adjacent_mines (g : game) (row col : Z) : Z :=
  Z.of_nat (length (List.filter (fun o => is_mined g (row + o.1) (col + o.2))
                      neighbor_offsets)).

(** A small board used to run the functions: 3 x 3, mines at (0,0) and
    (0,1), every td still unknown. *)
Definition board3 : game :=
  Game true
    (Some [[Cell true; Cell true; Cell false];
           [Cell false; Cell false; Cell false];
           [Cell false; Cell false; Cell false]])
    (Stats 0 3 (JS.Number (JS.of_Z 2)) 2 3 0)
    (replicate 3 (replicate 3 [classes.unknown]))
    None None.

(** ** Planting the mines *)

(** Number of cells of [data.grid] whose [mined] is true. *)
Definition mined_cells (g : game) : Z :=
  match grid g with
  | Some a => count2 mined a
  | None => 0
  end.

(** The number [x] is the integer [m]. *)
Definition is_integer (x : JS.number) (m : Z) : Prop :=
  match x with
  | JS.Fin q => (q == inject_Z m)%Q
  | _ => False
  end.

(** [Math.random()] answers in [0, 1). *)
Definition unit_interval (random : nat -> Q) : Prop :=
  forall i, (0 <= random i)%Q /\ (random i < 1)%Q.

(** The coordinates that iteration [n] of the planting loop tries on an
    [h] x [w] board. *)
Definition draw (random : nat -> Q) (h w : Z) (n : nat) : Z * Z :=
  (Qfloor (random (2 * n)%nat * inject_Z h),
   Qfloor (random (2 * n + 1)%nat * inject_Z w)).

(** Every cell of the board keeps being drawn. *)
Definition fair (random : nat -> Q) (h w : Z) : Prop :=
  forall n r c, 0 <= r < h -> 0 <= c < w ->
    exists m, (n <= m)%nat /\ draw random h w m = (r, c).

(** What the planting loop relies on at the head of each iteration. *)
Definition planting_inv (g : game) : Prop :=
  grid_ok g = true /\ minesPlanted (stats g) = mined_cells g
  /\ 1 <= rows (stats g) /\ 1 <= cols (stats g).

(** What planting leaves alone: everything but [data.grid] and
    [minesPlanted]; and a mine, once planted, stays where it is. *)
Definition planting_frame (g g' : game) : Prop :=
  rows (stats g') = rows (stats g) /\ cols (stats g') = cols (stats g)
  /\ mines (stats g') = mines (stats g) /\ clicks (stats g') = clicks (stats g)
  /\ seconds (stats g') = seconds (stats g) /\ active g' = active g
  /\ table g' = table g /\ gameresult g' = gameresult g /\ modal g' = modal g
  /\ forall r c, is_mined g r c = true -> is_mined g' r c = true.

(** A board as [generateGrid] leaves it: every cell mine-free, nothing
    planted yet. *)
Definition fresh_board (g : game) : Prop :=
  grid g = Some (replicate (Z.to_nat (rows (stats g)))
                   (replicate (Z.to_nat (cols (stats g))) (Cell false)))
  /\ minesPlanted (stats g) = 0.

(** A random source that goes through the cells of an [h] x [w] board
    row by row, over and over. *)
Definition sweep (h w : nat) (i : nat) : Q :=
  let j := ((i / 2) mod (h * w))%nat in
  if Nat.even i
  then Z.of_nat (j / w) # Pos.of_nat h
  else Z.of_nat (j mod w) # Pos.of_nat w.

(** The page before any game: the initial values of [data]. *)
Definition blank : game :=
  Game false None (Stats 0 8 (JS.Number (JS.of_Z 10)) 0 8 0) [] None None.

(** A fresh 2 x 2 board whose mine field holds [v]. *)
Definition fresh2 (v : JS.value) : game :=
  Game false (Some (replicate 2 (replicate 2 (Cell false))))
    (Stats 0 2 v 0 2 0) [] None None.

(** ** The class attribute *)

(** What the reveal does to the class attribute of an empty cell. *)
Definition reveal_classes (cs : classList) : classList :=
  addClass [classes.empty] (removeClass classes.unknown cs).

(** ** Revealing the empty cells *)

(** A position of the board, and its neighbour in a direction. *)
Definition move (p : Z * Z) (d : direction) : Z * Z := (p.1 + y d, p.2 + x d).

(** The td at [p] still carries the class [unknown]. *)
Definition unknown_at (g : game) (p : Z * Z) : bool :=
  hasClass classes.unknown (elements_td g p.1 p.2).

(** The cells that [revealEmptyAdjacent] turns over: on the board, still
    unknown, without a mine and without a mine next to them. *)
Definition fillable (g : game) (p : Z * Z) : bool :=
  in_bounds g p.1 p.2 && unknown_at g p && negb (is_mined g p.1 p.2)
  && (adjacent_mines g p.1 p.2 =? 0).

(** [q] is joined to [p] by a chain of neighbouring fillable cells. *)
Inductive reach (g : game) (p : Z * Z) : Z * Z -> Prop :=
| reach_start : fillable g p = true -> reach g p p
| reach_step q d :
    reach g p q -> d ∈ directions -> fillable g (move q d) = true ->
    reach g p (move q d).

(** The class change of one revealed td. *)
Definition mark (p : Z * Z) (g : game) : game :=
  with_td p.1 p.2 reveal_classes g.

(** Two states with the same [data]. *)
Definition same_data (g g' : game) : Prop :=
  grid g' = grid g /\ stats g' = stats g /\ active g' = active g
  /\ gameresult g' = gameresult g /\ modal g' = modal g.

(** [p] lost its unknown class between [g] and [g']. *)
Definition revealed (g g' : game) (p : Z * Z) : Prop :=
  unknown_at g p = true /\ unknown_at g' p = false.

(** What a run of reveals started at the cells [starts] makes of the page. *)
Record fill_rel (g g' : game) (starts : list (Z * Z)) : Prop := FillRel {
  fill_data : same_data g g';
  fill_td : forall p,
    elements_td g' p.1 p.2 = elements_td g p.1 p.2
    \/ (fillable g p = true
        /\ elements_td g' p.1 p.2 = reveal_classes <$> elements_td g p.1 p.2);
  fill_shape : forall h w, rectangular h w (table g') = rectangular h w (table g);
  fill_count :
    count_class classes.unknown (table g') <= count_class classes.unknown (table g);
  fill_closed : forall p d,
    revealed g g' p -> d ∈ directions -> fillable g (move p d) = true ->
    unknown_at g' (move p d) = false;
  fill_starts : forall q,
    q ∈ starts -> fillable g q = true -> unknown_at g' q = false;
  fill_sound : forall p,
    revealed g g' p -> exists q, q ∈ starts /\ reach g q p
}.

(** The board [board3] after a shift-click on the td at (2,1): the td is
    flagged, one mine fewer is left to flag. *)
Definition board3_flagged : game :=
  Game true (grid board3) (Stats 1 3 (JS.Number (JS.of_Z 2)) 1 3 0)
    [[[classes.unknown]; [classes.unknown]; [classes.unknown]];
     [[classes.unknown]; [classes.unknown]; [classes.unknown]];
     [[classes.unknown]; [classes.sprite; classes.flagged]; [classes.unknown]]]
    None None.

(** ** Flags *)

(** No td is flagged and unknown at once. *)
Definition flags_ok (g : game) : bool :=
  forallb (forallb (fun cs : classList =>
             negb (bool_decide (classes.flagged ∈ cs))
             || negb (bool_decide (classes.unknown ∈ cs)))) (table g).

(** ** Win or loss *)

(** The td still shows as unknown and its cell holds a mine. *)
Definition unknown_mine (g : game) (t : Z * Z * classList) : bool :=
  bool_decide (classes.unknown ∈ t.2) && is_mined g t.1.1 t.1.2.

(** The td is flagged and its cell holds no mine. *)
Definition false_flag (g : game) (t : Z * Z * classList) : bool :=
  bool_decide (classes.flagged ∈ t.2) && negb (is_mined g t.1.1 t.1.2).

(** Number of unknown tds whose cell is mined. *)
Definition unknown_mines (g : game) : Z :=
  Z.of_nat (length (List.filter (unknown_mine g) (tds g))).

(** The class change that shows a missed mine. *)
Definition missed_classes (td : classList) : classList :=
  addClass [classes.sprite; classes.mined; classes.miss]
    (removeClass classes.unknown td).

(** The table after every unknown td of a mined cell is shown as missed. *)
Definition missed_table (g : game) : list (list classList) :=
  imap (fun r tr =>
    imap (fun c td =>
      if unknown_mine g (Z.of_nat r, Z.of_nat c, td) then missed_classes td else td) tr)
    (table g).

(** What [validate] makes of a running game. *)
Definition validate_result (g : game) : game :=
  let g0 := set_active false g in
  if negb (unknown_mines g =? 0)
     && negb (unknown_mines g =? count_class classes.unknown (table g))
  then set_gameresult (Some "You Lose!"%string) (set_table (missed_table g) g0)
  else set_gameresult
         (Some (if existsb (false_flag g) (tds g)
                then "You Lose!" else "You Win!")%string) g0.

(** ** The shape of the page is kept *)

(** A class attribute that is not flagged and unknown at once. *)
Definition td_ok (cs : classList) : Prop :=
  classes.flagged ∈ cs -> classes.unknown ∉ cs.

(** ** Counting tds and cells *)

(** The tds read as an array of positions with their class attributes. *)
Definition positions (g : game) : list (list (Z * Z * classList)) :=
  imap (fun r tr => imap (fun c td => (Z.of_nat r, Z.of_nat c, td)) tr) (table g).

(** ** A game in play *)

(** Every mined cell is still unknown or flagged. *)
Definition mines_covered (g : game) : Prop :=
  forall r c, is_mined g r c = true ->
    hasClass classes.unknown (elements_td g r c) = true
    \/ hasClass classes.flagged (elements_td g r c) = true.

(** What the actions of a click keep: the mines are covered, and
    [minesPlanted] is the number of mines less the number of flags. *)
Definition in_play (g : game) : Prop :=
  mines_covered g
  /\ minesPlanted (stats g) = mined_cells g - count_class classes.flagged (table g).

(** What the check at the end of a click leaves when the game goes on. *)
Definition settled (g : game) : Prop :=
  minesPlanted (stats g) < count_class classes.unknown (table g)
  /\ (minesPlanted (stats g) = 0 -> mined_cells g = 0).

(** The states of a game from [init] on. *)
Definition playing (g : game) : Prop :=
  grid_ok g = true /\ table_ok g = true /\ flags_ok g = true
  /\ (isGameActive g = true -> in_play g /\ settled g).

(** The if-chain of [cellClicked] that acts on the clicked cell. *)
Definition click_action (shiftKey : bool) (r c : Z) (fuel : nat) (cl : cell) (g : game)
  : res (game * bool) :=
  if shiftKey then
    let g := with_td r c (fun cs => addClass [classes.sprite]
                             (removeClass classes.unknown cs)) g in
    if hasClass classes.flagged (elements_td g r c) then
      let g := with_td r c (fun cs => addClass [classes.unknown]
                               (removeClass classes.flagged cs)) g in
      Ok (set_stats (set_minesPlanted (minesPlanted (stats g) + 1) (stats g)) g, false)
    else
      let g := with_td r c (addClass [classes.flagged]) g in
      Ok (set_stats (set_minesPlanted (minesPlanted (stats g) - 1) (stats g)) g, false)
  else if negb (mined cl) then
    num ← countSurroundingMines g r c;
    if num =? 0 then
      g ← revealEmptyAdjacent fuel r c g; Ok (g, false)
    else
      Ok (with_td r c (fun cs =>
            addClass ([classes.sprite; classes.empty] ++ number_class num)
              (removeClass classes.unknown cs)) g, false)
  else
    let g := with_td r c (addClass [classes.mined; classes.sprite]) g in
    g ← validate g; Ok (g, true).

(** The check that closes [cellClicked]. *)
Definition click_check (clickedMine : bool) (g : game) : res game :=
  if negb clickedMine && isGameActive g then
    g ← (if minesPlanted (stats g) =? 0 then validate g else Ok g);
    if count_class classes.unknown (table g) <=? minesPlanted (stats g)
    then validate g
    else Ok g
  else Ok g.

(** ** Clicks, cheating and the page *)

(** The class changes of a shift-click: the td loses [unknown] and gets
    [sprite]; then a flag comes off and the td is unknown again, or a flag
    is put on. *)
Definition toggle_flag (td : classList) : classList :=
  let td1 := addClass [classes.sprite] (removeClass classes.unknown td) in
  if bool_decide (classes.flagged ∈ td1)
  then addClass [classes.unknown] (removeClass classes.flagged td1)
  else addClass [classes.flagged] td1.

(** The class change of a plain click on a cell with [num] mines next to it. *)
Definition shown_number (num : Z) (td : classList) : classList :=
  addClass ([classes.sprite; classes.empty] ++ number_class num)
    (removeClass classes.unknown td).

(** Number of flagged tds whose cell holds no mine. *)
Definition false_flags (g : game) : Z :=
  Z.of_nat (length (List.filter (false_flag g) (tds g))).

(** The table after every td of a mined cell is marked for the cheater. *)
Definition cheat_table (g : game) : list (list classList) :=
  imap (fun r tr =>
    imap (fun c td =>
      if is_mined g (Z.of_nat r) (Z.of_nat c) then addClass [classes.cheat] td else td) tr)
    (table g).

(** What ends with a game: the timer is cleared and the clicks are unbound. *)
Definition stopped (p : page) : page := bindings.clickCellUnbind (clearInterval p).

(** The if-chain of [events.cellClicked] that acts on the clicked cell. *)
Definition page_action (shiftKey : bool) (r c : Z) (fuel : nat) (cl : cell) (p : page)
  : res (page * bool) :=
  if shiftKey then
    let p := on_doc (with_td r c (fun cs => addClass [classes.sprite]
                                    (removeClass classes.unknown cs))) p in
    if hasClass classes.flagged (elements_td (doc p) r c) then
      let p := on_doc (with_td r c (fun cs => addClass [classes.unknown]
                                      (removeClass classes.flagged cs))) p in
      Ok (on_doc (fun g => set_stats
                    (set_minesPlanted (minesPlanted (stats g) + 1) (stats g)) g) p,
          false)
    else
      let p := on_doc (with_td r c (addClass [classes.flagged])) p in
      Ok (on_doc (fun g => set_stats
                    (set_minesPlanted (minesPlanted (stats g) - 1) (stats g)) g) p,
          false)
  else if negb (mined cl) then
    num ← countSurroundingMines (doc p) r c;
    if num =? 0 then
      g ← revealEmptyAdjacent fuel r c (doc p); Ok (set_doc g p, false)
    else
      Ok (on_doc (with_td r c (fun cs =>
            addClass ([classes.sprite; classes.empty] ++ number_class num)
              (removeClass classes.unknown cs))) p, false)
  else
    let p := on_doc (with_td r c (addClass [classes.mined; classes.sprite])) p in
    p ← events.validate p; Ok (p, true).

(** The check that closes [events.cellClicked]. *)
Definition page_check (clickedMine : bool) (p : page) : res page :=
  if negb clickedMine && isGameActive (doc p) then
    p ← (if minesPlanted (stats (doc p)) =? 0 then events.validate p else Ok p);
    if count_class classes.unknown (table (doc p)) <=? minesPlanted (stats (doc p))
    then events.validate p
    else Ok p
  else Ok p.

(** The page before the first game: no grid, no tds. *)
Definition no_game (g : game) : Prop :=
  grid g = None /\ table g = [] /\ active g = false.

(** The shape of the page from the first game on; for [strict], also what
    [playing] asks of a running game. *)
Definition game_inv (strict : bool) (g : game) : Prop :=
  grid_ok g = true /\ table_ok g = true /\ flags_ok g = true
  /\ (strict = true -> isGameActive g = true -> in_play g /\ settled g).

(** A saved game as [init] puts it back. *)
Definition stored_game (sd : savedGame) : game :=
  Game true (gamegrid sd) (gamestats sd) (gametable sd) None None.

(** The mine count comes back from JSON as it is. *)
Definition JSON_exact (v : JS.value) : bool :=
  match v with
  | JS.Number JS.NaN | JS.Number (JS.Infinity _) => false
  | _ => true
  end.

(** The events looked at: the size selector offers multipliers from 1 on,
    [Math.random] answers in [0, 1), and a click has the fuel that the
    reveal needs.  For [strict], the mine field of a new game holds a whole
    number of mines, fewer than the board has cells. *)
Definition allowed (strict : bool) (fuel : nat) (e : event) (p : page) : Prop :=
  match e with
  | Start sizeOfGame numberOfMines random =>
      unit_interval random /\ 1 <= sizeOfGame
      /\ (strict = true ->
          exists m,
            is_integer (JS.ToNumber (if JS.isNaN numberOfMines
                                     then JS.Number (JS.of_Z 10) else numberOfMines)) m
            /\ 0 <= m < (8 * sizeOfGame) * (8 * sizeOfGame))
  | Click _ _ _ => count_class classes.unknown (table (doc p)) < Z.of_nat fuel
  | _ => True
  end.

(** What local storage may hold when the page is opened: nothing, or a game
    saved on an earlier visit. *)
Definition store_inv (strict : bool) (s : option (option savedGame)) : Prop :=
  forall sd, s = Some (Some sd) -> game_inv strict (stored_game sd).

(** The pages that the events lead to. *)
Inductive reachable (strict : bool) : page -> Prop :=
| reachable_opened s :
    store_inv strict s -> reachable strict (Page blank None [] 0 0 s)
| reachable_fire p fuel e p' :
    reachable strict p -> allowed strict fuel e p -> fire fuel e p = Ok p' ->
    reachable strict p'.

(** What holds of every such page. *)
Definition page_inv (strict : bool) (p : page) : Prop :=
  (no_game (doc p) \/ game_inv strict (doc p))
  /\ (if isGameActive (doc p)
      then delegated p = 1%nat /\ exists h, timer p = Some h /\ intervals p = [h]
      else delegated p = 0%nat /\ intervals p = [])
  /\ store_inv strict (localStorage p).

(** Two states of [data] and the table that agree on whether the game
    runs, on the grid, the table and the size of the board and on the
    counter of mines. *)
Definition same_game (g g' : game) : Prop :=
  active g' = active g /\ grid g' = grid g /\ table g' = table g
  /\ rows (stats g') = rows (stats g) /\ cols (stats g') = cols (stats g)
  /\ minesPlanted (stats g') = minesPlanted (stats g).

(** A run of events from one page to another. *)
Inductive steps (strict : bool) : list event -> page -> page -> Prop :=
| steps_nil p : steps strict [] p p
| steps_cons fuel e es p p1 p2 :
    allowed strict fuel e p -> fire fuel e p = Ok p1 -> steps strict es p1 p2 ->
    steps strict (e :: es) p p2.

(** The page as the browser opens it, with local storage that holds
    nothing. *)
Definition opened : page := Page blank None [] 0 0 (Some None).

(** The page after a new game with 3 mines on the 8 x 8 board. *)
Definition started : page :=
  Eval vm_compute in
    match fire 10 (Start 1 (JS.Str "3") (sweep 8 8)) opened with
    | Ok p => p
    | _ => opened
    end.

(** The game is saved and a flag is put on the cell at the top left. *)
Definition flag_put : page :=
  Eval vm_compute in
    match click true 0 0 65 (events.save started) with
    | Ok p => p
    | _ => opened
    end.

(** Then a second goes by. *)
Definition played : page := Eval vm_compute in second flag_put.

(** * Properties *)

(** ** Shape of a running game *)

Lemma index_Some {A} (a : list A) i v :
  index a i = Some v <-> 0 <= i /\ a !! Z.to_nat i = Some v.
Proof.
  unfold index. destruct (Z.leb_spec 0 i); split; intros; try tauto; try lia.
  discriminate.
Qed.

Lemma index_is_Some {A} (a : list A) i :
  is_Some (index a i) <-> 0 <= i < Z.of_nat (length a).
Proof.
  unfold index. destruct (Z.leb_spec 0 i).
  - rewrite lookup_lt_is_Some. lia.
  - split; [intros [? ?]; discriminate | lia].
Qed.

Lemma index_None {A} (a : list A) i :
  index a i = None <-> ~ (0 <= i < Z.of_nat (length a)).
Proof. rewrite <- index_is_Some, eq_None_not_Some. tauto. Qed.

Lemma rectangular_spec {A} h w (a : list (list A)) :
  rectangular h w a = true <->
  Z.of_nat (length a) = h /\ forall ar, ar ∈ a -> Z.of_nat (length ar) = w.
Proof.
  unfold rectangular. rewrite andb_true_iff, Z.eqb_eq, forallb_forall.
  split; intros [H1 H2]; split; auto; intros ar Har.
  - apply Z.eqb_eq, H2, list_elem_of_In, Har.
  - apply Z.eqb_eq, H2, list_elem_of_In, Har.
Qed.

Lemma rectangular_row {A} h w (a : list (list A)) i ar :
  rectangular h w a = true -> index a i = Some ar -> Z.of_nat (length ar) = w.
Proof.
  intros [_ H]%rectangular_spec [_ Hi]%index_Some.
  eapply H, list_elem_of_lookup_2, Hi.
Qed.

Lemma rectangular_index {A} h w (a : list (list A)) r c :
  rectangular h w a = true ->
  is_Some (lookup2 a r c) <-> (0 <= r < h /\ 0 <= c < w).
Proof.
  intros Hr. unfold lookup2. pose proof Hr as [Hh _]%rectangular_spec.
  destruct (index a r) as [ar|] eqn:Ha; simpl.
  - pose proof (rectangular_row _ _ _ _ _ Hr Ha) as Hw.
    assert (0 <= r < h) by (rewrite <- Hh; apply index_is_Some; eauto).
    rewrite index_is_Some. lia.
  - apply index_None in Ha. split; [intros [? ?]; discriminate | lia].
Qed.

Lemma in_bounds_spec g r c :
  in_bounds g r c = true <-> (0 <= r < rows (stats g) /\ 0 <= c < cols (stats g)).
Proof. unfold in_bounds. rewrite !andb_true_iff, !Z.leb_le, !Z.ltb_lt. tauto. Qed.

Lemma cellAt_is_Some g r c :
  grid_ok g = true -> is_Some (cellAt g r c) <-> in_bounds g r c = true.
Proof.
  unfold grid_ok, cellAt. destruct (grid g) as [a|]; [|discriminate].
  intros H. simpl. rewrite in_bounds_spec. by apply rectangular_index.
Qed.

(** On a well-shaped grid [getCell] never throws: it is the bounds check
    followed by the plain read. *)
Lemma getCell_ok g r c :
  grid_ok g = true ->
  getCell g r c = Ok (if in_bounds g r c then cellAt g r c else None).
Proof.
  intros Hok. unfold getCell, in_bounds.
  rewrite !Z.geb_leb.
  destruct ((0 <=? r) && (r <? rows (stats g)) && (0 <=? c) && (c <? cols (stats g)))
    eqn:Hb; [|done].
  assert (Hin : in_bounds g r c = true) by exact Hb.
  apply (cellAt_is_Some _ _ _ Hok) in Hin. destruct Hin as [cl Hcl].
  unfold cellAt, lookup2 in *. destruct (grid g) as [a|]; [|discriminate]. simpl in *.
  destruct (index a r) as [ar|]; [|discriminate]. done.
Qed.

Lemma getCell_mined g r c :
  grid_ok g = true ->
  exists o, getCell g r c = Ok o /\
    (in_bounds g r c = true -> exists cl, o = Some cl /\ mined cl = is_mined g r c) /\
    (in_bounds g r c = false -> o = None /\ is_mined g r c = false).
Proof.
  intros Hok. rewrite (getCell_ok _ _ _ Hok). unfold is_mined.
  destruct (in_bounds g r c) eqn:Hin.
  - apply (cellAt_is_Some _ _ _ Hok) in Hin as [cl Hcl]. rewrite Hcl.
    exists (Some cl). split; [done|]. split; [eauto | discriminate].
  - exists None. split; [done|]. split; [discriminate | done].
Qed.

(** ** Adjacent mines *)

Lemma count_filter_cons {A} (p : A -> bool) a l :
  Z.of_nat (length (List.filter p (a :: l))) =
  Z.b2z (p a) + Z.of_nat (length (List.filter p l)).
Proof. simpl. destruct (p a); simpl length; simpl Z.b2z; lia. Qed.

(** The loop of [countSurroundingMines], over any list of directions and
    from any running count. *)
Lemma countSurroundingMines_loop g row col ds acc :
  grid_ok g = true ->
  for_each ds acc (fun d surrounding =>
    cellToCheck ← getCell g (row + y d) (col + x d);
    match cellToCheck with
    | Some cl => Ok (if mined cl then surrounding + 1 else surrounding)
    | None => Ok surrounding
    end)
  = Ok (acc + Z.of_nat (length (List.filter
            (fun d => is_mined g (row + y d) (col + x d)) ds))).
Proof.
  intros Hok. revert acc. induction ds as [|d ds IH]; intros acc.
  - simpl. f_equal. lia.
  - rewrite count_filter_cons. cbn [for_each].
    destruct (getCell_mined g (row + y d) (col + x d) Hok) as (o & -> & Hin & Hout).
    destruct (in_bounds g (row + y d) (col + x d)) eqn:Hb.
    + destruct (Hin eq_refl) as (cl & -> & Hm). cbn. rewrite Hm, IH.
      f_equal. destruct (is_mined g (row + y d) (col + x d)); simpl Z.b2z; lia.
    + destruct (Hout eq_refl) as (-> & Hm). cbn. rewrite Hm, IH.
      f_equal; try (simpl Z.b2z; lia).
Qed.

Lemma countSurroundingMines_eq g row col :
  grid_ok g = true ->
  countSurroundingMines g row col = Ok (adjacent_mines g row col).
Proof.
  intros Hok. unfold countSurroundingMines.
  rewrite countSurroundingMines_loop by done. f_equal.
  unfold adjacent_mines, directions, neighbor_offsets.
  rewrite !count_filter_cons. cbn [x y fst snd List.filter length]. lia.
Qed.

Lemma adjacent_mines_range g row col : 0 <= adjacent_mines g row col <= 8.
Proof.
  unfold adjacent_mines.
  pose proof (List.filter_length_le
    (fun o => is_mined g (row + o.1) (col + o.2)) neighbor_offsets) as H.
  simpl length in H at 2. lia.
Qed.

(** C6. On every board and for every pair of integer coordinates,
    [countSurroundingMines] returns the number of the eight neighbour
    offsets (-1,0), (-1,1), (0,1), (1,1), (1,0), (1,-1), (0,-1), (-1,-1)
    whose cell is in bounds and mined; neighbours outside the board add
    nothing, no direction leads back to the cell itself, and the result
    lies between 0 and 8. *)
Theorem countSurroundingMines_spec (g : game) (row col : Z) :
  grid_ok g = true ->
  countSurroundingMines g row col = Ok (adjacent_mines g row col)
  /\ 0 <= adjacent_mines g row col <= 8
  /\ (forall o, in_bounds g (row + o.1) (col + o.2) = false ->
        is_mined g (row + o.1) (col + o.2) = false)
  /\ Forall (fun d => (row + y d, col + x d) <> (row, col)) directions
  /\ Forall (fun o => (row + o.1, col + o.2) <> (row, col)) neighbor_offsets.
Proof.
  intros Hok. split; [by apply countSurroundingMines_eq|].
  split; [apply adjacent_mines_range|].
  split; [intros o Ho; unfold is_mined; by rewrite Ho|].
  split.
  - unfold directions. repeat apply Forall_cons_2; try apply Forall_nil_2;
      cbn [x y]; intros [=]; lia.
  - unfold neighbor_offsets. repeat apply Forall_cons_2; try apply Forall_nil_2;
      cbn [fst snd]; intros [=]; lia.
Qed.

Lemma countSurroundingMines_spec_witness :
  countSurroundingMines board3 1 1 = Ok 2
  /\ countSurroundingMines board3 0 0 = Ok 1
  /\ countSurroundingMines board3 (-1) 3 = Ok 0.
Proof.
  split; [|split].
  - exact (proj1 (countSurroundingMines_spec board3 1 1 eq_refl)).
  - exact (proj1 (countSurroundingMines_spec board3 0 0 eq_refl)).
  - exact (proj1 (countSurroundingMines_spec board3 (-1) 3 eq_refl)).
Defined.

(** ** Reading and changing one element of a two-dimensional array *)

Lemma lookup2_Some {A} (a : list (list A)) i j v :
  lookup2 a i j = Some v <->
  0 <= i /\ 0 <= j /\ exists ar, a !! Z.to_nat i = Some ar /\ ar !! Z.to_nat j = Some v.
Proof.
  unfold lookup2. split.
  - destruct (index a i) as [ar|] eqn:Hi; [|discriminate]. simpl.
    intros Hj. apply index_Some in Hi as [? ?]. apply index_Some in Hj as [? ?]. eauto.
  - intros (Hi & Hj & ar & Har & Hv).
    assert (index a i = Some ar) as -> by (apply index_Some; auto).
    simpl. apply index_Some; auto.
Qed.

Lemma lookup2_negative {A} (a : list (list A)) i j :
  ~ (0 <= i /\ 0 <= j) -> lookup2 a i j = None.
Proof.
  intros H. destruct (lookup2 a i j) as [v|] eqn:E; [|done].
  apply lookup2_Some in E. lia.
Qed.

Lemma lookup2_alter2 {A} (f : A -> A) i j (a : list (list A)) i' j' :
  lookup2 (alter2 f i j a) i' j' =
  if decide (i = i' /\ j = j') then f <$> lookup2 a i' j' else lookup2 a i' j'.
Proof.
  unfold alter2.
  destruct (Z.leb_spec 0 i), (Z.leb_spec 0 j); simpl;
    try (case_decide as Hd; [destruct Hd as [<- <-]|done];
         rewrite lookup2_negative by lia; done).
  unfold lookup2, index.
  destruct (Z.leb_spec 0 i'); simpl; [|by case_decide].
  rewrite list_lookup_alter.
  destruct (decide (Z.to_nat i = Z.to_nat i')) as [Hi|Hi].
  - assert (i = i') as <- by lia.
    destruct (a !! Z.to_nat i) as [ar|]; simpl; [|by case_decide].
    destruct (Z.leb_spec 0 j'); simpl; [|by case_decide].
    rewrite list_lookup_alter.
    destruct (decide (Z.to_nat j = Z.to_nat j')) as [Hj|Hj].
    + assert (j = j') as <- by lia. by case_decide; [|tauto].
    + case_decide; [lia|done].
  - case_decide; [lia|done].
Qed.

Lemma lookup2_alter2_eq {A} (f : A -> A) i j (a : list (list A)) :
  lookup2 (alter2 f i j a) i j = f <$> lookup2 a i j.
Proof. rewrite lookup2_alter2. by case_decide; [|tauto]. Qed.

Lemma lookup2_alter2_ne {A} (f : A -> A) i j (a : list (list A)) i' j' :
  (i, j) <> (i', j') -> lookup2 (alter2 f i j a) i' j' = lookup2 a i' j'.
Proof. intros Hne. rewrite lookup2_alter2. case_decide as H; [|done]. by destruct H as [<- <-]. Qed.

Lemma forallb_alter {A} (q : A -> bool) (F : A -> A) n (l : list A) :
  (forall v, q (F v) = q v) -> forallb q (alter F n l) = forallb q l.
Proof.
  intros HF. revert n. induction l as [|v l IH]; intros [|n]; simpl; try done.
  - f_equal. apply HF.
  - f_equal. apply IH.
Qed.

Lemma rectangular_alter2 {A} (f : A -> A) i j h w (a : list (list A)) :
  rectangular h w (alter2 f i j a) = rectangular h w a.
Proof.
  unfold alter2. destruct ((0 <=? i) && (0 <=? j)); [|done].
  unfold rectangular. rewrite length_alter. f_equal.
  apply forallb_alter. intros ar. by rewrite length_alter.
Qed.

Lemma count_alter {A} (p : A -> bool) f (l : list A) i v :
  l !! i = Some v ->
  Z.of_nat (length (List.filter p (alter f i l))) =
  Z.of_nat (length (List.filter p l)) - Z.b2z (p v) + Z.b2z (p (f v)).
Proof.
  revert i. induction l as [|a l IH]; intros [|i] Hi; simplify_eq/=.
  - destruct (p v), (p (f v)); simpl; lia.
  - specialize (IH _ Hi). destruct (p a); simpl; lia.
Qed.

Lemma count2_alter {A} (p : A -> bool) F (a : list (list A)) i ar :
  a !! i = Some ar ->
  count2 p (alter F i a) =
  count2 p a - Z.of_nat (length (List.filter p ar)) + Z.of_nat (length (List.filter p (F ar))).
Proof.
  unfold count2. revert i. induction a as [|a0 a IH]; intros [|i] Hi; simplify_eq/=.
  - rewrite !List.filter_app, !length_app. lia.
  - specialize (IH _ Hi). rewrite !List.filter_app, !length_app. lia.
Qed.

Lemma count2_alter2 {A} (p : A -> bool) f i j (a : list (list A)) v :
  lookup2 a i j = Some v ->
  count2 p (alter2 f i j a) = count2 p a - Z.b2z (p v) + Z.b2z (p (f v)).
Proof.
  intros (Hi & Hj & ar & Har & Hv)%lookup2_Some. unfold alter2.
  destruct (Z.leb_spec 0 i), (Z.leb_spec 0 j); try lia. simpl.
  rewrite (count2_alter _ _ _ _ _ Har), (count_alter _ _ _ _ _ Hv). lia.
Qed.

Lemma length_concat_rectangular {A} h w (a : list (list A)) :
  rectangular h w a = true -> Z.of_nat (length (concat a)) = h * w.
Proof.
  intros [<- Hw]%rectangular_spec. induction a as [|ar a IH]; [done|].
  simpl. rewrite length_app, Nat2Z.inj_add, IH.
  - rewrite (Hw ar) by constructor. lia.
  - intros ar' Har'. apply Hw. by constructor.
Qed.

Lemma count2_le {A} (p : A -> bool) h w (a : list (list A)) :
  rectangular h w a = true -> 0 <= count2 p a <= h * w.
Proof.
  intros H. rewrite <- (length_concat_rectangular _ _ _ H). unfold count2.
  pose proof (List.filter_length_le p (concat a)). lia.
Qed.

Lemma filter_short_witness {A} (p : A -> bool) (l : list A) :
  (length (List.filter p l) < length l)%nat ->
  exists i v, l !! i = Some v /\ p v = false.
Proof.
  induction l as [|a l IH]; simpl; [lia|].
  destruct (p a) eqn:Hp; simpl; intros H.
  - destruct IH as (i & v & Hi & Hv); [lia|]. by exists (S i), v.
  - by exists 0%nat, a.
Qed.

(** Fewer elements satisfy [p] than there are places: some place holds an
    element that does not. *)
Lemma count2_lt_witness {A} (p : A -> bool) h w (a : list (list A)) :
  rectangular h w a = true -> count2 p a < h * w ->
  exists i j v, lookup2 a i j = Some v /\ p v = false.
Proof.
  intros Hr. rewrite <- (length_concat_rectangular _ _ _ Hr). clear Hr.
  unfold count2. induction a as [|ar a IH]; simpl; [lia|].
  rewrite List.filter_app, !length_app. intros H.
  destruct (decide (length (List.filter p ar) < length ar)%nat) as [Hlt|Hge].
  - destruct (filter_short_witness _ _ Hlt) as (j & v & Hj & Hv).
    exists 0, (Z.of_nat j), v. split; [|done].
    apply lookup2_Some. rewrite Nat2Z.id. split; [lia|]. split; [lia|]. by exists ar.
  - pose proof (List.filter_length_le p ar).
    destruct IH as (i & j & v & (Hi & Hj & ar' & Har' & Hv')%lookup2_Some & Hv); [lia|].
    exists (i + 1), j, v. split; [|done]. apply lookup2_Some.
    split; [lia|]. split; [lia|]. exists ar'. split; [|done].
    replace (Z.to_nat (i + 1)) with (S (Z.to_nat i)) by lia. done.
Qed.

(** ** Planting the mines *)

Lemma planting_frame_refl g : planting_frame g g.
Proof. unfold planting_frame; tauto. Qed.

Lemma planting_frame_trans g1 g2 g3 :
  planting_frame g1 g2 -> planting_frame g2 g3 -> planting_frame g1 g3.
Proof.
  unfold planting_frame.
  intros (?&?&?&?&?&?&?&?&?&?) (?&?&?&?&?&?&?&?&?&?).
  repeat (split; [congruence|]). auto.
Qed.

Lemma lt_integer p x m : is_integer x m -> JS.lt (JS.of_Z p) x = (p <? m).
Proof.
  destruct x as [| |q]; simpl; try contradiction. intros H.
  assert ((inject_Z p ?= q) = (inject_Z p ?= inject_Z m))%Q as ->
    by (apply Qcompare_comp; [reflexivity|exact H]).
  unfold Qcompare, inject_Z, Z.ltb. simpl. by rewrite !Z.mul_1_r.
Qed.

Lemma floor_draw u n :
  (0 <= u)%Q -> (u < 1)%Q -> 1 <= n -> 0 <= Qfloor (u * inject_Z n) < n.
Proof.
  intros H0 H1 Hn.
  assert (Hpos : (0 < inject_Z n)%Q) by (unfold Qlt; simpl; lia).
  split.
  - change 0 with (Qfloor 0). apply Qfloor_resp_le.
    apply Qmult_le_0_compat; [done|]. by apply Qlt_le_weak.
  - rewrite Zlt_Qlt. eapply Qle_lt_trans; [apply Qfloor_le|].
    apply Qlt_le_trans with (1 * inject_Z n)%Q; [by apply Qmult_lt_compat_r|].
    rewrite Qmult_1_l. apply Qle_refl.
Qed.

Lemma draw_in_bounds random g n :
  unit_interval random -> 1 <= rows (stats g) -> 1 <= cols (stats g) ->
  in_bounds g (draw random (rows (stats g)) (cols (stats g)) n).1
              (draw random (rows (stats g)) (cols (stats g)) n).2 = true.
Proof.
  intros Hu Hh Hw. apply in_bounds_spec. unfold draw; simpl.
  destruct (Hu (2 * n)%nat), (Hu (2 * n + 1)%nat).
  split; by apply floor_draw.
Qed.

Lemma is_mined_cellAt g r c :
  grid_ok g = true -> in_bounds g r c = true ->
  exists cl, cellAt g r c = Some cl /\ mined cl = is_mined g r c.
Proof.
  intros Hok Hin. pose proof Hin as [cl Hcl]%(cellAt_is_Some _ _ _ Hok).
  exists cl. split; [done|]. unfold is_mined. by rewrite Hin, Hcl.
Qed.

(** An attempt on a cell that already holds a mine changes nothing. *)
Lemma plantMine_mined r c g :
  grid_ok g = true -> in_bounds g r c = true -> is_mined g r c = true ->
  plantMine r c g = Ok (g, false).
Proof.
  intros Hok Hin Hm. destruct (is_mined_cellAt _ _ _ Hok Hin) as (cl & Hcl & Hmc).
  unfold plantMine, cellAt, lookup2 in *. destruct (grid g) as [a|]; [|done]. simpl in *.
  destruct (index a r) as [ar|]; [|done]. simpl in *. rewrite Hcl, Hmc, Hm. done.
Qed.

(** An attempt on a mine-free cell plants one mine there and nowhere else. *)
Lemma plantMine_fresh r c g :
  grid_ok g = true -> in_bounds g r c = true -> is_mined g r c = false ->
  exists g1, plantMine r c g = Ok (g1, true)
    /\ stats g1 = stats g /\ grid_ok g1 = true
    /\ mined_cells g1 = mined_cells g + 1
    /\ is_mined g1 r c = true
    /\ planting_frame g g1.
Proof.
  intros Hok Hin Hm. destruct (is_mined_cellAt _ _ _ Hok Hin) as (cl & Hcl & Hmc).
  unfold plantMine. unfold cellAt in Hcl. unfold grid_ok in Hok.
  destruct (grid g) as [a|] eqn:Hg; [|done]. simpl in Hcl.
  pose proof Hcl as Hcl'. unfold lookup2 in Hcl'.
  destruct (index a r) as [ar|]; [|done]. simpl in Hcl'. rewrite Hcl', Hmc, Hm. simpl.
  eexists. split; [done|]. split; [done|].
  assert (Hcell : forall r' c', cellAt (set_grid (Some (alter2 (fun _ => Cell true) r c a)) g) r' c'
            = if decide (r = r' /\ c = c') then Some (Cell true) else cellAt g r' c').
  { intros r' c'. unfold cellAt. rewrite Hg. simpl. rewrite lookup2_alter2.
    case_decide as Hd; [|done]. destruct Hd as [<- <-]. by rewrite Hcl. }
  split; [|split; [|split]].
  - unfold grid_ok. simpl. by rewrite rectangular_alter2.
  - unfold mined_cells. rewrite Hg. simpl.
    rewrite (count2_alter2 _ _ _ _ _ _ Hcl), Hmc, Hm. simpl. lia.
  - unfold is_mined. change (in_bounds (set_grid _ g) r c) with (in_bounds g r c).
    rewrite Hin, Hcell. by case_decide; [|tauto].
  - unfold planting_frame. simpl. repeat (split; [done|]).
    intros r' c'. unfold is_mined.
    change (in_bounds (set_grid _ g) r' c') with (in_bounds g r' c').
    rewrite Hcell. case_decide; [|done]. by intros [-> _]%andb_true_iff.
Qed.

Lemma planting_inv_planted g1 :
  grid_ok g1 = true -> 1 <= rows (stats g1) -> 1 <= cols (stats g1) ->
  planting_inv (set_stats (set_minesPlanted (mined_cells g1) (stats g1)) g1).
Proof. intros Hok Hh Hw. unfold planting_inv. simpl. auto. Qed.

(** One iteration of the loop while mines are still to be planted: either
    the drawn cell is mined already and the loop goes on from the same
    state, or it gets the one new mine and the counter goes up by one. *)
Lemma plantAllMines_step random n g m :
  unit_interval random -> planting_inv g ->
  is_integer (JS.ToNumber (mines (stats g))) m -> minesPlanted (stats g) < m ->
  exists g1,
    (forall fuel,
       plantAllMines (S fuel) random n g = plantAllMines fuel random (S n) g1)
    /\ planting_inv g1 /\ planting_frame g g1
    /\ let rc := draw random (rows (stats g)) (cols (stats g)) n in
       (is_mined g rc.1 rc.2 = true /\ g1 = g) \/
       (is_mined g rc.1 rc.2 = false /\ is_mined g1 rc.1 rc.2 = true
        /\ minesPlanted (stats g1) = minesPlanted (stats g) + 1).
Proof.
  intros Hu (Hok & Hcnt & Hh & Hw) Hm Hlt.
  pose proof (draw_in_bounds random g n Hu Hh Hw) as Hin.
  assert (Hhead : forall fuel g1 planted,
    plantMine (draw random (rows (stats g)) (cols (stats g)) n).1
              (draw random (rows (stats g)) (cols (stats g)) n).2 g = Ok (g1, planted) ->
    plantAllMines (S fuel) random n g =
    plantAllMines fuel random (S n)
      (if planted : bool
       then set_stats (set_minesPlanted (minesPlanted (stats g1) + 1) (stats g1)) g1
       else g1)).
  { intros fuel g1 planted Hp. cbn [plantAllMines]. rewrite (lt_integer _ _ _ Hm).
    destruct (Z.ltb_spec (minesPlanted (stats g)) m) as [_|]; [|lia].
    unfold draw in Hp. cbn [fst snd] in Hp. by rewrite Hp. }
  destruct (draw random (rows (stats g)) (cols (stats g)) n) as [r c].
  cbn [fst snd] in *.
  destruct (is_mined g r c) eqn:Hmined.
  - exists g. split.
    { intros fuel. by rewrite (Hhead fuel g false (plantMine_mined _ _ _ Hok Hin Hmined)). }
    split; [done|]. split; [apply planting_frame_refl|]. by left.
  - destruct (plantMine_fresh _ _ _ Hok Hin Hmined)
      as (g1 & Hp & Hst & Hok1 & Hc1 & Hm1 & Hfr).
    eexists. split; [intros fuel; by rewrite (Hhead fuel g1 true Hp)|].
    split; [|split].
    + unfold planting_inv. split; [exact Hok1|].
      change (mined_cells (set_stats _ g1)) with (mined_cells g1).
      simpl. rewrite Hst. split; [lia|done].
    + destruct Hfr as (?&?&?&?&?&?&?&?&?&Hmono). unfold planting_frame. simpl.
      repeat (split; [done|]). exact Hmono.
    + right. split; [done|]. split; [exact Hm1|]. simpl. by rewrite Hst.
Qed.

(** Whenever the loop returns, exactly [m] cells are mined. *)
Lemma plantAllMines_post fuel random n g g' m :
  unit_interval random -> planting_inv g ->
  is_integer (JS.ToNumber (mines (stats g))) m -> minesPlanted (stats g) <= m ->
  plantAllMines fuel random n g = Ok g' ->
  planting_inv g' /\ planting_frame g g'
  /\ mined_cells g' = m /\ minesPlanted (stats g') = m.
Proof.
  intros Hu. revert n g. induction fuel as [|fuel IH]; intros n g Hinv Hm Hle Hrun.
  - cbn [plantAllMines] in Hrun. rewrite (lt_integer _ _ _ Hm) in Hrun.
    destruct (Z.ltb_spec (minesPlanted (stats g)) m); [done|]. simplify_eq.
    split; [done|]. split; [apply planting_frame_refl|].
    destruct Hinv as (_ & <- & _). lia.
  - destruct (Z.ltb_spec (minesPlanted (stats g)) m) as [Hlt|Hge].
    + destruct (plantAllMines_step random n g m Hu Hinv Hm Hlt)
        as (g1 & Heq & Hinv1 & Hfr & Hcase).
      rewrite Heq in Hrun.
      assert (Hm1 : is_integer (JS.ToNumber (mines (stats g1))) m).
      { destruct Hfr as (_&_&->&_). done. }
      assert (Hle1 : minesPlanted (stats g1) <= m).
      { destruct Hcase as [[_ ->]|(_ & _ & ->)]; lia. }
      destruct (IH _ _ Hinv1 Hm1 Hle1 Hrun) as (? & Hfr' & ? & ?).
      split; [done|]. split; [|done]. by eapply planting_frame_trans.
    + cbn [plantAllMines] in Hrun. rewrite (lt_integer _ _ _ Hm) in Hrun.
      destruct (Z.ltb_spec (minesPlanted (stats g)) m); [lia|]. simplify_eq.
      split; [done|]. split; [apply planting_frame_refl|].
      destruct Hinv as (_ & <- & _). lia.
Qed.

(** With a fair random source the loop returns whenever the target does
    not exceed the number of cells. *)
Lemma plantAllMines_terminates random m h w :
  unit_interval random -> fair random h w -> m <= h * w ->
  forall k g n,
    Z.to_nat (m - minesPlanted (stats g)) = k ->
    rows (stats g) = h -> cols (stats g) = w ->
    planting_inv g -> is_integer (JS.ToNumber (mines (stats g))) m ->
    exists fuel g', plantAllMines fuel random n g = Ok g'.
Proof.
  intros Hu Hfair Hmax. induction k as [|k IHk]; intros g n Hk Hh Hw Hinv Hm.
  - exists 0%nat, g. cbn [plantAllMines]. rewrite (lt_integer _ _ _ Hm).
    destruct (Z.ltb_spec (minesPlanted (stats g)) m); [lia|done].
  - assert (Hlt : minesPlanted (stats g) < m) by lia.
    (* some cell is still free, and the source will draw it *)
    assert (exists r c, in_bounds g r c = true /\ is_mined g r c = false)
      as (r & c & Hin & Hfree).
    { destruct Hinv as (Hok & Hcnt & _). unfold grid_ok, mined_cells in *.
      destruct (grid g) as [a|] eqn:Hg; [|done].
      destruct (count2_lt_witness mined _ _ a Hok) as (i & j & v & Hv & Hfree); [lia|].
      assert (Hin : in_bounds g i j = true).
      { apply in_bounds_spec, (rectangular_index _ _ a i j Hok). by rewrite Hv. }
      exists i, j. split; [done|]. unfold is_mined, cellAt. rewrite Hin, Hg. simpl.
      by rewrite Hv. }
    apply in_bounds_spec in Hin. rewrite Hh, Hw in Hin.
    destruct (Hfair n r c) as (j0 & Hj0 & Hdraw); [lia|lia|].
    assert (Hd : exists d, j0 = (n + d)%nat) by (exists (j0 - n)%nat; lia).
    destruct Hd as [d ->]. clear Hj0.
    revert n Hdraw. induction d as [|d IHd]; intros n Hdraw;
      destruct (plantAllMines_step random n g m Hu Hinv Hm Hlt)
        as (g1 & Heq & Hinv1 & Hfr & Hcase);
      rewrite Hh, Hw in Hcase;
      pose proof Hfr as (Hr1 & Hc1 & Hm1 & _).
    + replace (n + 0)%nat with n in Hdraw by lia.
      rewrite Hdraw in Hcase. cbn [fst snd] in Hcase.
      destruct Hcase as [[Hc _]|(_ & _ & Hp)]; [congruence|].
      destruct (IHk g1 (S n)) as (fuel & g' & Hrun); try congruence; [lia|].
      exists (S fuel), g'. by rewrite Heq.
    + destruct Hcase as [[_ ->]|(_ & _ & Hp)].
      * destruct (IHd (S n)) as (fuel & g' & Hrun).
        { by replace (S n + d)%nat with (n + S d)%nat by lia. }
        exists (S fuel), g'. by rewrite Heq.
      * destruct (IHk g1 (S n)) as (fuel & g' & Hrun); try congruence; [lia|].
        exists (S fuel), g'. by rewrite Heq.
Qed.

Lemma mined_cells_le g :
  grid_ok g = true -> 0 <= mined_cells g <= rows (stats g) * cols (stats g).
Proof.
  unfold grid_ok, mined_cells. destruct (grid g); [|done]. apply count2_le.
Qed.

(** With a target above the number of cells the loop never returns. *)
Lemma plantAllMines_diverges fuel random n g m :
  unit_interval random -> planting_inv g ->
  is_integer (JS.ToNumber (mines (stats g))) m ->
  rows (stats g) * cols (stats g) < m ->
  plantAllMines fuel random n g = NoFuel.
Proof.
  intros Hu. revert n g. induction fuel as [|fuel IH]; intros n g Hinv Hm Hbig.
  - cbn [plantAllMines]. rewrite (lt_integer _ _ _ Hm).
    destruct Hinv as (Hok & Hcnt & _). pose proof (mined_cells_le g Hok).
    destruct (Z.ltb_spec (minesPlanted (stats g)) m); [done|lia].
  - assert (Hlt : minesPlanted (stats g) < m).
    { destruct Hinv as (Hok & Hcnt & _). pose proof (mined_cells_le g Hok). lia. }
    destruct (plantAllMines_step random n g m Hu Hinv Hm Hlt)
      as (g1 & Heq & Hinv1 & (Hr1 & Hc1 & Hm1 & _) & _).
    rewrite Heq. apply IH; [done|by rewrite Hm1|by rewrite Hr1, Hc1].
Qed.

Lemma generateGrid_fresh sizeOfGame numberOfMines g :
  minesPlanted (stats g) = 0 -> fresh_board (generateGrid sizeOfGame numberOfMines g).
Proof. intros H. unfold fresh_board, generateGrid. simpl. auto. Qed.

Lemma rectangular_replicate {A} h w (v : A) :
  0 <= h -> 0 <= w ->
  rectangular h w (replicate (Z.to_nat h) (replicate (Z.to_nat w) v)) = true.
Proof.
  intros Hh Hw. apply rectangular_spec. rewrite length_replicate. split; [lia|].
  intros ar [-> _]%elem_of_replicate. rewrite length_replicate. lia.
Qed.

Lemma count2_replicate_false {A} (p : A -> bool) n k v :
  p v = false -> count2 p (replicate n (replicate k v)) = 0.
Proof.
  intros Hv. unfold count2.
  assert (Hrow : List.filter p (replicate k v) = []).
  { induction k as [|k IH]; simpl; [done|]. by rewrite Hv. }
  induction n as [|n IH]; simpl; [done|].
  by rewrite List.filter_app, Hrow.
Qed.

Lemma fresh_board_inv g :
  fresh_board g -> 1 <= rows (stats g) -> 1 <= cols (stats g) -> planting_inv g.
Proof.
  intros [Hg H0] Hh Hw. unfold planting_inv, grid_ok, mined_cells. rewrite Hg.
  split; [apply rectangular_replicate; lia|]. split; [|done].
  by rewrite count2_replicate_false.
Qed.

Lemma Zpos_of_nat n : (1 <= n)%nat -> Zpos (Pos.of_nat n) = Z.of_nat n.
Proof. intros H. rewrite <- positive_nat_Z, Nat2Pos.id; [done|lia]. Qed.

Lemma sweep_unit h w : (1 <= h)%nat -> (1 <= w)%nat -> unit_interval (sweep h w).
Proof.
  intros Hh Hw i. unfold sweep.
  set (j := ((i / 2) mod (h * w))%nat).
  assert (Hj : (j < h * w)%nat) by (apply Nat.mod_upper_bound; nia).
  assert (Hr : (j / w < h)%nat) by (apply Nat.Div0.div_lt_upper_bound; lia).
  assert (Hc : (j mod w < w)%nat) by (apply Nat.mod_upper_bound; lia).
  destruct (Nat.even i); unfold Qle, Qlt; simpl; rewrite Zpos_of_nat by done; lia.
Qed.

Lemma floor_scaled a h :
  (1 <= h)%nat ->
  Qfloor ((Z.of_nat a # Pos.of_nat h) * inject_Z (Z.of_nat h)) = Z.of_nat a.
Proof.
  intros Hh. unfold Qfloor, Qmult, inject_Z. simpl.
  rewrite Pos.mul_1_r, Zpos_of_nat by done. apply Z.div_mul. lia.
Qed.

Lemma sweep_draw h w m :
  (1 <= h)%nat -> (1 <= w)%nat ->
  draw (sweep h w) (Z.of_nat h) (Z.of_nat w) m =
  (Z.of_nat ((m mod (h * w)) / w), Z.of_nat ((m mod (h * w)) mod w)).
Proof.
  intros Hh Hw. unfold draw, sweep.
  assert (E1 : (2 * m / 2 = m)%nat) by (rewrite Nat.mul_comm; apply Nat.div_mul; lia).
  assert (E2 : ((2 * m + 1) / 2 = m)%nat).
  { rewrite (Nat.mul_comm 2 m), Nat.div_add_l by lia. simpl. lia. }
  assert (E3 : Nat.even (2 * m) = true) by (by rewrite Nat.even_mul).
  assert (E4 : Nat.even (2 * m + 1) = false).
  { rewrite Nat.add_1_r, Nat.even_succ, Nat.odd_mul. done. }
  rewrite E1, E2, E3, E4. by rewrite !floor_scaled.
Qed.

Lemma sweep_fair h w :
  (1 <= h)%nat -> (1 <= w)%nat -> fair (sweep h w) (Z.of_nat h) (Z.of_nat w).
Proof.
  intros Hh Hw n r c Hr Hc.
  set (r' := Z.to_nat r). set (c' := Z.to_nat c).
  assert (Hr' : (r' < h)%nat) by lia. assert (Hc' : (c' < w)%nat) by lia.
  exists ((r' * w + c') + (n + 1) * (h * w))%nat. split; [nia|].
  rewrite sweep_draw by done.
  rewrite Nat.Div0.mod_add, Nat.mod_small by nia.
  rewrite Nat.div_add_l, Nat.div_small, Nat.add_0_r by lia.
  rewrite (Nat.add_comm (r' * w) c'), Nat.Div0.mod_add, Nat.mod_small by lia.
  f_equal; lia.
Qed.

(** C3. On a freshly generated, mine-free board of at least one row and
    one column, with a target [m] such that 0 <= m < rows * cols and a
    fair random source: [plantAllMines] returns; whenever it returns,
    exactly [m] cells are mined and the counter shows [m], the row and
    column numbers are what they were and the grid still has that shape;
    and during the loop an attempt on a cell that is already mined changes
    nothing ([plantMine] answers false and leaves the state alone) and the
    loop draws again. *)
Theorem plantAllMines_exact (random : nat -> Q) (g : game) (m : Z) :
  unit_interval random ->
  fair random (rows (stats g)) (cols (stats g)) ->
  1 <= rows (stats g) -> 1 <= cols (stats g) ->
  fresh_board g ->
  is_integer (JS.ToNumber (mines (stats g))) m ->
  0 <= m < rows (stats g) * cols (stats g) ->
  (exists fuel g', plantAllMines fuel random 0 g = Ok g')
  /\ (forall fuel g', plantAllMines fuel random 0 g = Ok g' ->
        mined_cells g' = m /\ minesPlanted (stats g') = m
        /\ rows (stats g') = rows (stats g) /\ cols (stats g') = cols (stats g)
        /\ grid_ok g' = true)
  /\ (forall n g1,
        planting_inv g1 -> planting_frame g g1 -> minesPlanted (stats g1) < m ->
        let rc := draw random (rows (stats g)) (cols (stats g)) n in
        is_mined g1 rc.1 rc.2 = true ->
        plantMine rc.1 rc.2 g1 = Ok (g1, false)
        /\ forall fuel,
             plantAllMines (S fuel) random n g1 = plantAllMines fuel random (S n) g1).
Proof.
  intros Hu Hfair Hh Hw Hfresh Hm Hrange.
  pose proof (fresh_board_inv g Hfresh Hh Hw) as Hinv.
  assert (H0 : minesPlanted (stats g) = 0) by apply Hfresh.
  split; [|split].
  - eapply (plantAllMines_terminates random m _ _ Hu Hfair); eauto. lia.
  - intros fuel g' Hrun.
    destruct (plantAllMines_post fuel random 0 g g' m Hu Hinv Hm) as (Hinv' & Hfr & ? & ?);
      [lia|done|].
    destruct Hfr as (? & ? & _). destruct Hinv' as (? & _). auto.
  - intros n g1 Hinv1 (Hr1 & Hc1 & Hm1 & _) Hlt rc Hmined. subst rc.
    rewrite <- Hr1, <- Hc1 in *.
    destruct Hinv1 as (Hok1 & Hcnt1 & Hh1 & Hw1).
    pose proof (draw_in_bounds random g1 n Hu Hh1 Hw1) as Hin.
    split; [by apply plantMine_mined|].
    rewrite <- Hm1 in Hm.
    destruct (plantAllMines_step random n g1 m Hu (conj Hok1 (conj Hcnt1 (conj Hh1 Hw1))) Hm Hlt)
      as (g2 & Heq & _ & _ & [[_ ->]|[Hc _]]); [done|congruence].
Qed.

Lemma plantAllMines_exact_witness :
  exists fuel g',
    plantAllMines fuel (sweep 2 2) 0 (fresh2 (JS.Str "3")) = Ok g'
    /\ mined_cells g' = 3 /\ rows (stats g') = 2 /\ cols (stats g') = 2.
Proof.
  destruct (plantAllMines_exact (sweep 2 2) (fresh2 (JS.Str "3")) 3) as ([fuel [g' Hrun]] & Hpost & _).
  - apply sweep_unit; lia.
  - apply (sweep_fair 2 2); lia.
  - simpl; lia.
  - simpl; lia.
  - split; reflexivity.
  - reflexivity.
  - simpl; lia.
  - exists fuel, g'. split; [exact Hrun|].
    destruct (Hpost fuel g' Hrun) as (? & ? & ? & ? & ?). auto.
Defined.

(** The claim C7 says that the loop never returns once the target reaches
    rows * cols. With the 64 mines of a full 8 x 8 board it returns, every
    cell mined. *)
Lemma plantAllMines_full_board_returns :
  exists g',
    plantAllMines 64 (sweep 8 8) 0
      (generateGrid 1 (JS.Str "64") (init_defaults blank)) = Ok g'
    /\ rows (stats g') * cols (stats g') = 64
    /\ is_integer (JS.ToNumber (mines (stats g'))) 64
    /\ mined_cells g' = 64.
Proof.
  destruct (plantAllMines 64 (sweep 8 8) 0
              (generateGrid 1 (JS.Str "64") (init_defaults blank))) as [g'| |] eqn:E;
    [|vm_compute in E; discriminate..].
  exists g'. split; [done|].
  assert (E' : Ok (rows (stats g') * cols (stats g'), JS.ToNumber (mines (stats g')),
                   mined_cells g') = Ok (64, JS.Fin (64 # 1), 64)).
  { rewrite <- (f_equal (fun o => match o with
                                  | Ok g => Ok (rows (stats g) * cols (stats g),
                                                JS.ToNumber (mines (stats g)),
                                                mined_cells g)
                                  | _ => NoFuel end) E).
    vm_compute. reflexivity. }
  injection E' as -> -> ->. repeat split; reflexivity.
Qed.

(** C7, as the code has it. From any state of the planting loop on a board
    of at least one row and one column: with a fair random source the loop
    returns whenever the target is at most rows * cols; and whatever the
    source, it never returns when the target is greater than rows * cols. *)
Theorem plantAllMines_termination (random : nat -> Q) (g : game) (m : Z) :
  unit_interval random -> planting_inv g ->
  is_integer (JS.ToNumber (mines (stats g))) m ->
  (fair random (rows (stats g)) (cols (stats g)) ->
   m <= rows (stats g) * cols (stats g) ->
   exists fuel g', plantAllMines fuel random 0 g = Ok g')
  /\ (rows (stats g) * cols (stats g) < m ->
      forall fuel, plantAllMines fuel random 0 g = NoFuel).
Proof.
  intros Hu Hinv Hm. split.
  - intros Hfair Hle. eapply (plantAllMines_terminates random m _ _ Hu Hfair); eauto.
  - intros Hbig fuel. by eapply plantAllMines_diverges.
Qed.

Lemma plantAllMines_termination_witness :
  (exists fuel g', plantAllMines fuel (sweep 2 2) 0 (fresh2 (JS.Str "4")) = Ok g')
  /\ plantAllMines 1000 (sweep 2 2) 0 (fresh2 (JS.Str "5")) = NoFuel.
Proof.
  assert (Hu : unit_interval (sweep 2 2)) by (apply sweep_unit; lia).
  assert (Hinv : forall v, planting_inv (fresh2 v)).
  { intros v. apply fresh_board_inv; [split; reflexivity|simpl; lia..]. }
  split.
  - apply (proj1 (plantAllMines_termination (sweep 2 2) (fresh2 (JS.Str "4")) 4
                    Hu (Hinv _) eq_refl)).
    + apply (sweep_fair 2 2); lia.
    + simpl; lia.
  - apply (proj2 (plantAllMines_termination (sweep 2 2) (fresh2 (JS.Str "5")) 5
                    Hu (Hinv _) eq_refl)).
    simpl; lia.
Defined.

(** ** The mine-count field of the start dialog *)

Lemma plantMine_stats r c g g1 planted :
  plantMine r c g = Ok (g1, planted) -> stats g1 = stats g.
Proof.
  unfold plantMine. intros H.
  repeat (match type of H with
          | context [match ?e with _ => _ end] => destruct e
          end; simplify_eq/=); done.
Qed.

Lemma plantAllMines_mines fuel random n g g' :
  plantAllMines fuel random n g = Ok g' -> mines (stats g') = mines (stats g).
Proof.
  revert n g. induction fuel as [|fuel IH]; intros n g; cbn [plantAllMines];
    destruct (JS.lt _ _); intros H; simplify_eq/=; try done.
  destruct (plantMine _ _ g) as [[g1 planted]| |] eqn:Hp; simplify_eq/=.
  apply plantMine_stats in Hp. apply IH in H. rewrite H.
  destruct planted; simpl; by rewrite Hp.
Qed.

Example StringToNumber_12 : JS.StringToNumber " 12 " = JS.Fin (inject_Z 12 * 1)%Q.
Proof. reflexivity. Qed.

Example isNaN_text : JS.isNaN (JS.Str "abc") = true.
Proof. reflexivity. Qed.

Example isNaN_digits : JS.isNaN (JS.Str "12") = false.
Proof. reflexivity. Qed.

Example isNaN_missing_field : JS.isNaN JS.Undefined = true.
Proof. reflexivity. Qed.

(** The empty string converts to the number 0, so it counts as numeric. *)
Example isNaN_empty : JS.isNaN (JS.Str "") = false.
Proof. reflexivity. Qed.

(** The guard of [generateGrid] as it is written: when [isNaN] answers
    true for the value of the mine field, [data.stats.mines] stays at the
    10 that [init] has just set; otherwise the value of the field is
    stored, and a new game plants with it. *)
Theorem generateGrid_mines (sizeOfGame : Z) (numberOfMines : JS.value) (g : game) :
  mines (stats (generateGrid sizeOfGame numberOfMines (init_defaults g))) =
    (if JS.isNaN numberOfMines then JS.Number (JS.of_Z 10) else numberOfMines)
  /\ (forall fuel random g',
        init None sizeOfGame numberOfMines fuel random g = Ok g' ->
        mines (stats g') =
          (if JS.isNaN numberOfMines then JS.Number (JS.of_Z 10) else numberOfMines)).
Proof.
  assert (Hgen : forall g0,
    mines (stats (generateGrid sizeOfGame numberOfMines (init_defaults g0))) =
    (if JS.isNaN numberOfMines then JS.Number (JS.of_Z 10) else numberOfMines)).
  { intros g0. unfold generateGrid. simpl. by destruct (JS.isNaN numberOfMines). }
  split; [apply Hgen|].
  intros fuel random g' Hinit. unfold init in Hinit. cbn [mbind res_bind] in Hinit.
  destruct (plantAllMines fuel random 0 _) as [g1| |] eqn:Hplant; simplify_eq/=.
  apply plantAllMines_mines in Hplant. rewrite Hplant. exact (Hgen g).
Qed.

Lemma generateGrid_mines_witness :
  exists g',
    init None 1 (JS.Str "ten") 10 (sweep 8 8) blank = Ok g'
    /\ mines (stats g') = JS.Number (JS.of_Z 10).
Proof.
  destruct (init None 1 (JS.Str "ten") 10 (sweep 8 8) blank) as [g'| |] eqn:E.
  - exists g'. split; [reflexivity|].
    exact (proj2 (generateGrid_mines 1 (JS.Str "ten") blank) 10%nat (sweep 8 8) g' E).
  - vm_compute in E. discriminate.
  - vm_compute in E. discriminate.
Defined.

(** C8. The claim has input that is no number ignored and the default of
    10 mines kept.  Start a new 8 x 8 game with the mine field left empty,
    or holding a blank: [isNaN] converts such a string to 0 and answers
    false, so [generateGrid] puts the string in the place of the default;
    the planting loop reads it as 0 and plants nothing, whatever the fuel
    and the random numbers, and the game that starts has no mine at all:
    its first click wins it. *)
Theorem generateGrid_empty_field (fuel : nat) (random : nat -> Q) :
  JS.isNaN (JS.Str "") = false /\ JS.isNaN (JS.Str " ") = false
  /\ mines (stats (generateGrid 1 (JS.Str "") (init_defaults blank))) = JS.Str ""
  /\ (exists g g',
        init None 1 (JS.Str "") fuel random blank = Ok g
        /\ isGameActive g = true
        /\ mines (stats g) = JS.Str ""
        /\ minesPlanted (stats g) = 0 /\ mined_cells g = 0
        /\ cellClicked false 0 0 65 g = Ok g'
        /\ gameresult g' = Some "You Win!"%string)
  /\ (exists g,
        init None 1 (JS.Str " ") fuel random blank = Ok g
        /\ isGameActive g = true
        /\ mines (stats g) = JS.Str " "
        /\ minesPlanted (stats g) = 0 /\ mined_cells g = 0).
Proof.
  do 3 (split; [reflexivity|]). split.
  - do 2 eexists. split; [destruct fuel; vm_compute; reflexivity|].
    do 4 (split; [vm_compute; reflexivity|]).
    split; vm_compute; reflexivity.
  - eexists. split; [destruct fuel; vm_compute; reflexivity|].
    repeat split; vm_compute; reflexivity.
Qed.

(** ** The class attribute *)

Lemma elem_of_addClass c names cs :
  c ∈ addClass names cs <-> c ∈ cs \/ c ∈ names.
Proof.
  unfold addClass. revert cs. induction names as [|n names IH]; intros cs; simpl.
  - rewrite elem_of_nil. tauto.
  - rewrite IH, elem_of_cons. case_bool_decide as Hn.
    + split; [tauto|]. intros [?|[->|?]]; auto.
    + rewrite elem_of_app, list_elem_of_singleton. tauto.
Qed.

Lemma elem_of_removeClass c c' cs :
  c ∈ removeClass c' cs <-> c ∈ cs /\ c <> c'.
Proof. unfold removeClass. rewrite list_elem_of_filter. tauto. Qed.

Lemma hasClass_Some c cs : hasClass c (Some cs) = true <-> c ∈ cs.
Proof. simpl. apply bool_decide_eq_true. Qed.

Lemma hasClass_reveal_unknown o :
  hasClass classes.unknown (reveal_classes <$> o) = false.
Proof.
  destruct o as [cs|]; [|done]. simpl. apply bool_decide_eq_false.
  unfold reveal_classes. rewrite elem_of_addClass, elem_of_removeClass, list_elem_of_singleton.
  intros [[_ ?]|?]; done.
Qed.

Lemma hasClass_reveal_flagged o :
  hasClass classes.flagged (reveal_classes <$> o) = hasClass classes.flagged o.
Proof.
  destruct o as [cs|]; [|done]. simpl. apply bool_decide_ext.
  unfold reveal_classes. rewrite elem_of_addClass, elem_of_removeClass, list_elem_of_singleton.
  split; [intros [[? _]|?]; done|]. intros ?. left. done.
Qed.

(** ** Revealing the empty cells *)

Lemma same_data_refl g : same_data g g.
Proof. unfold same_data. tauto. Qed.

Lemma same_data_trans g1 g2 g3 : same_data g1 g2 -> same_data g2 g3 -> same_data g1 g3.
Proof.
  unfold same_data. intros (?&?&?&?&?) (?&?&?&?&?). repeat split; congruence.
Qed.

Lemma same_data_board g g' :
  same_data g g' ->
  grid_ok g' = grid_ok g
  /\ (forall r c, in_bounds g' r c = in_bounds g r c)
  /\ (forall r c, is_mined g' r c = is_mined g r c)
  /\ (forall r c, adjacent_mines g' r c = adjacent_mines g r c).
Proof.
  intros (Hg & Hs & _).
  assert (Hin : forall r c, in_bounds g' r c = in_bounds g r c).
  { intros. unfold in_bounds. by rewrite Hs. }
  assert (Hm : forall r c, is_mined g' r c = is_mined g r c).
  { intros. unfold is_mined, cellAt. by rewrite Hin, Hg. }
  split; [unfold grid_ok; by rewrite Hg, Hs|]. split; [done|]. split; [done|].
  intros. unfold adjacent_mines. f_equal. f_equal.
  apply List.filter_ext. intros o. apply Hm.
Qed.

Lemma fillable_same g g' p :
  same_data g g' -> elements_td g' p.1 p.2 = elements_td g p.1 p.2 ->
  fillable g' p = fillable g p.
Proof.
  intros (_ & Hin & Hm & Ha)%same_data_board Htd.
  unfold fillable, unknown_at. by rewrite Hin, Hm, Ha, Htd.
Qed.

Lemma fillable_unknown g p : fillable g p = true -> unknown_at g p = true.
Proof. unfold fillable. rewrite !andb_true_iff. tauto. Qed.

Lemma mark_same_data p g : same_data g (mark p g).
Proof. unfold same_data, mark, with_td. simpl. tauto. Qed.

Lemma elements_td_mark p g q :
  elements_td (mark p g) q.1 q.2 =
  if decide (p = q) then reveal_classes <$> elements_td g q.1 q.2
  else elements_td g q.1 q.2.
Proof.
  unfold elements_td, mark, with_td. simpl. rewrite lookup2_alter2.
  destruct p as [p1 p2], q as [q1 q2]. simpl.
  destruct (decide (p1 = q1 /\ p2 = q2)) as [[E1 E2]|Hne];
    destruct (decide ((p1, p2) = (q1, q2))) as [Heq|Hne']; try done.
  - subst. done.
  - injection Heq as E1 E2. tauto.
Qed.

Lemma count_unknown_mark p g :
  unknown_at g p = true ->
  count_class classes.unknown (table (mark p g)) = count_class classes.unknown (table g) - 1.
Proof.
  unfold unknown_at, elements_td, mark, with_td, count_class. simpl.
  destruct (lookup2 (table g) p.1 p.2) as [cs|] eqn:Hcs; [|done]. intros Hu.
  rewrite (count2_alter2 _ _ _ _ _ _ Hcs).
  pose proof (hasClass_reveal_unknown (Some cs)) as Hr. simpl in Hu, Hr.
  rewrite Hu, Hr. simpl. lia.
Qed.

(** One call of [revealEmptyAdjacent] on a well-shaped grid: nothing for a
    cell that is not fillable; otherwise the cell is marked and the eight
    neighbours are visited in turn. *)
Lemma revealEmptyAdjacent_unfold fuel r c g :
  grid_ok g = true ->
  revealEmptyAdjacent (S fuel) r c g =
  if fillable g (r, c)
  then for_each directions (mark (r, c) g) (fun d g' =>
         revealEmptyAdjacent fuel (r + y d) (c + x d) g')
  else Ok g.
Proof.
  intros Hok. cbn [revealEmptyAdjacent]. unfold fillable, unknown_at. cbn [fst snd].
  assert (Hb : (r <? 0) || (r >=? rows (stats g)) || (c <? 0) || (c >=? cols (stats g))
               = negb (in_bounds g r c)).
  { unfold in_bounds. rewrite !Z.geb_leb.
    destruct (Z.ltb_spec r 0), (Z.leb_spec 0 r), (Z.leb_spec (rows (stats g)) r),
      (Z.ltb_spec r (rows (stats g))), (Z.ltb_spec c 0), (Z.leb_spec 0 c),
      (Z.leb_spec (cols (stats g)) c), (Z.ltb_spec c (cols (stats g))); simpl; lia. }
  rewrite Hb. destruct (in_bounds g r c) eqn:Hin; [|done]. cbn [negb andb].
  rewrite (getCell_ok _ _ _ Hok), Hin, (countSurroundingMines_eq _ _ _ Hok).
  destruct (is_mined_cellAt _ _ _ Hok Hin) as (cl & -> & Hm). cbn.
  destruct (hasClass classes.unknown (elements_td g r c)); cbn; [|done].
  rewrite Hm. destruct (is_mined g r c); cbn; [done|].
  pose proof (adjacent_mines_range g r c).
  destruct (Z.gtb_spec (adjacent_mines g r c) 0), (Z.eqb_spec (adjacent_mines g r c) 0);
    try lia; done.
Qed.

Lemma fill_mono g g' starts p :
  fill_rel g g' starts -> unknown_at g p = false -> unknown_at g' p = false.
Proof.
  intros H Hu. unfold unknown_at in *.
  destruct (fill_td _ _ _ H p) as [->|[_ ->]]; [done|apply hasClass_reveal_unknown].
Qed.

Lemma fill_still_fillable g g' starts p :
  fill_rel g g' starts -> fillable g p = true -> unknown_at g' p = true ->
  fillable g' p = true.
Proof.
  intros H Hf Hu. destruct (fill_td _ _ _ H p) as [E|[_ E]].
  - by rewrite (fillable_same _ _ _ (fill_data _ _ _ H) E).
  - unfold unknown_at in Hu. by rewrite E, hasClass_reveal_unknown in Hu.
Qed.

Lemma fill_was_fillable g g' starts p :
  fill_rel g g' starts -> fillable g' p = true ->
  fillable g p = true /\ elements_td g' p.1 p.2 = elements_td g p.1 p.2.
Proof.
  intros H Hf. destruct (fill_td _ _ _ H p) as [E|[_ E]].
  - by rewrite <- (fillable_same _ _ _ (fill_data _ _ _ H) E).
  - apply fillable_unknown in Hf. unfold unknown_at in Hf.
    by rewrite E, hasClass_reveal_unknown in Hf.
Qed.

Lemma reach_mono g h q p :
  (forall p', fillable h p' = true -> fillable g p' = true) ->
  reach h q p -> reach g q p.
Proof.
  intros Hsub. induction 1 as [|p d _ IH Hd Hf].
  - apply reach_start; auto.
  - apply reach_step; auto.
Qed.

Lemma reach_cons g s d p :
  fillable g s = true -> d ∈ directions -> reach g (move s d) p -> reach g s p.
Proof.
  intros Hs Hd. induction 1 as [Hf|p d' _ IH Hd' Hf].
  - apply reach_step; [by apply reach_start|done|done].
  - by apply reach_step.
Qed.

Lemma reach_fillable g s p : reach g s p -> fillable g p = true.
Proof. by destruct 1. Qed.

Lemma fill_rel_nil g : fill_rel g g [].
Proof.
  split.
  - apply same_data_refl.
  - by left.
  - done.
  - lia.
  - intros p d [Hu Hu']. congruence.
  - intros q Hq. by apply elem_of_nil in Hq.
  - intros p [Hu Hu']. congruence.
Qed.

Lemma fill_rel_skip g s : fillable g s = false -> fill_rel g g [s].
Proof.
  intros Hs. split.
  - apply same_data_refl.
  - by left.
  - done.
  - lia.
  - intros p d [Hu Hu']. congruence.
  - intros q ->%list_elem_of_singleton. congruence.
  - intros p [Hu Hu']. congruence.
Qed.

(** Two runs in a row. *)
Lemma fill_rel_app g h h' A B :
  fill_rel g h A -> fill_rel h h' B -> fill_rel g h' (A ++ B).
Proof.
  intros H1 H2. split.
  - eapply same_data_trans; eapply fill_data; eauto.
  - intros p.
    destruct (fill_td _ _ _ H2 p) as [E2|[F2 E2]];
      destruct (fill_td _ _ _ H1 p) as [E1|[F1 E1]].
    + left. congruence.
    + right. split; [done|]. congruence.
    + right. rewrite (fillable_same _ _ _ (fill_data _ _ _ H1) E1) in F2.
      split; [done|]. congruence.
    + apply fillable_unknown in F2. unfold unknown_at in F2.
      by rewrite E1, hasClass_reveal_unknown in F2.
  - intros h0 w0. by rewrite (fill_shape _ _ _ H2), (fill_shape _ _ _ H1).
  - pose proof (fill_count _ _ _ H1). pose proof (fill_count _ _ _ H2). lia.
  - intros p d [Hu Hu'] Hd Hf.
    destruct (unknown_at h p) eqn:Hp.
    + destruct (unknown_at h (move p d)) eqn:Hq.
      * eapply (fill_closed _ _ _ H2 p); [done|done|].
        by eapply fill_still_fillable.
      * by eapply fill_mono.
    + eapply fill_mono; [done|]. by eapply (fill_closed _ _ _ H1 p).
  - intros q [Hq|Hq]%elem_of_app Hf.
    + eapply fill_mono; [done|]. by eapply fill_starts.
    + destruct (unknown_at h q) eqn:Hu.
      * eapply fill_starts; [done|done|]. by eapply fill_still_fillable.
      * by eapply fill_mono.
  - intros p [Hu Hu'].
    destruct (unknown_at h p) eqn:Hp.
    + destruct (fill_sound _ _ _ H2 p) as (q & Hq & Hreach); [done|].
      exists q. split; [apply elem_of_app; by right|].
      eapply reach_mono; [|done]. intros p' Hp'. by eapply fill_was_fillable.
    + destruct (fill_sound _ _ _ H1 p) as (q & Hq & Hreach); [done|].
      exists q. split; [apply elem_of_app; by left|done].
Qed.

Lemma directions_move p d : d ∈ directions -> move p d <> p.
Proof.
  destruct p as [r c]. unfold directions.
  rewrite !elem_of_cons, elem_of_nil.
  intros H [= Hr Hc]. destruct d as [dx dy]. cbn [x y] in *.
  repeat (destruct H as [H|H]; [simplify_eq; lia|]). done.
Qed.

(** A call on a fillable cell: mark it, then run the reveals of its eight
    neighbours. *)
Lemma fill_rel_call g h' s :
  fillable g s = true ->
  fill_rel (mark s g) h' (move s <$> directions) ->
  fill_rel g h' [s].
Proof.
  intros Hs H.
  assert (Hs1 : unknown_at (mark s g) s = false).
  { unfold unknown_at. rewrite elements_td_mark, decide_True by done.
    apply hasClass_reveal_unknown. }
  assert (Hs' : unknown_at h' s = false) by (by eapply fill_mono).
  assert (Hother : forall p, p <> s ->
            elements_td (mark s g) p.1 p.2 = elements_td g p.1 p.2).
  { intros p Hp. rewrite elements_td_mark. by rewrite decide_False. }
  assert (Hfill1 : forall p, p <> s -> fillable (mark s g) p = fillable g p).
  { intros p Hp. apply fillable_same; [apply mark_same_data|by apply Hother]. }
  assert (Hsub : forall p, fillable (mark s g) p = true -> fillable g p = true).
  { intros p Hp. destruct (decide (p = s)) as [->|Hne].
    - apply fillable_unknown in Hp. congruence.
    - by rewrite <- Hfill1. }
  split.
  - eapply same_data_trans; [apply mark_same_data|by eapply fill_data].
  - intros p. destruct (decide (p = s)) as [->|Hne].
    + right. split; [done|].
      destruct (fill_td _ _ _ H s) as [E|[F _]].
      * rewrite E, elements_td_mark. by rewrite decide_True.
      * apply fillable_unknown in F. congruence.
    + destruct (fill_td _ _ _ H p) as [E|[F E]].
      * left. by rewrite E, Hother.
      * right. rewrite Hfill1 in F by done. split; [done|]. by rewrite E, Hother.
  - intros h0 w0. rewrite (fill_shape _ _ _ H). unfold mark, with_td. simpl.
    apply rectangular_alter2.
  - pose proof (fill_count _ _ _ H) as Hc.
    rewrite count_unknown_mark in Hc by (by apply fillable_unknown). lia.
  - intros p d [Hu Hu'] Hd Hf.
    destruct (decide (move p d = s)) as [->|Hne]; [done|].
    rewrite <- Hfill1 in Hf by done.
    destruct (decide (p = s)) as [->|Hp].
    + eapply fill_starts; [done| |done]. by apply list_elem_of_fmap_2.
    + eapply (fill_closed _ _ _ H p); [|done|done].
      split; [|done]. unfold unknown_at in *. by rewrite Hother.
  - intros q ->%list_elem_of_singleton _. done.
  - intros p [Hu Hu']. exists s. split; [by apply list_elem_of_singleton|].
    destruct (decide (p = s)) as [->|Hp]; [by apply reach_start|].
    destruct (fill_sound _ _ _ H p) as (q & (d & -> & Hd)%list_elem_of_fmap & Hreach).
    { split; [|done]. unfold unknown_at in *. by rewrite Hother. }
    eapply reach_cons; [done|done|]. by eapply reach_mono.
Qed.

Lemma count_class_nonneg c t : 0 <= count_class c t.
Proof. unfold count_class, count2. lia. Qed.

(** The recursion returns as soon as the fuel exceeds the number of tds
    that are still unknown, and what it does is a run of reveals from the
    cell it was called on. *)
Lemma revealEmptyAdjacent_fill fuel :
  forall s g,
    grid_ok g = true ->
    count_class classes.unknown (table g) < Z.of_nat fuel ->
    exists g', revealEmptyAdjacent fuel s.1 s.2 g = Ok g' /\ fill_rel g g' [s].
Proof.
  induction fuel as [|fuel IH]; intros s g Hok Hfuel.
  { pose proof (count_class_nonneg classes.unknown (table g)). lia. }
  destruct s as [r c]. cbn [fst snd].
  rewrite (revealEmptyAdjacent_unfold _ _ _ _ Hok).
  destruct (fillable g (r, c)) eqn:Hs; [|exists g; split; [done|by apply fill_rel_skip]].
  assert (Hloop : forall ds h,
    grid_ok h = true -> count_class classes.unknown (table h) < Z.of_nat fuel ->
    exists h',
      for_each ds h (fun d g' => revealEmptyAdjacent fuel (r + y d) (c + x d) g') = Ok h'
      /\ fill_rel h h' (move (r, c) <$> ds)).
  { induction ds as [|d ds IHds]; intros h Hokh Hfh.
    - exists h. split; [done|apply fill_rel_nil].
    - destruct (IH (move (r, c) d) h Hokh Hfh) as (h1 & Hrun1 & Hrel1).
      cbn [move fst snd] in Hrun1.
      assert (Hok1 : grid_ok h1 = true).
      { destruct (same_data_board _ _ (fill_data _ _ _ Hrel1)) as (-> & _). done. }
      pose proof (fill_count _ _ _ Hrel1) as Hc1.
      destruct (IHds h1 Hok1) as (h' & Hrun & Hrel); [lia|].
      exists h'. split.
      + cbn [for_each]. rewrite Hrun1. exact Hrun.
      + exact (fill_rel_app _ _ _ [move (r, c) d] _ Hrel1 Hrel). }
  destruct (Hloop directions (mark (r, c) g)) as (h' & Hrun & Hrel).
  - destruct (same_data_board _ _ (mark_same_data (r, c) g)) as (-> & _). done.
  - rewrite count_unknown_mark by (by apply fillable_unknown). lia.
  - exists h'. split; [done|]. by apply fill_rel_call.
Qed.

Lemma adjacent_mines_directions g r c :
  adjacent_mines g r c =
  Z.of_nat (length (List.filter (fun d => is_mined g (r + y d) (c + x d)) directions)).
Proof.
  unfold adjacent_mines, directions, neighbor_offsets.
  rewrite !count_filter_cons. cbn [x y fst snd List.filter length]. lia.
Qed.

(** A mine next to a cell shows in the cell's count. *)
Lemma neighbour_mined g p d :
  d ∈ directions -> is_mined g (move p d).1 (move p d).2 = true ->
  1 <= adjacent_mines g p.1 p.2.
Proof.
  intros Hd Hm. rewrite adjacent_mines_directions.
  assert (Hin : In d (List.filter (fun d => is_mined g (p.1 + y d) (p.2 + x d)) directions)).
  { apply List.filter_In. split; [by apply list_elem_of_In|exact Hm]. }
  destruct (List.filter _ directions); [destruct Hin|simpl; lia].
Qed.

Lemma fillable_spec g p :
  fillable g p = true <->
  in_bounds g p.1 p.2 = true /\ unknown_at g p = true
  /\ is_mined g p.1 p.2 = false /\ adjacent_mines g p.1 p.2 = 0.
Proof.
  unfold fillable. rewrite !andb_true_iff, negb_true_iff, Z.eqb_eq. tauto.
Qed.

(** Everything joined to the start has been revealed. *)
Lemma fill_complete g g' s p : fill_rel g g' [s] -> reach g s p -> revealed g g' p.
Proof.
  intros H. induction 1 as [Hs|q d _ IH Hd Hf].
  - split; [by apply fillable_unknown|].
    eapply fill_starts; [done|by apply list_elem_of_singleton|done].
  - split; [by apply fillable_unknown|]. by eapply (fill_closed _ _ _ H q).
Qed.

Lemma fill_revealed_td g g' starts p :
  fill_rel g g' starts -> revealed g g' p ->
  elements_td g' p.1 p.2 = reveal_classes <$> elements_td g p.1 p.2.
Proof.
  intros H [Hu Hu']. destruct (fill_td _ _ _ H p) as [E|[_ E]]; [|done].
  unfold unknown_at in *. congruence.
Qed.

(** The reveal called on [(r, c)] with enough fuel: it returns; exactly the
    tds joined to [(r, c)] by fillable cells are changed, each by the class
    change of a reveal; [data] is not touched. *)
Lemma revealEmptyAdjacent_exact fuel r c g :
  grid_ok g = true ->
  count_class classes.unknown (table g) < Z.of_nat fuel ->
  exists g',
    revealEmptyAdjacent fuel r c g = Ok g'
    /\ fill_rel g g' [(r, c)]
    /\ (forall p, revealed g g' p <-> reach g (r, c) p)
    /\ (forall p, reach g (r, c) p ->
          elements_td g' p.1 p.2 = reveal_classes <$> elements_td g p.1 p.2)
    /\ (forall p, ~ reach g (r, c) p ->
          elements_td g' p.1 p.2 = elements_td g p.1 p.2).
Proof.
  intros Hok Hfuel.
  destruct (revealEmptyAdjacent_fill fuel (r, c) g Hok Hfuel) as (g' & Hrun & Hrel).
  exists g'. split; [done|]. split; [done|].
  assert (Hiff : forall p, revealed g g' p <-> reach g (r, c) p).
  { intros p. split; [|by apply fill_complete].
    intros Hp. by destruct (fill_sound _ _ _ Hrel p Hp) as (q & ->%list_elem_of_singleton & ?). }
  split; [done|]. split.
  - intros p Hp. eapply fill_revealed_td; [done|]. by apply Hiff.
  - intros p Hp. destruct (fill_td _ _ _ Hrel p) as [E|[F E]]; [done|].
    exfalso. apply Hp, Hiff. split; [by apply fillable_unknown|].
    unfold unknown_at. rewrite E. apply hasClass_reveal_unknown.
Qed.

Example board3_flagged_by_click : cellClicked true 2 1 0 board3 = Ok board3_flagged.
Proof. reflexivity. Qed.

(** The claim C4 has the reveal turn over the whole region of empty cells
    and the numbered cells that border it. On [board3], revealing from
    (2,2) turns (2,2) over and leaves its neighbour (1,1), which has two
    adjacent mines, unknown. On [board3_flagged] the same reveal also
    leaves (2,0) unknown, an empty mine-free cell joined to (2,2) through
    the empty mine-free cell (2,1), which is flagged. *)
Lemma revealEmptyAdjacent_leaves_numbered_cells :
  (exists g',
     revealEmptyAdjacent 10 2 2 board3 = Ok g'
     /\ in_bounds board3 2 2 = true /\ unknown_at board3 (2, 2) = true
     /\ is_mined board3 2 2 = false /\ adjacent_mines board3 2 2 = 0
     /\ elements_td g' 2 2 = Some [classes.empty]
     /\ move (2, 2) (Direction (-1) (-1)) = (1, 1)
     /\ adjacent_mines board3 1 1 = 2
     /\ elements_td g' 1 1 = Some [classes.unknown])
  /\ (exists g',
        revealEmptyAdjacent 10 2 2 board3_flagged = Ok g'
        /\ unknown_at board3_flagged (2, 2) = true
        /\ is_mined board3_flagged 2 2 = false /\ adjacent_mines board3_flagged 2 2 = 0
        /\ move (2, 2) (Direction (-1) 0) = (2, 1)
        /\ is_mined board3_flagged 2 1 = false /\ adjacent_mines board3_flagged 2 1 = 0
        /\ move (2, 1) (Direction (-1) 0) = (2, 0)
        /\ is_mined board3_flagged 2 0 = false /\ adjacent_mines board3_flagged 2 0 = 0
        /\ elements_td g' 2 0 = Some [classes.unknown]).
Proof.
  split; (eexists; split; [vm_compute; reflexivity|]; vm_compute; repeat split).
Qed.

(** C4, as the code has it. With fuel above the number of unknown tds the
    reveal called on [(r, c)] returns and changes the class attributes
    only: a td is turned over (unknown removed, empty added) exactly when
    a chain of neighbouring cells that are in bounds, unknown, mine-free
    and without adjacent mines joins it to [(r, c)]; that region is closed
    under fillable neighbours and holds the start cell when the start is
    fillable; every other td, and so every cell with an adjacent mine, is
    left as it was. *)
Theorem revealEmptyAdjacent_region (g : game) (r c : Z) (fuel : nat) :
  grid_ok g = true ->
  count_class classes.unknown (table g) < Z.of_nat fuel ->
  exists g',
    revealEmptyAdjacent fuel r c g = Ok g'
    /\ same_data g g'
    /\ (fillable g (r, c) = true -> reach g (r, c) (r, c))
    /\ (forall p d, reach g (r, c) p -> d ∈ directions ->
          fillable g (move p d) = true -> reach g (r, c) (move p d))
    /\ (forall p, reach g (r, c) p ->
          elements_td g' p.1 p.2 = reveal_classes <$> elements_td g p.1 p.2
          /\ unknown_at g p = true /\ unknown_at g' p = false
          /\ hasClass classes.empty (elements_td g' p.1 p.2) = true)
    /\ (forall p, ~ reach g (r, c) p ->
          elements_td g' p.1 p.2 = elements_td g p.1 p.2)
    /\ (forall p, 1 <= adjacent_mines g p.1 p.2 ->
          elements_td g' p.1 p.2 = elements_td g p.1 p.2).
Proof.
  intros Hok Hfuel.
  destruct (revealEmptyAdjacent_exact fuel r c g Hok Hfuel)
    as (g' & Hrun & Hrel & Hiff & Hin & Hout).
  exists g'. split; [done|]. split; [by eapply fill_data|].
  split; [apply reach_start|]. split; [intros; by apply reach_step|].
  split; [|split; [done|]].
  - intros p Hp. pose proof (Hin p Hp) as E. destruct (proj2 (Hiff p) Hp) as [Hu Hu'].
    repeat (split; [done|]). rewrite E.
    unfold unknown_at in Hu. destruct (elements_td g p.1 p.2) as [cs|]; [|done].
    apply hasClass_Some. unfold reveal_classes.
    rewrite elem_of_addClass, list_elem_of_singleton. by right.
  - intros p Hp. apply Hout. intros Hr%reach_fillable%fillable_spec. lia.
Qed.

Lemma revealEmptyAdjacent_region_witness :
  exists g',
    revealEmptyAdjacent 10 2 2 board3 = Ok g'
    /\ elements_td g' 1 1 = elements_td board3 1 1.
Proof.
  destruct (revealEmptyAdjacent_region board3 2 2 10 eq_refl eq_refl)
    as (g' & Hrun & _ & _ & _ & _ & _ & Hnum).
  exists g'. split; [exact Hrun|]. apply (Hnum (1, 1)). vm_compute. discriminate.
Defined.

(** The claim C5 has every cell on the boundary of the revealed region
    numbered or off the board. On [board3_flagged], revealing from (2,2)
    stops at the flagged td (2,1): that cell is on the board, neighbours
    the revealed (2,2), has no adjacent mine and is not revealed. *)
Lemma revealEmptyAdjacent_boundary_flagged_zero :
  exists g',
    revealEmptyAdjacent 10 2 2 board3_flagged = Ok g'
    /\ fillable board3_flagged (2, 2) = true
    /\ revealed board3_flagged g' (2, 2)
    /\ move (2, 2) (Direction (-1) 0) = (2, 1)
    /\ in_bounds board3_flagged 2 1 = true
    /\ adjacent_mines board3_flagged 2 1 = 0
    /\ elements_td g' 2 1 = Some [classes.sprite; classes.flagged].
Proof.
  eexists. split; [vm_compute; reflexivity|]. vm_compute. repeat split.
Qed.

(** C5, as the code has it. With fuel above the number of unknown tds the
    reveal returns; no td that it turns over belongs to a mined cell; and a
    neighbour of a revealed cell is itself revealed by then, or is off the
    board, or did not carry the class unknown when the reveal began (it was
    flagged or turned over before), or has at least one adjacent mine. *)
Theorem revealEmptyAdjacent_boundary (g : game) (r c : Z) (fuel : nat) :
  grid_ok g = true ->
  count_class classes.unknown (table g) < Z.of_nat fuel ->
  exists g',
    revealEmptyAdjacent fuel r c g = Ok g'
    /\ (forall p, revealed g g' p -> is_mined g p.1 p.2 = false)
    /\ (forall p d, revealed g g' p -> d ∈ directions ->
          unknown_at g' (move p d) = false
          \/ in_bounds g (move p d).1 (move p d).2 = false
          \/ 1 <= adjacent_mines g (move p d).1 (move p d).2)
    /\ (forall p d, revealed g g' p -> d ∈ directions ->
          revealed g g' (move p d)
          \/ in_bounds g (move p d).1 (move p d).2 = false
          \/ unknown_at g (move p d) = false
          \/ 1 <= adjacent_mines g (move p d).1 (move p d).2).
Proof.
  intros Hok Hfuel.
  destruct (revealEmptyAdjacent_exact fuel r c g Hok Hfuel)
    as (g' & Hrun & Hrel & Hiff & _ & _).
  assert (Hcase : forall p d, revealed g g' p -> d ∈ directions ->
            revealed g g' (move p d)
            \/ in_bounds g (move p d).1 (move p d).2 = false
            \/ unknown_at g (move p d) = false
            \/ 1 <= adjacent_mines g (move p d).1 (move p d).2).
  { intros p d Hp Hd.
    pose proof (proj1 (fillable_spec g p) (reach_fillable _ _ _ (proj1 (Hiff p) Hp)))
      as (_ & _ & _ & Hzero).
    destruct (fillable g (move p d)) eqn:Hq.
    - left. split; [by apply fillable_unknown|]. by eapply (fill_closed _ _ _ Hrel p).
    - right. unfold fillable in Hq.
      destruct (in_bounds g (move p d).1 (move p d).2); [|by left].
      destruct (unknown_at g (move p d)); [|right; by left].
      destruct (is_mined g (move p d).1 (move p d).2) eqn:Hm.
      + pose proof (neighbour_mined g p d Hd Hm). lia.
      + simpl in Hq. apply Z.eqb_neq in Hq.
        pose proof (adjacent_mines_range g (p.1 + y d) (p.2 + x d)).
        right. right. cbn [move fst snd]. lia. }
  exists g'. split; [done|]. split; [|split; [|done]].
  - intros p Hp. apply Hiff, reach_fillable, fillable_spec in Hp. tauto.
  - intros p d Hp Hd. destruct (Hcase p d Hp Hd) as [[_ ?]|[?|[Hu|?]]]; auto.
    left. by eapply fill_mono.
Qed.

Lemma revealEmptyAdjacent_boundary_witness :
  exists g',
    revealEmptyAdjacent 10 2 2 board3 = Ok g'
    /\ (revealed board3 g' (2, 2) -> is_mined board3 2 2 = false).
Proof.
  destruct (revealEmptyAdjacent_boundary board3 2 2 10 eq_refl eq_refl)
    as (g' & Hrun & Hmine & _).
  exists g'. split; [exact Hrun|]. exact (Hmine (2, 2)).
Defined.

(** ** Flags *)

Lemma flags_ok_at g p :
  flags_ok g = true ->
  hasClass classes.flagged (elements_td g p.1 p.2) = true -> unknown_at g p = false.
Proof.
  unfold flags_ok, unknown_at, elements_td. intros Hall.
  destruct (lookup2 (table g) p.1 p.2) as [cs|] eqn:Hcs; [|done].
  apply lookup2_Some in Hcs as (_ & _ & tr & Htr & Hcs).
  rewrite forallb_forall in Hall.
  specialize (Hall tr (proj1 (list_elem_of_In _ _) (list_elem_of_lookup_2 _ _ _ Htr))).
  rewrite forallb_forall in Hall.
  specialize (Hall cs (proj1 (list_elem_of_In _ _) (list_elem_of_lookup_2 _ _ _ Hcs))).
  unfold hasClass. intros Hf. rewrite Hf in Hall. by apply negb_true_iff in Hall.
Qed.

(** C9. On a page where no td is both flagged and unknown, take a flagged
    td [p] and reveal from [(r, c)] with enough fuel. The reveal returns
    and leaves the td at [p] as it was, still flagged; a call on [p]
    itself, before or after, returns at once without changing anything;
    [p] lies on no chain of the reveal, so every td that is turned over is
    joined to the start by cells other than [p]; and no td at all gains or
    loses the class flagged. This holds also when the flagged cell is
    mine-free with no adjacent mine: on [board3_flagged] the flagged (2,1)
    is such a cell, and the reveal from (2,2) leaves the empty cell (2,0)
    behind it unknown, which the same reveal without the flag turns
    over. *)
Theorem revealEmptyAdjacent_flagged (g : game) (r c : Z) (fuel : nat) (p : Z * Z) :
  grid_ok g = true -> flags_ok g = true ->
  count_class classes.unknown (table g) < Z.of_nat fuel ->
  hasClass classes.flagged (elements_td g p.1 p.2) = true ->
  (exists g',
     revealEmptyAdjacent fuel r c g = Ok g'
     /\ elements_td g' p.1 p.2 = elements_td g p.1 p.2
     /\ hasClass classes.flagged (elements_td g' p.1 p.2) = true
     /\ (forall n, revealEmptyAdjacent (S n) p.1 p.2 g = Ok g)
     /\ (forall n, revealEmptyAdjacent (S n) p.1 p.2 g' = Ok g')
     /\ ~ reach g (r, c) p
     /\ (forall q, revealed g g' q -> q <> p /\ reach g (r, c) q)
     /\ (forall q, hasClass classes.flagged (elements_td g' q.1 q.2)
                   = hasClass classes.flagged (elements_td g q.1 q.2)))
  /\ (exists g1 g2,
        revealEmptyAdjacent 10 2 2 board3_flagged = Ok g1
        /\ revealEmptyAdjacent 10 2 2 board3 = Ok g2
        /\ hasClass classes.flagged (elements_td board3_flagged 2 1) = true
        /\ is_mined board3_flagged 2 1 = false
        /\ adjacent_mines board3_flagged 2 1 = 0
        /\ is_mined board3_flagged 2 0 = false
        /\ adjacent_mines board3_flagged 2 0 = 0
        /\ unknown_at g1 (2, 0) = true
        /\ unknown_at g2 (2, 0) = false).
Proof.
  intros Hok Hflags Hfuel Hp.
  split; [|do 2 eexists; split; [vm_compute; reflexivity|];
           split; [vm_compute; reflexivity|]; vm_compute; repeat split].
  pose proof (flags_ok_at g p Hflags Hp) as Hu.
  destruct (revealEmptyAdjacent_exact fuel r c g Hok Hfuel)
    as (g' & Hrun & Hrel & Hiff & _ & Hout).
  assert (Hnf : fillable g p = false).
  { destruct (fillable g p) eqn:Hf; [|done]. apply fillable_unknown in Hf. congruence. }
  assert (Hnr : ~ reach g (r, c) p).
  { intros Hr%reach_fillable. congruence. }
  assert (Htd : elements_td g' p.1 p.2 = elements_td g p.1 p.2) by (by apply Hout).
  assert (Hnf' : fillable g' p = false).
  { by rewrite (fillable_same _ _ _ (fill_data _ _ _ Hrel) Htd). }
  assert (Hok' : grid_ok g' = true).
  { destruct (same_data_board _ _ (fill_data _ _ _ Hrel)) as (-> & _). done. }
  exists g'. split; [done|]. split; [done|]. split; [by rewrite Htd|].
  split; [|split; [|split; [done|split]]].
  - intros n. destruct p as [pr pc]. rewrite revealEmptyAdjacent_unfold by done.
    cbn [fst snd]. by rewrite Hnf.
  - intros n. destruct p as [pr pc]. rewrite revealEmptyAdjacent_unfold by done.
    cbn [fst snd]. by rewrite Hnf'.
  - intros q Hq. split; [|by apply Hiff]. intros ->. destruct Hq. congruence.
  - intros q. destruct (fill_td _ _ _ Hrel q) as [->|[_ ->]]; [done|].
    apply hasClass_reveal_flagged.
Qed.

Lemma revealEmptyAdjacent_flagged_witness :
  exists g',
    revealEmptyAdjacent 10 2 2 board3_flagged = Ok g'
    /\ elements_td g' 2 1 = Some [classes.sprite; classes.flagged].
Proof.
  destruct (proj1 (revealEmptyAdjacent_flagged board3_flagged 2 2 10 (2, 1)
                     eq_refl eq_refl eq_refl eq_refl))
    as (g' & Hrun & Htd & _).
  exists g'. split; [exact Hrun|exact Htd].
Defined.

(** ** Win or loss *)

Lemma tds_lookup g t :
  t ∈ tds g -> lookup2 (table g) t.1.1 t.1.2 = Some t.2.
Proof.
  unfold tds. rewrite list_elem_of_In, in_concat.
  intros (l & Hl%list_elem_of_In & Ht%list_elem_of_In).
  apply elem_of_lookup_imap in Hl as (r & tr & -> & Hr).
  apply elem_of_lookup_imap in Ht as (c & td & -> & Hc).
  simpl. apply lookup2_Some. rewrite !Nat2Z.id. split; [lia|]. split; [lia|]. eauto.
Qed.

Lemma tds_in_bounds g t :
  table_ok g = true -> t ∈ tds g -> in_bounds g t.1.1 t.1.2 = true.
Proof.
  intros Hok Ht%tds_lookup. apply in_bounds_spec.
  apply (rectangular_index _ _ (table g) _ _ Hok). by rewrite Ht.
Qed.

Lemma validate_check_ok g t result n :
  grid_ok g = true -> in_bounds g t.1.1 t.1.2 = true ->
  validate_check g t (result, n) =
  Ok (if false_flag g t then "You Lose!"%string else result, n + Z.b2z (unknown_mine g t)).
Proof.
  intros Hok Hin. destruct t as [[r c] td]. cbn [fst snd] in Hin.
  unfold validate_check, false_flag, unknown_mine. cbn [fst snd].
  rewrite (getCell_ok _ _ _ Hok), Hin.
  destruct (is_mined_cellAt _ _ _ Hok Hin) as (cl & -> & Hm).
  cbn [mbind res_bind hasClass].
  destruct (bool_decide (classes.unknown ∈ td)), (bool_decide (classes.flagged ∈ td));
    cbn; rewrite ?Hm; destruct (is_mined g r c); cbn; f_equal; f_equal; lia.
Qed.

Lemma validate_scan g l result n :
  grid_ok g = true -> Forall (fun t => in_bounds g t.1.1 t.1.2 = true) l ->
  for_each l (result, n) (validate_check g) =
  Ok (if existsb (false_flag g) l then "You Lose!"%string else result,
      n + Z.of_nat (length (List.filter (unknown_mine g) l))).
Proof.
  intros Hok Hall. revert result n.
  induction Hall as [|t l Ht _ IH]; intros result n.
  - simpl. f_equal. f_equal. lia.
  - cbn [for_each]. rewrite (validate_check_ok _ _ _ _ Hok Ht). cbn [mbind res_bind].
    rewrite IH, count_filter_cons. cbn [existsb].
    destruct (false_flag g t); cbn [orb].
    + destruct (existsb (false_flag g) l); f_equal; f_equal; lia.
    + f_equal; f_equal; lia.
Qed.

Lemma each_from_imap {A} k (f : nat -> A -> res A) (F : nat -> A -> A) (l : list A) :
  (forall i a, l !! i = Some a -> f (k + i)%nat a = Ok (F (k + i)%nat a)) ->
  each_from k f l = Ok (imap (fun i => F (k + i)%nat) l).
Proof.
  revert k. induction l as [|a l IH]; intros k Hf; [done|].
  cbn [each_from imap]. pose proof (Hf 0%nat a eq_refl) as Ha.
  rewrite Nat.add_0_r in Ha. rewrite Ha. cbn [mbind res_bind].
  rewrite (IH (S k)).
  - cbn. rewrite Nat.add_0_r. do 2 f_equal.
    apply imap_ext. intros i a' _. simpl. f_equal. lia.
  - intros i a' Hi. replace (S k + i)%nat with (k + S i)%nat by lia. by apply Hf.
Qed.

Lemma validate_miss_ok g r c td :
  grid_ok g = true -> in_bounds g r c = true ->
  validate_miss g r c td =
  Ok (if unknown_mine g (r, c, td) then missed_classes td else td).
Proof.
  intros Hok Hin. unfold validate_miss, unknown_mine. cbn [fst snd hasClass].
  destruct (bool_decide (classes.unknown ∈ td)); [|done].
  rewrite (getCell_ok _ _ _ Hok), Hin.
  destruct (is_mined_cellAt _ _ _ Hok Hin) as (cl & -> & Hm). cbn.
  rewrite Hm. by destruct (is_mined g r c).
Qed.

Lemma each_td_missed g :
  grid_ok g = true -> table_ok g = true ->
  each_td (validate_miss g) (table g) = Ok (missed_table g).
Proof.
  intros Hok Htab. unfold each_td, missed_table.
  rewrite (each_from_imap 0 _
    (fun r tr => imap (fun c td =>
       if unknown_mine g (Z.of_nat r, Z.of_nat c, td) then missed_classes td else td) tr)).
  { done. }
  intros r tr Hr. cbn [Nat.add].
  rewrite (each_from_imap 0 _
    (fun c td => if unknown_mine g (Z.of_nat r, Z.of_nat c, td)
                 then missed_classes td else td)).
  { done. }
  intros c td Hc. cbn [Nat.add]. apply validate_miss_ok; [done|].
  apply in_bounds_spec, (rectangular_index _ _ (table g) _ _ Htab).
  assert (lookup2 (table g) (Z.of_nat r) (Z.of_nat c) = Some td) as ->; [|done].
  apply lookup2_Some. rewrite !Nat2Z.id. split; [lia|]. split; [lia|]. eauto.
Qed.

(** On a running game of the right shape [validate] does not throw, and
    its outcome is [validate_result]. *)
Lemma validate_active g :
  isGameActive g = true -> grid_ok g = true -> table_ok g = true ->
  validate g = Ok (validate_result g).
Proof.
  intros Hact Hok Htab. unfold validate. rewrite Hact. cbn [negb].
  assert (Hok0 : grid_ok (set_active false g) = true) by exact Hok.
  assert (Htab0 : table_ok (set_active false g) = true) by exact Htab.
  rewrite (validate_scan (set_active false g) _ _ 0 Hok0).
  2:{ apply Forall_forall. intros t Ht. by apply tds_in_bounds. }
  cbn [mbind res_bind]. rewrite Z.add_0_l.
  change (Z.of_nat (length (List.filter (unknown_mine (set_active false g))
                              (tds (set_active false g)))))
    with (unknown_mines g).
  unfold validate_result.
  destruct (negb (unknown_mines g =? 0)
            && negb (unknown_mines g =? count_class classes.unknown
                                         (table (set_active false g)))) eqn:Hlose.
  - rewrite (each_td_missed (set_active false g) Hok0 Htab0). cbn [mbind res_bind].
    change (table (set_active false g)) with (table g) in Hlose. by rewrite Hlose.
  - change (table (set_active false g)) with (table g) in Hlose. by rewrite Hlose.
Qed.

Lemma validate_inactive g :
  isGameActive g = false ->
  validate g = Ok (set_modal (Some ("Error",
    "You must be actively playing a game in order to <strong>validate</strong>.")%string) g).
Proof. intros H. unfold validate. by rewrite H. Qed.

Lemma lookup2_missed_table g r c :
  lookup2 (missed_table g) r c =
  (fun td => if unknown_mine g (r, c, td) then missed_classes td else td)
    <$> lookup2 (table g) r c.
Proof.
  unfold missed_table, lookup2, index.
  destruct (Z.leb_spec 0 r); [|done]. rewrite list_lookup_imap.
  destruct (table g !! Z.to_nat r) as [tr|]; [|done]. simpl.
  destruct (Z.leb_spec 0 c); [|done]. rewrite list_lookup_imap.
  destruct (tr !! Z.to_nat c) as [td|]; [|done]. simpl.
  by rewrite !Z2Nat.id.
Qed.


Lemma hasClass_missed_unknown td :
  hasClass classes.unknown (Some (missed_classes td)) = false.
Proof.
  simpl. apply bool_decide_eq_false. unfold missed_classes.
  rewrite elem_of_addClass, elem_of_removeClass, !elem_of_cons, elem_of_nil.
  intros [[_ ?]|[?|[?|[?|?]]]]; done.
Qed.



(** A flag on a mine-free cell loses the game whatever else holds. *)
Lemma validate_false_flag g :
  isGameActive g = true -> grid_ok g = true -> table_ok g = true ->
  existsb (false_flag g) (tds g) = true ->
  exists g', validate g = Ok g' /\ gameresult g' = Some "You Lose!"%string.
Proof.
  intros Hact Hok Htab Hflag. exists (validate_result g).
  split; [by apply validate_active|]. unfold validate_result. rewrite Hflag.
  by destruct (_ && _).
Qed.

(** C1. The claim has every direct reveal of a mine end in a loss. Start a
    new 8 x 8 game with 64 in the mine field: planting returns with every
    cell mined; the first plain click, on (0,0), hits a mine, and
    [cellClicked] lets [validate] decide, which finds all 64 unknown tds
    mined and shows "You Win!". *)
Theorem cellClicked_mine_on_full_board :
  exists g g',
    init None 1 (JS.Str "64") 64 (sweep 8 8) blank = Ok g
    /\ isGameActive g = true
    /\ is_mined g 0 0 = true
    /\ unknown_mines g = 64 /\ count_class classes.unknown (table g) = 64
    /\ cellClicked false 0 0 0 g = Ok g'
    /\ hasClass classes.mined (elements_td g' 0 0) = true
    /\ active g' = false
    /\ gameresult g' = Some "You Win!"%string.
Proof.
  do 2 eexists. split; [vm_compute; reflexivity|].
  do 4 (split; [vm_compute; reflexivity|]).
  split; [vm_compute; reflexivity|]. vm_compute. repeat split.
Qed.

(** ** The shape of the page is kept *)

Lemma flags_ok_spec g :
  flags_ok g = true <-> forall r c td, elements_td g r c = Some td -> td_ok td.
Proof.
  unfold flags_ok, elements_td, td_ok. split.
  - intros Hall r c td (_ & _ & tr & Htr & Htd)%lookup2_Some Hf Hu.
    rewrite forallb_forall in Hall.
    specialize (Hall tr (proj1 (list_elem_of_In _ _) (list_elem_of_lookup_2 _ _ _ Htr))).
    rewrite forallb_forall in Hall.
    specialize (Hall td (proj1 (list_elem_of_In _ _) (list_elem_of_lookup_2 _ _ _ Htd))).
    rewrite (bool_decide_eq_true_2 _ Hf), (bool_decide_eq_true_2 _ Hu) in Hall. done.
  - intros H. apply forallb_forall. intros tr Htr. apply forallb_forall. intros td Htd.
    apply list_elem_of_In, list_elem_of_lookup_1 in Htr as [i Hi].
    apply list_elem_of_In, list_elem_of_lookup_1 in Htd as [j Hj].
    assert (Hl : lookup2 (table g) (Z.of_nat i) (Z.of_nat j) = Some td).
    { apply lookup2_Some. rewrite !Nat2Z.id. split; [lia|]. split; [lia|]. eauto. }
    specialize (H _ _ _ Hl). apply orb_true_iff.
    destruct (decide (classes.flagged ∈ td)) as [Hf|Hf].
    + right. apply negb_true_iff, bool_decide_eq_false. auto.
    + left. by apply negb_true_iff, bool_decide_eq_false.
Qed.

(** A class change at one td keeps the flags in order when its result is. *)
Lemma flags_ok_with_td r c f g :
  flags_ok g = true ->
  (forall td, elements_td g r c = Some td -> td_ok (f td)) ->
  flags_ok (with_td r c f g) = true.
Proof.
  rewrite !flags_ok_spec. intros Hg Hf r' c' td. unfold elements_td, with_td in *.
  cbn [table set_table]. rewrite lookup2_alter2.
  case_decide as Hd; [|apply Hg]. destruct Hd as [<- <-].
  destruct (lookup2 (table g) r c) as [td0|] eqn:E; [|done].
  intros [= <-]. by apply Hf.
Qed.

Lemma td_ok_no_unknown cs : classes.unknown ∉ cs -> td_ok cs.
Proof. by intros H _. Qed.

Lemma td_ok_no_flagged cs : classes.flagged ∉ cs -> td_ok cs.
Proof. intros H Hf. done. Qed.

Lemma unknown_removed names cs :
  classes.unknown ∉ names ->
  classes.unknown ∉ addClass names (removeClass classes.unknown cs).
Proof.
  intros Hn. rewrite elem_of_addClass, elem_of_removeClass. intros [[_ ?]|?]; done.
Qed.

Lemma rectangular_missed_table h w g :
  rectangular h w (table g) = true -> rectangular h w (missed_table g) = true.
Proof.
  rewrite !rectangular_spec. unfold missed_table. intros [Hh Hw].
  rewrite length_imap. split; [done|].
  intros ar (i & tr & -> & Hi)%elem_of_lookup_imap. rewrite length_imap.
  eapply Hw, list_elem_of_lookup_2, Hi.
Qed.

Lemma flags_ok_missed_table g :
  flags_ok g = true -> flags_ok (set_table (missed_table g) g) = true.
Proof.
  rewrite !flags_ok_spec. intros Hg r c td. unfold elements_td. cbn [table set_table].
  rewrite lookup2_missed_table.
  destruct (lookup2 (table g) r c) as [td0|] eqn:E; [|done]. intros [= <-].
  destruct (unknown_mine g (r, c, td0)); [|by eapply Hg].
  apply td_ok_no_unknown. pose proof (hasClass_missed_unknown td0) as H.
  simpl in H. by apply bool_decide_eq_false in H.
Qed.

(** [validate] returns whenever a running game has the right shape; it
    leaves [data.stats] and [data.grid] alone, the game is not running
    afterwards, and the table keeps its shape and its flags in order. *)
Lemma validate_total g :
  (isGameActive g = true -> grid_ok g = true /\ table_ok g = true) ->
  exists g',
    validate g = Ok g' /\ stats g' = stats g /\ grid g' = grid g
    /\ isGameActive g' = false
    /\ (forall h w, rectangular h w (table g) = true -> rectangular h w (table g') = true)
    /\ (flags_ok g = true -> flags_ok g' = true).
Proof.
  intros Hwf. destruct (isGameActive g) eqn:Hact.
  - destruct (Hwf eq_refl) as [Hok Htab]. exists (validate_result g).
    split; [by apply validate_active|]. unfold validate_result, isGameActive.
    destruct (_ && _); cbn [stats grid active table set_gameresult set_table set_active].
    + repeat (split; [by destruct (grid g)|]).
      split; [intros h w; apply rectangular_missed_table|].
      intros Hf. by apply flags_ok_missed_table in Hf.
    + repeat (split; [by destruct (grid g)|]). done.
  - eexists. split; [by apply validate_inactive|]. done.
Qed.

Lemma table_ok_with_td r c f g : table_ok (with_td r c f g) = table_ok g.
Proof. unfold table_ok, with_td. simpl. apply rectangular_alter2. Qed.

Lemma flags_ok_fill g g' starts :
  fill_rel g g' starts -> flags_ok g = true -> flags_ok g' = true.
Proof.
  rewrite !flags_ok_spec. intros Hrel Hg r c td Htd.
  destruct (fill_td _ _ _ Hrel (r, c)) as [E|[_ E]]; cbn [fst snd] in E;
    rewrite E in Htd.
  - by eapply Hg.
  - destruct (elements_td g r c) as [td0|]; [|done]. injection Htd as <-.
    apply td_ok_no_unknown, unknown_removed.
    rewrite list_elem_of_singleton. done.
Qed.

Lemma number_class_no_unknown num : classes.unknown ∉ number_class num.
Proof.
  unfold number_class, index.
  destruct (0 <=? num); [|simpl; apply not_elem_of_nil].
  destruct (_ !! _) as [cs|] eqn:E; simpl; [|apply not_elem_of_nil].
  apply list_elem_of_lookup_2 in E. rewrite !elem_of_cons, elem_of_nil in E.
  repeat (destruct E as [->|E];
          [first [apply not_elem_of_nil | by rewrite list_elem_of_singleton]|]).
  done.
Qed.

Lemma plantMine_grid_ok r c g g1 planted :
  plantMine r c g = Ok (g1, planted) -> grid_ok g1 = grid_ok g.
Proof.
  unfold plantMine, grid_ok. destruct (grid g) as [a|] eqn:Hg; [|done].
  destruct (index a r) as [ar|]; [|done].
  destruct (index ar c) as [cl|]; [|intros [= <- _]; by rewrite Hg].
  destruct (negb (mined cl)); intros [= <- _]; [|by rewrite Hg].
  simpl. apply rectangular_alter2.
Qed.

(** The page that [init] builds for a new game has the right shape. *)
Lemma init_new_shape sizeOfGame numberOfMines fuel random g g' :
  0 <= sizeOfGame ->
  init None sizeOfGame numberOfMines fuel random g = Ok g' ->
  active g' = true /\ grid_ok g' = true /\ table_ok g' = true /\ flags_ok g' = true
  /\ clicks (stats g') = 0 /\ count_class classes.flagged (table g') = 0.
Proof.
  intros Hsize Hinit. unfold init in Hinit. cbn [mbind res_bind] in Hinit.
  destruct (plantAllMines fuel random 0 _) as [g1| |] eqn:Hplant; simplify_eq/=.
  assert (Hkeep : forall fuel n g0 g1,
    plantAllMines fuel random n g0 = Ok g1 ->
    grid_ok g1 = grid_ok g0 /\ rows (stats g1) = rows (stats g0)
    /\ cols (stats g1) = cols (stats g0) /\ clicks (stats g1) = clicks (stats g0)).
  { clear. induction fuel as [|fuel IH]; intros n g0 g1; cbn [plantAllMines];
      destruct (JS.lt _ _); intros H; simplify_eq/=; try done.
    destruct (plantMine _ _ g0) as [[g2 planted]| |] eqn:Hp; simplify_eq/=.
    apply IH in H as (-> & -> & -> & ->).
    pose proof (plantMine_stats _ _ _ _ _ Hp) as Hs.
    pose proof (plantMine_grid_ok _ _ _ _ _ Hp) as Hg.
    rewrite <- Hg, <- Hs. by destruct planted. }
  apply Hkeep in Hplant as (Hok & Hr & Hc & Hcl).
  split; [done|].
  assert (Hrows : 0 <= rows (stats g1)) by (rewrite Hr; simpl; lia).
  assert (Hcols : 0 <= cols (stats g1)) by (rewrite Hc; simpl; lia).
  split; [|split; [|split; [|split]]].
  - change (grid_ok g1 = true). rewrite Hok. unfold grid_ok, generateGrid. simpl.
    apply rectangular_replicate; lia.
  - unfold table_ok, buildGrid. simpl. by apply rectangular_replicate.
  - apply flags_ok_spec. intros r c td. unfold elements_td, buildGrid. simpl.
    intros (_ & _ & tr & Htr & Htd)%lookup2_Some.
    apply lookup_replicate in Htr as [-> _]. apply lookup_replicate in Htd as [-> _].
    apply td_ok_no_flagged. rewrite list_elem_of_singleton. done.
  - simpl. by rewrite Hcl.
  - unfold buildGrid. simpl. unfold count_class. by apply count2_replicate_false.
Qed.

(** ** Counting tds and cells *)

Lemma count_alter_same {A} (p : A -> bool) f (l : list A) i :
  (forall v, p (f v) = p v) ->
  length (List.filter p (alter f i l)) = length (List.filter p l).
Proof.
  intros Hf. revert i. induction l as [|a l IH]; intros [|i]; simpl; try done.
  - rewrite Hf. by destruct (p a).
  - destruct (p a); simpl; [f_equal|]; apply IH.
Qed.

Lemma count2_alter2_same {A} (p : A -> bool) f i j (a : list (list A)) :
  (forall v, p (f v) = p v) -> count2 p (alter2 f i j a) = count2 p a.
Proof.
  intros Hf. unfold alter2, count2. destruct (_ && _); [|done]. f_equal.
  generalize (Z.to_nat i). induction a as [|ar a IH]; intros [|n]; simpl; try done.
  - rewrite !List.filter_app, !length_app. f_equal. by apply count_alter_same.
  - rewrite !List.filter_app, !length_app. f_equal. apply IH.
Qed.

Lemma count2_fmap {A} (p : A -> bool) (a : list (list A)) :
  count2 p a = count2 id (fmap (M:=list) (fmap (M:=list) p) a).
Proof.
  unfold count2. f_equal. induction a as [|ar a IH]; simpl; [done|].
  rewrite !List.filter_app, !length_app, IH. f_equal.
  clear. induction ar as [|v ar IH]; simpl; [done|].
  unfold id at 1. destruct (p v); simpl; by rewrite IH.
Qed.

(** Two arrays of one shape that agree on [p] place by place have as many
    elements that satisfy it. *)
Lemma count2_pointwise {A B} (p : A -> bool) (q : B -> bool) h w
    (a : list (list A)) (b : list (list B)) :
  rectangular h w a = true -> rectangular h w b = true ->
  (forall i j, p <$> lookup2 a i j = q <$> lookup2 b i j) ->
  count2 p a = count2 q b.
Proof.
  intros Ha Hb Hpq. rewrite (count2_fmap p), (count2_fmap q). f_equal.
  pose proof Ha as [Hla Hwa]%rectangular_spec. pose proof Hb as [Hlb Hwb]%rectangular_spec.
  apply list_eq. intros i. rewrite !list_lookup_fmap.
  destruct (a !! i) as [ar|] eqn:Ea, (b !! i) as [br|] eqn:Eb; simpl.
  - f_equal. apply list_eq. intros j. rewrite !list_lookup_fmap.
    specialize (Hpq (Z.of_nat i) (Z.of_nat j)). unfold lookup2, index in Hpq.
    destruct (Z.leb_spec 0 (Z.of_nat i)); [|lia].
    destruct (Z.leb_spec 0 (Z.of_nat j)); [|lia].
    rewrite !Nat2Z.id, Ea, Eb in Hpq. exact Hpq.
  - apply lookup_lt_Some in Ea. apply lookup_ge_None in Eb. lia.
  - apply lookup_ge_None in Ea. apply lookup_lt_Some in Eb. lia.
  - done.
Qed.

Lemma tds_positions g : tds g = concat (positions g).
Proof. done. Qed.

Lemma lookup2_positions g i j :
  lookup2 (positions g) i j = (fun td => (i, j, td)) <$> lookup2 (table g) i j.
Proof.
  unfold positions, lookup2, index.
  destruct (Z.leb_spec 0 i); [|done]. rewrite list_lookup_imap.
  destruct (table g !! Z.to_nat i) as [tr|]; [|done]. simpl.
  destruct (Z.leb_spec 0 j); [|done]. rewrite list_lookup_imap.
  destruct (tr !! Z.to_nat j) as [td|]; [|done]. simpl. by rewrite !Z2Nat.id.
Qed.

Lemma rectangular_imap {A B} (F : nat -> nat -> A -> B) h w (a : list (list A)) :
  rectangular h w (imap (fun r ar => imap (F r) ar) a) = rectangular h w a.
Proof.
  unfold rectangular. rewrite length_imap. f_equal.
  revert F. induction a as [|ar a IH]; intros F; simpl; [done|].
  rewrite length_imap. f_equal. apply (IH (fun r => F (S r))).
Qed.

Lemma rectangular_positions h w g :
  rectangular h w (positions g) = rectangular h w (table g).
Proof. apply (rectangular_imap (fun r c td => (Z.of_nat r, Z.of_nat c, td))). Qed.

(** The number of tds with a class, counted over the positions. *)
Lemma count_class_tds c g :
  table_ok g = true ->
  count_class c (table g) =
  Z.of_nat (length (List.filter (fun t => bool_decide (c ∈ t.2)) (tds g))).
Proof.
  intros Htab. unfold count_class. rewrite tds_positions.
  change (Z.of_nat (length (List.filter (fun t : Z * Z * classList => bool_decide (c ∈ t.2))
                              (concat (positions g)))))
    with (count2 (fun t : Z * Z * classList => bool_decide (c ∈ t.2)) (positions g)).
  eapply count2_pointwise; [exact Htab|by rewrite rectangular_positions|].
  intros i j. rewrite lookup2_positions. by destruct (lookup2 (table g) i j).
Qed.

(** The number of mined cells, counted over the positions of the tds. *)
Lemma mined_cells_tds g :
  grid_ok g = true -> table_ok g = true ->
  mined_cells g =
  Z.of_nat (length (List.filter (fun t => is_mined g t.1.1 t.1.2) (tds g))).
Proof.
  intros Hok Htab. unfold mined_cells. rewrite tds_positions.
  pose proof Hok as Hgrid. unfold grid_ok in Hgrid.
  destruct (grid g) as [a|] eqn:Hg; [|done].
  change (Z.of_nat (length (List.filter (fun t : Z * Z * classList => is_mined g t.1.1 t.1.2)
                              (concat (positions g)))))
    with (count2 (fun t : Z * Z * classList => is_mined g t.1.1 t.1.2) (positions g)).
  eapply count2_pointwise; [exact Hgrid|by rewrite rectangular_positions|].
  intros i j. rewrite lookup2_positions.
  destruct (in_bounds g i j) eqn:Hin.
  - destruct (is_mined_cellAt _ _ _ Hok Hin) as (cl & Hcl & Hm).
    unfold cellAt in Hcl. rewrite Hg in Hcl. simpl in Hcl. rewrite Hcl.
    assert (is_Some (lookup2 (table g) i j)) as [td ->].
    { apply (rectangular_index _ _ _ _ _ Htab). by apply in_bounds_spec. }
    simpl. by rewrite Hm.
  - assert (lookup2 a i j = None) as ->.
    { apply eq_None_not_Some. rewrite (rectangular_index _ _ _ _ _ Hgrid).
      intros H%in_bounds_spec. congruence. }
    assert (lookup2 (table g) i j = None) as ->; [|done].
    apply eq_None_not_Some. rewrite (rectangular_index _ _ _ _ _ Htab).
    intros H%in_bounds_spec. congruence.
Qed.

Lemma filter_length_sum {A} (p q r : A -> bool) (l : list A) :
  (forall t, t ∈ l -> Z.b2z (p t) = Z.b2z (q t) + Z.b2z (r t)) ->
  Z.of_nat (length (List.filter p l)) =
  Z.of_nat (length (List.filter q l)) + Z.of_nat (length (List.filter r l)).
Proof.
  induction l as [|t l IH]; intros H; [done|].
  rewrite !count_filter_cons, IH.
  - rewrite (H t) by constructor. lia.
  - intros t' Ht'. apply H. by constructor.
Qed.

(** ** A game in play *)

(** Without a false flag, the mines are the unknown mined tds and the
    flagged tds. *)
Lemma unknown_mines_count g :
  grid_ok g = true -> table_ok g = true -> flags_ok g = true ->
  mines_covered g -> existsb (false_flag g) (tds g) = false ->
  mined_cells g = unknown_mines g + count_class classes.flagged (table g).
Proof.
  intros Hok Htab Hfl Hcov Hnoff.
  rewrite (mined_cells_tds _ Hok Htab), (count_class_tds _ _ Htab). unfold unknown_mines.
  apply filter_length_sum. intros [[r c] td] Ht.
  pose proof (tds_lookup _ _ Ht) as Htd. cbn [fst snd] in *.
  assert (Hff : false_flag g (r, c, td) = false).
  { destruct (false_flag g (r, c, td)) eqn:E; [|done].
    assert (existsb (false_flag g) (tds g) = true); [|congruence].
    apply existsb_exists. exists (r, c, td). split; [by apply list_elem_of_In|done]. }
  unfold false_flag, unknown_mine in *. cbn [fst snd] in *.
  destruct (is_mined g r c) eqn:Hm.
  - destruct (Hcov r c Hm) as [Hu|Hf]; unfold elements_td in *; rewrite Htd in *;
      cbn [hasClass] in *.
    + rewrite Hu. apply bool_decide_eq_true in Hu.
      assert (Hnf : bool_decide (classes.flagged ∈ td) = false).
      { apply bool_decide_eq_false. intros Hf.
        apply (proj1 (flags_ok_spec g) Hfl r c td); [by unfold elements_td|done..]. }
      by rewrite Hnf.
    + rewrite Hf. apply bool_decide_eq_true in Hf.
      assert (Hnu : bool_decide (classes.unknown ∈ td) = false).
      { apply bool_decide_eq_false.
        apply (proj1 (flags_ok_spec g) Hfl r c td); [by unfold elements_td|done]. }
      by rewrite Hnu.
  - rewrite andb_true_r in Hff. rewrite Hff, andb_false_r. done.
Qed.

Lemma mined_cells_pos g r c :
  grid_ok g = true -> is_mined g r c = true -> 1 <= mined_cells g.
Proof.
  intros Hok Hm. assert (Hin : in_bounds g r c = true).
  { unfold is_mined in Hm. by apply andb_true_iff in Hm as [? _]. }
  destruct (is_mined_cellAt _ _ _ Hok Hin) as (cl & Hcl & Hmc).
  unfold mined_cells, cellAt in *. destruct (grid g) as [a|]; [|done]. simpl in Hcl.
  pose proof (count2_alter2 mined (fun _ => Cell false) r c a cl Hcl) as Hc.
  rewrite Hmc, Hm in Hc. simpl in Hc.
  assert (0 <= count2 mined (alter2 (fun _ => Cell false) r c a)) by (unfold count2; lia).
  lia.
Qed.

Lemma cellClicked_split shiftKey r c fuel g :
  cellClicked shiftKey r c fuel g =
  currentCell ← getCell g r c;
  match currentCell with
  | Some cl =>
      p ← click_action shiftKey r c fuel cl
             (set_stats (set_clicks (clicks (stats g) + 1) (stats g)) g);
      click_check p.2 p.1
  | None => Ok (set_stats (set_clicks (clicks (stats g) + 1) (stats g)) g)
  end.
Proof.
  unfold cellClicked, click_action, click_check.
  destruct (getCell g r c) as [[cl|]| |]; try done. cbn [mbind res_bind].
  match goal with |- mbind _ ?m = mbind _ ?m' => change m' with m; destruct m as [[g2 b]| |] end;
    done.
Qed.

Lemma elements_td_with_td r c f g r' c' :
  elements_td (with_td r c f g) r' c' =
  if decide (r = r' /\ c = c') then f <$> elements_td g r' c' else elements_td g r' c'.
Proof. unfold elements_td, with_td. simpl. apply lookup2_alter2. Qed.

Lemma count_class_with_td_same cl r c f g :
  (forall td, bool_decide (cl ∈ f td) = bool_decide (cl ∈ td)) ->
  count_class cl (table (with_td r c f g)) = count_class cl (table g).
Proof. intros Hf. unfold count_class, with_td. simpl. by apply count2_alter2_same. Qed.

Lemma count_class_with_td cl r c f g td :
  elements_td g r c = Some td ->
  count_class cl (table (with_td r c f g)) =
  count_class cl (table g) - Z.b2z (bool_decide (cl ∈ td)) + Z.b2z (bool_decide (cl ∈ f td)).
Proof.
  intros Htd. unfold count_class, with_td. simpl.
  by rewrite (count2_alter2 _ _ _ _ _ _ Htd).
Qed.

Lemma elements_td_in_bounds g r c :
  table_ok g = true -> in_bounds g r c = true -> is_Some (elements_td g r c).
Proof.
  intros Htab Hin. apply (rectangular_index _ _ _ _ _ Htab). by apply in_bounds_spec.
Qed.

(** A class change at one td keeps the mines covered when it leaves the td
    of a mined cell unknown or flagged. *)
Lemma mines_covered_with_td r c f g :
  mines_covered g ->
  (forall td, elements_td g r c = Some td -> is_mined g r c = true ->
     classes.unknown ∈ f td \/ classes.flagged ∈ f td) ->
  mines_covered (with_td r c f g).
Proof.
  intros Hcov Hf r' c' Hm. change (is_mined g r' c' = true) in Hm.
  rewrite elements_td_with_td. case_decide as Hd; [|by apply Hcov].
  destruct Hd as [<- <-]. specialize (Hcov r c Hm).
  destruct (elements_td g r c) as [td|] eqn:Etd; [|by destruct Hcov].
  cbn [fmap option_fmap option_map hasClass]. rewrite !bool_decide_eq_true. by apply Hf.
Qed.

Lemma number_class_no_flagged num : classes.flagged ∉ number_class num.
Proof.
  unfold number_class, index.
  destruct (0 <=? num); [|simpl; apply not_elem_of_nil].
  destruct (_ !! _) as [cs|] eqn:E; simpl; [|apply not_elem_of_nil].
  apply list_elem_of_lookup_2 in E. rewrite !elem_of_cons, elem_of_nil in E.
  repeat (destruct E as [->|E];
          [first [apply not_elem_of_nil | by rewrite list_elem_of_singleton]|]).
  done.
Qed.

Lemma in_play_fill g g' starts :
  grid_ok g = true -> table_ok g = true ->
  fill_rel g g' starts -> in_play g -> in_play g'.
Proof.
  intros Hok Htab Hrel [Hcov Hcount].
  destruct (fill_data _ _ _ Hrel) as (Hg & Hs & _).
  destruct (same_data_board _ _ (fill_data _ _ _ Hrel)) as (_ & _ & Hm & _).
  split.
  - intros r c Hmined. rewrite Hm in Hmined.
    destruct (fill_td _ _ _ Hrel (r, c)) as [E|[F _]]; cbn [fst snd] in *.
    + rewrite E. by apply Hcov.
    + apply fillable_spec in F. cbn [fst snd] in F. destruct F as (_ & _ & F & _). congruence.
  - rewrite Hs, Hcount. unfold mined_cells. rewrite Hg. f_equal.
    unfold count_class.
    apply (count2_pointwise _ _ (rows (stats g)) (cols (stats g)));
      [exact Htab|by rewrite (fill_shape _ _ _ Hrel)|].
    intros i j. change (lookup2 (table g) i j) with (elements_td g i j).
    change (lookup2 (table g') i j) with (elements_td g' i j).
    destruct (fill_td _ _ _ Hrel (i, j)) as [E|[_ E]]; cbn [fst snd] in E; rewrite E; [done|].
    pose proof (hasClass_reveal_flagged (elements_td g i j)) as H.
    destruct (elements_td g i j); [|done]. simpl in *. by rewrite H.
Qed.

(** What the action of a click on a cell of the grid comes to. *)
Lemma click_action_spec shiftKey r c fuel cl g :
  grid_ok g = true -> table_ok g = true ->
  count_class classes.unknown (table g) < Z.of_nat fuel ->
  in_bounds g r c = true -> cellAt g r c = Some cl ->
  exists g2 b,
    click_action shiftKey r c fuel cl g = Ok (g2, b)
    /\ clicks (stats g2) = clicks (stats g)
    /\ grid_ok g2 = true /\ table_ok g2 = true
    /\ (flags_ok g = true -> flags_ok g2 = true)
    /\ (b = true -> isGameActive g2 = false)
    /\ (b = false -> isGameActive g2 = isGameActive g /\ (in_play g -> in_play g2)).
Proof.
  intros Hok Htab Hfuel Hin Hcl. unfold click_action.
  assert (Hmined : mined cl = is_mined g r c).
  { unfold is_mined. by rewrite Hin, Hcl. }
  destruct (elements_td_in_bounds _ _ _ Htab Hin) as [td0 Htd0].
  set (f1 := fun cs : classList => addClass [classes.sprite] (removeClass classes.unknown cs)).
  assert (Hf1u : forall td, classes.unknown ∉ f1 td).
  { intros td. apply unknown_removed. rewrite list_elem_of_singleton. done. }
  assert (Hf1f : forall td, bool_decide (classes.flagged ∈ f1 td)
                            = bool_decide (classes.flagged ∈ td)).
  { intros td. apply bool_decide_ext. unfold f1.
    rewrite elem_of_addClass, elem_of_removeClass, list_elem_of_singleton.
    split; [intros [[? _]|?]; done|]. intros ?. by left. }
  destruct shiftKey.
  - (* flag or unflag *)
    set (g2 := with_td r c f1 g).
    assert (Htd2 : elements_td g2 r c = Some (f1 td0)).
    { unfold g2. rewrite elements_td_with_td, decide_True, Htd0 by done. done. }
    assert (Hfl2 : flags_ok g = true -> flags_ok g2 = true).
    { intros Hfl. apply flags_ok_with_td; [exact Hfl|].
      intros td _. apply td_ok_no_unknown, Hf1u. }
    assert (Hc2 : count_class classes.flagged (table g2)
                  = count_class classes.flagged (table g)).
    { by apply count_class_with_td_same. }
    rewrite Htd2. cbn [hasClass].
    destruct (bool_decide (classes.flagged ∈ f1 td0)) eqn:Hflag.
    + set (f2 := fun cs : classList => addClass [classes.unknown] (removeClass classes.flagged cs)).
      assert (Hf2 : classes.unknown ∈ f2 (f1 td0) /\ classes.flagged ∉ f2 (f1 td0)).
      { unfold f2. rewrite !elem_of_addClass, !elem_of_removeClass, !list_elem_of_singleton.
        split; [by right|]. intros [[_ ?]|?]; done. }
      eexists _, false. split; [reflexivity|].
      split; [done|]. split; [exact Hok|].
      split; [change (table_ok (with_td r c f2 g2) = true); unfold g2;
              by rewrite !table_ok_with_td|].
      split.
      { intros Hfl. apply (flags_ok_with_td r c f2 g2); [auto|].
        intros td Htd. rewrite Htd2 in Htd. injection Htd as <-.
        apply td_ok_no_flagged, Hf2. }
      split; [done|]. intros _. split; [done|]. intros [Hcov Hcount]. split.
      * intros r' c' Hm. change (is_mined g r' c' = true) in Hm.
        change (elements_td (set_stats _ ?g') r' c') with (elements_td g' r' c').
        rewrite elements_td_with_td. destruct (decide (r = r' /\ c = c')) as [Hd|Hd].
        -- destruct Hd as [<- <-]. rewrite Htd2. left. apply hasClass_Some, Hf2.
        -- unfold g2. rewrite elements_td_with_td, decide_False by done. by apply Hcov.
      * cbn [stats set_stats minesPlanted set_minesPlanted table].
        change (stats (with_td r c f2 g2)) with (stats g).
        change (mined_cells (set_stats _ _)) with (mined_cells g).
        rewrite (count_class_with_td _ _ _ _ _ _ Htd2), Hc2, Hflag.
        rewrite (bool_decide_eq_false_2 _ (proj2 Hf2)). simpl. lia.
    + set (f3 := addClass [classes.flagged]).
      assert (Hf3 : classes.flagged ∈ f3 (f1 td0) /\ classes.unknown ∉ f3 (f1 td0)).
      { unfold f3. rewrite !elem_of_addClass, !list_elem_of_singleton.
        split; [by right|]. intros [?|?]; [by eapply Hf1u|done]. }
      eexists _, false. split; [reflexivity|].
      split; [done|]. split; [exact Hok|].
      split; [change (table_ok (with_td r c f3 g2) = true); unfold g2;
              by rewrite !table_ok_with_td|].
      split.
      { intros Hfl. apply (flags_ok_with_td r c f3 g2); [auto|].
        intros td Htd. rewrite Htd2 in Htd. injection Htd as <-.
        apply td_ok_no_unknown, Hf3. }
      split; [done|]. intros _. split; [done|]. intros [Hcov Hcount]. split.
      * intros r' c' Hm. change (is_mined g r' c' = true) in Hm.
        change (elements_td (set_stats _ ?g') r' c') with (elements_td g' r' c').
        rewrite elements_td_with_td. destruct (decide (r = r' /\ c = c')) as [Hd|Hd].
        -- destruct Hd as [<- <-]. rewrite Htd2. right. apply hasClass_Some, Hf3.
        -- unfold g2. rewrite elements_td_with_td, decide_False by done. by apply Hcov.
      * cbn [stats set_stats minesPlanted set_minesPlanted table].
        change (stats (with_td r c f3 g2)) with (stats g).
        change (mined_cells (set_stats _ _)) with (mined_cells g).
        rewrite (count_class_with_td _ _ _ _ _ _ Htd2), Hc2, Hflag.
        rewrite (bool_decide_eq_true_2 _ (proj1 Hf3)). simpl. lia.
  - rewrite Hmined. destruct (is_mined g r c) eqn:Hm; cbn [negb].
    + (* a mine *)
      set (g2 := with_td r c (addClass [classes.mined; classes.sprite]) g).
      destruct (validate_total g2) as (g3 & -> & Hs3 & Hg3 & Hina & Hrect & Hfl3).
      { intros _. split; [exact Hok|]. unfold g2. by rewrite table_ok_with_td. }
      cbn [mbind res_bind]. exists g3, true. split; [done|]. split; [by rewrite Hs3|].
      split; [unfold grid_ok; by rewrite Hg3, Hs3|].
      split.
      { unfold table_ok. rewrite Hs3. apply Hrect.
        unfold g2, with_td. cbn [table set_table]. rewrite rectangular_alter2. exact Htab. }
      split; [|split; [done|discriminate]].
      intros Hfl. apply Hfl3. apply flags_ok_with_td; [exact Hfl|].
      intros td Htd.
      apply flags_ok_spec with (r := r) (c := c) (td := td) in Hfl; [|exact Htd].
      intros Hf Hu. apply elem_of_addClass in Hf, Hu.
      rewrite !elem_of_cons, elem_of_nil in Hf, Hu.
      destruct Hf as [Hf|[?|[?|?]]]; try done.
      destruct Hu as [Hu|[?|[?|?]]]; try done. by apply Hfl.
    + (* a cell without a mine *)
      rewrite (countSurroundingMines_eq _ _ _ Hok). cbn [mbind res_bind].
      destruct (adjacent_mines g r c =? 0).
      * destruct (revealEmptyAdjacent_fill fuel (r, c) g Hok Hfuel) as (g2 & Hrun2 & Hrel).
        cbn [fst snd] in Hrun2. rewrite Hrun2. cbn [mbind res_bind].
        destruct (fill_data _ _ _ Hrel) as (Hg2 & Hs2 & Ha2 & _).
        exists g2, false. split; [done|]. split; [by rewrite Hs2|].
        split; [unfold grid_ok; by rewrite Hg2, Hs2|].
        split; [unfold table_ok; by rewrite Hs2, (fill_shape _ _ _ Hrel)|].
        split; [intros Hfl; by apply (flags_ok_fill _ _ _ Hrel)|].
        split; [done|]. intros _. split; [unfold isGameActive; by rewrite Hg2, Ha2|].
        by apply (in_play_fill g g2 [(r, c)]).
      * set (f := fun cs : classList =>
                    addClass ([classes.sprite; classes.empty] ++ number_class (adjacent_mines g r c))
                      (removeClass classes.unknown cs)).
        exists (with_td r c f g), false. split; [done|]. split; [done|].
        split; [exact Hok|]. split; [by rewrite table_ok_with_td|].
        split.
        { intros Hfl. apply flags_ok_with_td; [exact Hfl|].
          intros td _. apply td_ok_no_unknown, unknown_removed.
          rewrite elem_of_app, !elem_of_cons, elem_of_nil.
          intros [[?|[?|?]]|?]; try done. by eapply number_class_no_unknown. }
        split; [done|]. intros _. split; [done|]. intros [Hcov Hcount]. split.
        -- apply mines_covered_with_td; [done|]. intros td _ Hm'. congruence.
        -- change (stats (with_td r c f g)) with (stats g).
           change (mined_cells (with_td r c f g)) with (mined_cells g).
           rewrite count_class_with_td_same; [done|].
           intros td. apply bool_decide_ext. unfold f.
           rewrite elem_of_addClass, elem_of_removeClass, elem_of_app, !elem_of_cons, elem_of_nil.
           split; [|intros ?; by left].
           intros [[? _]|[[?|[?|?]]|?]]; try done. by edestruct number_class_no_flagged.
Qed.

(** What the closing check comes to: the game goes on only when no
    validation was due. *)
Lemma click_check_spec b g :
  grid_ok g = true -> table_ok g = true ->
  exists g',
    click_check b g = Ok g'
    /\ stats g' = stats g
    /\ grid_ok g' = true /\ table_ok g' = true
    /\ (flags_ok g = true -> flags_ok g' = true)
    /\ (isGameActive g' = true ->
        g' = g
        /\ (b = false ->
            minesPlanted (stats g) <> 0
            /\ minesPlanted (stats g) < count_class classes.unknown (table g))).
Proof.
  intros Hok Htab.
  assert (Hval : forall g2, grid_ok g2 = true -> table_ok g2 = true ->
    exists g3, validate g2 = Ok g3 /\ stats g3 = stats g2
      /\ isGameActive g3 = false /\ grid_ok g3 = true /\ table_ok g3 = true
      /\ (flags_ok g2 = true -> flags_ok g3 = true)).
  { intros g2 Hok2 Htab2.
    destruct (validate_total g2) as (g3 & Hrun & Hs & Hg & Hina & Hrect & Hfl); [done|].
    exists g3. repeat (split; [done|]). split; [|split; [|done]].
    - unfold grid_ok. by rewrite Hg, Hs.
    - unfold table_ok. rewrite Hs. by apply Hrect. }
  unfold click_check. destruct b; cbn [negb andb].
  { exists g. do 5 (split; [done|]). intros _. split; [done|discriminate]. }
  destruct (isGameActive g) eqn:Hact.
  2:{ exists g. do 5 (split; [done|]). congruence. }
  destruct (Z.eqb_spec (minesPlanted (stats g)) 0) as [H0|H0].
  - destruct (Hval g Hok Htab) as (g3 & -> & Hs3 & Hina & Hok3 & Htab3 & Hfl3).
    cbn [mbind res_bind].
    destruct (_ <=? _).
    + destruct (Hval g3 Hok3 Htab3) as (g4 & -> & Hs4 & Hina4 & Hok4 & Htab4 & Hfl4).
      exists g4. split; [done|]. split; [congruence|]. do 2 (split; [done|]).
      split; [auto|]. congruence.
    + exists g3. do 5 (split; [done|]). congruence.
  - cbn [mbind res_bind].
    destruct (Z.leb_spec (count_class classes.unknown (table g)) (minesPlanted (stats g))).
    + destruct (Hval g Hok Htab) as (g3 & -> & Hs3 & Hina & Hok3 & Htab3 & Hfl3).
      exists g3. do 5 (split; [done|]). congruence.
    + exists g. do 5 (split; [done|]). intros _. split; [done|]. intros _. split; [done|lia].
Qed.

(** What a call of [cellClicked] on a page of the right shape comes to. *)
Lemma cellClicked_returns shiftKey r c fuel g :
  grid_ok g = true -> table_ok g = true ->
  count_class classes.unknown (table g) < Z.of_nat fuel ->
  exists g',
    cellClicked shiftKey r c fuel g = Ok g'
    /\ clicks (stats g') = clicks (stats g) + 1
    /\ grid_ok g' = true /\ table_ok g' = true
    /\ (flags_ok g = true -> flags_ok g' = true).
Proof.
  intros Hok Htab Hfuel. rewrite cellClicked_split, (getCell_ok _ _ _ Hok).
  cbn [mbind res_bind].
  set (g1 := set_stats (set_clicks (clicks (stats g) + 1) (stats g)) g).
  destruct (in_bounds g r c) eqn:Hin; [|by exists g1].
  destruct (is_mined_cellAt _ _ _ Hok Hin) as (cl & Hcl & _). rewrite Hcl.
  destruct (click_action_spec shiftKey r c fuel cl g1 Hok Htab Hfuel Hin Hcl)
    as (g2 & b & -> & Hc2 & Hok2 & Htab2 & Hfl2 & _).
  cbn [mbind res_bind fst snd].
  destruct (click_check_spec b g2 Hok2 Htab2) as (g3 & -> & Hs3 & Hok3 & Htab3 & Hfl3 & _).
  exists g3. split; [done|]. split; [by rewrite Hs3, Hc2|]. auto.
Qed.

(** A click keeps the shape of the page. *)
Lemma cellClicked_shape shiftKey r c fuel g g' :
  grid_ok g = true -> table_ok g = true -> flags_ok g = true ->
  count_class classes.unknown (table g) < Z.of_nat fuel ->
  cellClicked shiftKey r c fuel g = Ok g' ->
  grid_ok g' = true /\ table_ok g' = true /\ flags_ok g' = true.
Proof.
  intros Hok Htab Hfl Hfuel Hrun.
  destruct (cellClicked_returns shiftKey r c fuel g Hok Htab Hfuel)
    as (g'' & Hrun' & _ & ? & ? & ?).
  rewrite Hrun in Hrun'. injection Hrun' as <-. auto.
Qed.

Lemma playing_clicks n g :
  playing g -> playing (set_stats (set_clicks n (stats g)) g).
Proof. by intros H. Qed.

(** A click keeps a game in play. *)
Lemma cellClicked_playing shiftKey r c fuel g g' :
  playing g ->
  count_class classes.unknown (table g) < Z.of_nat fuel ->
  cellClicked shiftKey r c fuel g = Ok g' ->
  playing g'.
Proof.
  intros Hplay Hfuel. rewrite cellClicked_split.
  set (g1 := set_stats (set_clicks (clicks (stats g) + 1) (stats g)) g).
  pose proof (playing_clicks (clicks (stats g) + 1) g Hplay) as Hplay1. fold g1 in Hplay1.
  destruct Hplay as (Hok & Htab & Hfl & _).
  rewrite (getCell_ok _ _ _ Hok). cbn [mbind res_bind].
  destruct (in_bounds g r c) eqn:Hin; [|by intros [= <-]].
  destruct (is_mined_cellAt _ _ _ Hok Hin) as (cl & Hcl & _). rewrite Hcl.
  destruct Hplay1 as (Hok1 & Htab1 & Hfl1 & Hact1).
  destruct (click_action_spec shiftKey r c fuel cl g1 Hok1 Htab1 Hfuel Hin Hcl)
    as (g2 & b & -> & _ & Hok2 & Htab2 & Hfl2 & Hmine & Hgo).
  cbn [mbind res_bind fst snd].
  destruct (click_check_spec b g2 Hok2 Htab2) as (g3 & -> & Hs3 & Hok3 & Htab3 & Hfl3 & Hact3).
  intros [= <-]. split; [done|]. split; [done|]. split; [auto|].
  intros Hact. destruct (Hact3 Hact) as [-> Hset].
  destruct b; [rewrite Hmine in Hact; done|].
  destruct (Hgo eq_refl) as [Hsame Hkeep]. destruct (Hset eq_refl) as [Hne Hlt].
  rewrite Hsame in Hact. destruct (Hact1 Hact) as [Hin1 _].
  split; [by apply Hkeep|]. split; [done|]. intros ?. done.
Qed.

(** In a game in play a plain click on a mine loses. *)
Lemma cellClicked_mine_loses r c fuel g :
  playing g -> isGameActive g = true -> is_mined g r c = true ->
  exists g',
    cellClicked false r c fuel g = Ok g'
    /\ gameresult g' = Some "You Lose!"%string
    /\ isGameActive g' = false.
Proof.
  intros (Hok & Htab & Hfl & Hplay) Hact Hm.
  destruct (Hplay Hact) as [[Hcov Hcount] [Hlt Hzero]].
  assert (Hin : in_bounds g r c = true).
  { unfold is_mined in Hm. by apply andb_true_iff in Hm as [? _]. }
  destruct (is_mined_cellAt _ _ _ Hok Hin) as (cl & Hcl & Hmc).
  rewrite cellClicked_split, (getCell_ok _ _ _ Hok), Hin, Hcl. cbn [mbind res_bind].
  unfold click_action. rewrite Hmc, Hm. cbn [negb].
  set (g1 := set_stats (set_clicks (clicks (stats g) + 1) (stats g)) g).
  set (f := addClass [classes.mined; classes.sprite]).
  set (g2 := with_td r c f g1).
  assert (Hfu : forall td, bool_decide (classes.unknown ∈ f td)
                           = bool_decide (classes.unknown ∈ td)).
  { intros td. apply bool_decide_ext. unfold f.
    rewrite elem_of_addClass, !elem_of_cons, elem_of_nil.
    split; [intros [?|[?|[?|?]]]; done|]. intros ?. by left. }
  assert (Hff : forall td, bool_decide (classes.flagged ∈ f td)
                           = bool_decide (classes.flagged ∈ td)).
  { intros td. apply bool_decide_ext. unfold f.
    rewrite elem_of_addClass, !elem_of_cons, elem_of_nil.
    split; [intros [?|[?|[?|?]]]; done|]. intros ?. by left. }
  assert (Hok2 : grid_ok g2 = true) by exact Hok.
  assert (Htab2 : table_ok g2 = true) by (unfold g2; by rewrite table_ok_with_td).
  assert (Hfl2 : flags_ok g2 = true).
  { apply flags_ok_with_td; [exact Hfl|]. intros td Htd.
    apply (proj1 (flags_ok_spec g) Hfl) in Htd.
    intros H1 H2. apply (bool_decide_eq_true_2 _) in H1. apply (bool_decide_eq_true_2 _) in H2.
    rewrite Hff in H1. rewrite Hfu in H2.
    apply bool_decide_eq_true in H1. apply bool_decide_eq_true in H2. by apply Htd. }
  assert (Hcov2 : mines_covered g2).
  { apply mines_covered_with_td; [exact Hcov|]. intros td Htd Hm'.
    destruct (Hcov r c Hm) as [H|H]; change (elements_td g1 r c) with (elements_td g r c) in Htd;
      rewrite Htd in H; cbn [hasClass] in H.
    - left. apply (bool_decide_eq_true _). by rewrite Hfu.
    - right. apply (bool_decide_eq_true _). by rewrite Hff. }
  assert (Hu2 : count_class classes.unknown (table g2) = count_class classes.unknown (table g)).
  { by apply (count_class_with_td_same _ r c f g1). }
  assert (Hf2 : count_class classes.flagged (table g2) = count_class classes.flagged (table g)).
  { by apply (count_class_with_td_same _ r c f g1). }
  rewrite (validate_active g2 Hact Hok2 Htab2). cbn [mbind res_bind fst snd].
  unfold click_check. cbn [negb andb].
  eexists. split; [reflexivity|]. split.
  2:{ unfold validate_result, isGameActive. destruct (_ && _); simpl; by destruct (grid g). }
  unfold validate_result.
  destruct (existsb (false_flag g2) (tds g2)) eqn:Hflag; [by destruct (_ && _)|].
  pose proof (unknown_mines_count g2 Hok2 Htab2 Hfl2 Hcov2 Hflag) as Hcnt.
  change (mined_cells g2) with (mined_cells g) in Hcnt.
  pose proof (mined_cells_pos g r c Hok Hm) as Hpos.
  assert (Hn : unknown_mines g2 = minesPlanted (stats g)) by lia.
  destruct (Z.eqb_spec (unknown_mines g2) 0); [lia|].
  destruct (Z.eqb_spec (unknown_mines g2) (count_class classes.unknown (table g2))); [lia|].
  done.
Qed.

Lemma count2_replicate_true {A} (p : A -> bool) h w v :
  0 <= h -> 0 <= w -> p v = true ->
  count2 p (replicate (Z.to_nat h) (replicate (Z.to_nat w) v)) = h * w.
Proof.
  intros Hh Hw Hv. unfold count2.
  assert (Hrow : forall k, List.filter p (replicate k v) = replicate k v).
  { induction k as [|k IH]; simpl; [done|]. by rewrite Hv, IH. }
  assert (Hlen : forall n k,
    length (List.filter p (concat (replicate n (replicate k v)))) = (n * k)%nat).
  { intros n k. induction n as [|n IH]; simpl; [done|].
    by rewrite List.filter_app, length_app, Hrow, length_replicate, IH. }
  rewrite Hlen. lia.
Qed.

(** A new game with fewer mines than cells is in play. *)
Lemma init_playing sizeOfGame numberOfMines fuel random g g' m :
  unit_interval random -> 1 <= sizeOfGame ->
  is_integer (JS.ToNumber (if JS.isNaN numberOfMines
                           then JS.Number (JS.of_Z 10) else numberOfMines)) m ->
  0 <= m < (8 * sizeOfGame) * (8 * sizeOfGame) ->
  init None sizeOfGame numberOfMines fuel random g = Ok g' ->
  playing g' /\ isGameActive g' = true /\ mined_cells g' = m.
Proof.
  intros Hu Hsize Hm Hrange Hinit.
  assert (Hsize0 : 0 <= sizeOfGame) by lia.
  destruct (init_new_shape _ _ _ _ _ _ Hsize0 Hinit) as (Hact & Hok & Htab & Hfl & _ & Hflags).
  unfold init in Hinit. cbn [mbind res_bind] in Hinit.
  set (g0 := generateGrid sizeOfGame numberOfMines (init_defaults (set_gameresult None g))) in *.
  destruct (plantAllMines fuel random 0 g0) as [g1| |] eqn:Hplant; simplify_eq/=.
  assert (Hfresh : fresh_board g0) by (by apply generateGrid_fresh).
  assert (Hrows : rows (stats g0) = 8 * sizeOfGame) by done.
  assert (Hcols : cols (stats g0) = 8 * sizeOfGame) by done.
  assert (Hmines : mines (stats g0) = if JS.isNaN numberOfMines
                                      then JS.Number (JS.of_Z 10) else numberOfMines).
  { unfold g0, generateGrid. simpl. by destruct (JS.isNaN numberOfMines). }
  assert (Hinv : planting_inv g0) by (apply fresh_board_inv; [done|lia..]).
  rewrite <- Hmines in Hm.
  destruct (plantAllMines_post fuel random 0 g0 g1 m Hu Hinv Hm) as (Hinv1 & Hfr & Hmc & Hmp);
    [destruct Hfresh as [_ ->]; lia|done|].
  destruct Hfr as (Hr1 & Hc1 & _).
  assert (Hactive : isGameActive (set_active true (set_modal None (buildGrid g1))) = true).
  { unfold isGameActive, grid_ok in *. simpl in *. by destruct (grid g1). }
  split; [|split; [done|exact Hmc]].
  split; [done|]. split; [done|]. split; [done|]. intros _.
  assert (Hunknown : count_class classes.unknown (table (buildGrid g1))
                     = rows (stats g1) * cols (stats g1)).
  { unfold buildGrid, count_class. simpl. apply count2_replicate_true; [lia..|done]. }
  split; [split|split].
  - intros r c Hmined. left.
    assert (Hin : in_bounds g1 r c = true).
    { unfold is_mined in Hmined. by apply andb_true_iff in Hmined as [? _]. }
    apply in_bounds_spec in Hin. unfold elements_td, buildGrid. simpl.
    assert (lookup2 (replicate (Z.to_nat (rows (stats g1)))
                       (replicate (Z.to_nat (cols (stats g1))) [classes.unknown])) r c
            = Some [classes.unknown]) as ->; [|done].
    apply lookup2_Some. split; [lia|]. split; [lia|].
    exists (replicate (Z.to_nat (cols (stats g1))) [classes.unknown]).
    split; apply lookup_replicate_2; lia.
  - simpl in *. rewrite Hflags. change (mined_cells _) with (mined_cells g1). lia.
  - change (minesPlanted (stats g1) < count_class classes.unknown (table (buildGrid g1))).
    rewrite Hunknown, Hmp, Hr1, Hc1, Hrows, Hcols. lia.
  - change (minesPlanted (stats g1) = 0 -> mined_cells g1 = 0). lia.
Qed.

(** ** Clicks *)

(** C10. On a page of the right shape and with fuel above the number of
    unknown tds, every call of [cellClicked] returns, and the click counter
    of the state it returns is the old one plus one: with the shift key or
    without, on a mine or not, whether or not validation follows. When the
    coordinates name no cell of the grid the call returns whatever the page
    looks like, and the counter is the only thing that changes. *)
Theorem cellClicked_clicks (shiftKey : bool) (r c : Z) (fuel : nat) (g : game) :
  (grid_ok g = true -> table_ok g = true ->
   count_class classes.unknown (table g) < Z.of_nat fuel ->
   exists g',
     cellClicked shiftKey r c fuel g = Ok g'
     /\ clicks (stats g') = clicks (stats g) + 1)
  /\ (in_bounds g r c = false ->
      cellClicked shiftKey r c fuel g =
      Ok (set_stats (set_clicks (clicks (stats g) + 1) (stats g)) g)).
Proof.
  split.
  - intros Hok Htab Hfuel.
    destruct (cellClicked_returns shiftKey r c fuel g Hok Htab Hfuel)
      as (g' & Hrun & Hcl & _).
    by exists g'.
  - intros Hout. unfold cellClicked, getCell.
    unfold in_bounds in Hout. rewrite !Z.geb_leb, Hout. done.
Qed.

Lemma cellClicked_clicks_witness :
  (exists g', cellClicked true 2 1 10 board3 = Ok g' /\ clicks (stats g') = 1)
  /\ (exists g', cellClicked false 2 2 10 board3 = Ok g' /\ clicks (stats g') = 1)
  /\ (exists g', cellClicked false 0 0 10 board3 = Ok g' /\ clicks (stats g') = 1)
  /\ (exists g', cellClicked false 5 5 10 board3 = Ok g' /\ clicks (stats g') = 1).
Proof.
  repeat split.
  - exact (proj1 (cellClicked_clicks true 2 1 10 board3) eq_refl eq_refl eq_refl).
  - exact (proj1 (cellClicked_clicks false 2 2 10 board3) eq_refl eq_refl eq_refl).
  - exact (proj1 (cellClicked_clicks false 0 0 10 board3) eq_refl eq_refl eq_refl).
  - exists (set_stats (set_clicks (clicks (stats board3) + 1) (stats board3)) board3).
    split; [|reflexivity].
    exact (proj2 (cellClicked_clicks false 5 5 10 board3) eq_refl).
Defined.

(** * More of the code: judging, clicking, cheating, the page *)

(** ** Reading a cell, judging a game *)

Lemma validate_ends g g' :
  validate g = Ok g' ->
  isGameActive g' = false /\ stats g' = stats g /\ grid g' = grid g.
Proof.
  unfold validate. destruct (isGameActive g) eqn:Hact; cbn [negb].
  - destruct (for_each _ _ _) as [[result n]| |]; cbn [mbind res_bind]; try done.
    destruct (_ && _).
    + destruct (each_td _ _) as [t'| |]; cbn [mbind res_bind]; try done.
      intros [= <-]. unfold isGameActive. simpl. by destruct (grid g).
    + cbn [mbind res_bind]. intros [= <-]. unfold isGameActive. simpl. by destruct (grid g).
  - intros [= <-]. done.
Qed.

(** X1. [getCell] answers [null] for every position outside the rows and
    columns of the statistics, whatever the grid is; inside a grid of the
    shape [generateGrid] allocates it answers the cell stored there; inside
    the bounds while [data.grid] is still [null] it raises a TypeError. *)
Theorem getCell_bounds (g : game) (r c : Z) :
  (in_bounds g r c = false -> getCell g r c = Ok None)
  /\ (grid_ok g = true -> in_bounds g r c = true ->
      exists cl, getCell g r c = Ok (Some cl) /\ cellAt g r c = Some cl)
  /\ (grid g = None -> in_bounds g r c = true -> getCell g r c = TypeError).
Proof.
  split; [|split].
  - intros Hout. unfold getCell. unfold in_bounds in Hout. by rewrite !Z.geb_leb, Hout.
  - intros Hok Hin. rewrite (getCell_ok _ _ _ Hok), Hin.
    destruct (is_mined_cellAt _ _ _ Hok Hin) as (cl & Hcl & _). exists cl. by rewrite Hcl.
  - intros Hnull Hin. unfold getCell. unfold in_bounds in Hin.
    by rewrite !Z.geb_leb, Hin, Hnull.
Qed.

Lemma getCell_bounds_witness :
  getCell board3 3 0 = Ok None
  /\ (exists cl, getCell board3 0 1 = Ok (Some cl) /\ cellAt board3 0 1 = Some cl)
  /\ getCell blank 0 0 = TypeError.
Proof.
  split; [|split].
  - exact (proj1 (getCell_bounds board3 3 0) eq_refl).
  - exact (proj1 (proj2 (getCell_bounds board3 0 1)) eq_refl eq_refl).
  - exact (proj2 (proj2 (getCell_bounds blank 0 0)) eq_refl eq_refl).
Defined.

(** X2. Whenever [validate] returns, a second call changes nothing but the
    dialog, which then shows the error notice that no game is being played:
    a game is judged once. *)
Theorem validate_twice (g g' : game) :
  validate g = Ok g' ->
  validate g' = Ok (set_modal (Some ("Error",
    "You must be actively playing a game in order to <strong>validate</strong>.")%string) g').
Proof. intros Hrun. apply validate_inactive. by destruct (validate_ends _ _ Hrun). Qed.

Lemma validate_twice_witness :
  exists g', validate board3 = Ok g'
    /\ validate g' = Ok (set_modal (Some ("Error",
         "You must be actively playing a game in order to <strong>validate</strong>.")%string) g').
Proof.
  eexists. split; [vm_compute; reflexivity|].
  apply (validate_twice board3). vm_compute. reflexivity.
Defined.

(** X3. On a running game of the right shape [validate] returns with one
    of the two headings, and the heading is "You Win!" exactly when no flag
    sits on a mine-free cell and the unknown tds hide either no mine or
    nothing but mines. *)
Theorem validate_verdict (g : game) :
  isGameActive g = true -> grid_ok g = true -> table_ok g = true ->
  exists g',
    validate g = Ok g'
    /\ (gameresult g' = Some "You Win!"%string \/ gameresult g' = Some "You Lose!"%string)
    /\ (gameresult g' = Some "You Win!"%string <->
        existsb (false_flag g) (tds g) = false
        /\ (unknown_mines g = 0
            \/ unknown_mines g = count_class classes.unknown (table g))).
Proof.
  intros Hact Hok Htab. rewrite (validate_active g Hact Hok Htab).
  eexists. split; [reflexivity|]. unfold validate_result.
  destruct (Z.eqb_spec (unknown_mines g) 0) as [H0|H0];
    destruct (Z.eqb_spec (unknown_mines g) (count_class classes.unknown (table g))) as [H1|H1];
    cbn [negb andb]; destruct (existsb (false_flag g) (tds g)); cbn [gameresult set_gameresult];
    (split; [auto|]); split; try done; try (intros [? [?|?]]; done); auto.
Qed.

Lemma validate_verdict_witness :
  exists g', validate board3_flagged = Ok g'
    /\ gameresult g' = Some "You Lose!"%string.
Proof.
  destruct (validate_verdict board3_flagged eq_refl eq_refl eq_refl) as (g' & Hrun & Hres & Hiff).
  exists g'. split; [exact Hrun|]. destruct Hres as [Hw|Hl]; [|exact Hl].
  apply Hiff in Hw. destruct Hw as [Hw _]. vm_compute in Hw. discriminate.
Defined.

Lemma hasClass_missed_other cl td :
  cl <> classes.unknown -> cl ∉ [classes.sprite; classes.mined; classes.miss] ->
  hasClass cl (Some (missed_classes td)) = hasClass cl (Some td).
Proof.
  intros Hu Hn. cbn [hasClass]. apply bool_decide_ext. unfold missed_classes.
  rewrite elem_of_addClass, elem_of_removeClass. split; [|intros ?; by left].
  intros [[? _]|?]; done.
Qed.

(** X4. On a running game of the right shape [validate] keeps the
    statistics, the grid and the dialog and ends the game; a td is either
    unchanged or was an unknown td of a mined cell and now shows the missed
    mine; no class other than unknown, sprite, mined and miss is added to
    or taken from any td. *)
Theorem validate_changes (g : game) :
  isGameActive g = true -> grid_ok g = true -> table_ok g = true ->
  exists g',
    validate g = Ok g'
    /\ stats g' = stats g /\ grid g' = grid g /\ modal g' = modal g /\ active g' = false
    /\ (forall r c,
          elements_td g' r c = elements_td g r c
          \/ (unknown_at g (r, c) = true /\ is_mined g r c = true
              /\ elements_td g' r c = missed_classes <$> elements_td g r c))
    /\ (forall r c cl,
          cl <> classes.unknown -> cl ∉ [classes.sprite; classes.mined; classes.miss] ->
          hasClass cl (elements_td g' r c) = hasClass cl (elements_td g r c)).
Proof.
  intros Hact Hok Htab. rewrite (validate_active g Hact Hok Htab).
  eexists. split; [reflexivity|]. unfold validate_result.
  destruct (_ && _); cbn [stats grid modal active set_gameresult set_table set_active].
  2:{ do 4 (split; [done|]). split; [by left|done]. }
  do 4 (split; [done|]).
  assert (Htd : forall r c,
    elements_td (set_gameresult (Some "You Lose!"%string)
                   (set_table (missed_table g) (set_active false g))) r c
    = (fun td => if unknown_mine g (r, c, td) then missed_classes td else td)
        <$> elements_td g r c).
  { intros r c. unfold elements_td. cbn [table set_gameresult set_table].
    apply lookup2_missed_table. }
  split.
  - intros r c. rewrite Htd. unfold unknown_at. cbn [fst snd].
    destruct (elements_td g r c) as [td|] eqn:Etd; [|by left]. cbn [fmap option_fmap option_map].
    unfold unknown_mine. cbn [fst snd hasClass].
    destruct (bool_decide (classes.unknown ∈ td)); cbn [andb]; [|by left].
    destruct (is_mined g r c); [by right|by left].
  - intros r c cl Hu Hn. rewrite Htd.
    destruct (elements_td g r c) as [td|] eqn:Etd; [|done]. cbn [fmap option_fmap option_map].
    destruct (unknown_mine g (r, c, td)); [|done]. by apply hasClass_missed_other.
Qed.

Lemma validate_changes_witness :
  exists g', validate board3 = Ok g'
    /\ stats g' = stats board3 /\ grid g' = grid board3 /\ active g' = false.
Proof.
  destruct (validate_changes board3 eq_refl eq_refl eq_refl)
    as (g' & Hrun & Hs & Hg & _ & Ha & _).
  by exists g'.
Defined.

(** ** What one click does *)

Lemma alter2_alter2 {A} (f h : A -> A) i j (a : list (list A)) :
  alter2 f i j (alter2 h i j a) = alter2 (f ∘ h) i j a.
Proof.
  unfold alter2. destruct (_ && _); [|done].
  rewrite list_alter_alter_eq. apply list_alter_ext; [|done].
  intros ar _. cbn. by rewrite list_alter_alter_eq.
Qed.

Lemma alter2_ext {A} (f h : A -> A) i j (a : list (list A)) :
  (forall v, lookup2 a i j = Some v -> f v = h v) ->
  alter2 f i j a = alter2 h i j a.
Proof.
  intros Hfh. unfold alter2. destruct (0 <=? i) eqn:Hi, (0 <=? j) eqn:Hj; try done.
  cbn [andb]. apply list_alter_ext; [|done]. intros ar Har.
  apply list_alter_ext; [|done]. intros v Hv. apply Hfh.
  unfold lookup2, index. rewrite Hi, Har. simpl. by rewrite Hj.
Qed.

Lemma click_action_shift r c fuel cl g td :
  elements_td g r c = Some td ->
  click_action true r c fuel cl g =
  Ok (set_stats (set_minesPlanted
                   (minesPlanted (stats g)
                    + (if bool_decide (classes.flagged ∈ td) then 1 else -1)) (stats g))
        (with_td r c toggle_flag g), false).
Proof.
  intros Htd. unfold click_action.
  set (f1 := fun cs : classList => addClass [classes.sprite] (removeClass classes.unknown cs)).
  assert (Hf1 : bool_decide (classes.flagged ∈ f1 td) = bool_decide (classes.flagged ∈ td)).
  { apply bool_decide_ext. unfold f1.
    rewrite elem_of_addClass, elem_of_removeClass, list_elem_of_singleton.
    split; [intros [[? _]|?]; done|]. intros ?. by left. }
  rewrite elements_td_with_td, decide_True, Htd by done.
  cbn [fmap option_fmap option_map hasClass]. rewrite Hf1.
  destruct (bool_decide (classes.flagged ∈ td)) eqn:Hfl; do 2 f_equal.
  - unfold with_td, set_stats, set_table. cbn [stats table active grid gameresult modal].
    f_equal. rewrite alter2_alter2. apply alter2_ext. intros v Hv.
    unfold elements_td in Htd. rewrite Htd in Hv. injection Hv as <-.
    unfold toggle_flag. cbn zeta.
    change (addClass [classes.sprite] (removeClass classes.unknown td)) with (f1 td).
    by rewrite Hf1.
  - unfold with_td, set_stats, set_table. cbn [stats table active grid gameresult modal].
    f_equal. rewrite alter2_alter2. apply alter2_ext. intros v Hv.
    unfold elements_td in Htd. rewrite Htd in Hv. injection Hv as <-.
    unfold toggle_flag. cbn zeta.
    change (addClass [classes.sprite] (removeClass classes.unknown td)) with (f1 td).
    by rewrite Hf1.
Qed.

Lemma click_action_number r c fuel cl g :
  grid_ok g = true -> mined cl = false -> adjacent_mines g r c <> 0 ->
  click_action false r c fuel cl g =
  Ok (with_td r c (shown_number (adjacent_mines g r c)) g, false).
Proof.
  intros Hok Hcl Hnum. unfold click_action. rewrite Hcl. cbn [negb].
  rewrite (countSurroundingMines_eq _ _ _ Hok). cbn [mbind res_bind].
  by destruct (Z.eqb_spec (adjacent_mines g r c) 0).
Qed.

Lemma click_action_empty r c fuel cl g :
  grid_ok g = true -> mined cl = false -> adjacent_mines g r c = 0 ->
  click_action false r c fuel cl g = (g' ← revealEmptyAdjacent fuel r c g; Ok (g', false)).
Proof.
  intros Hok Hcl Hnum. unfold click_action. rewrite Hcl. cbn [negb].
  rewrite (countSurroundingMines_eq _ _ _ Hok). cbn [mbind res_bind].
  by rewrite Hnum.
Qed.

Lemma filter_length_sum2 {A} (p q r s : A -> bool) (l : list A) :
  (forall t, t ∈ l -> Z.b2z (p t) + Z.b2z (q t) = Z.b2z (r t) + Z.b2z (s t)) ->
  Z.of_nat (length (List.filter p l)) + Z.of_nat (length (List.filter q l)) =
  Z.of_nat (length (List.filter r l)) + Z.of_nat (length (List.filter s l)).
Proof.
  induction l as [|t l IH]; intros H; [done|].
  rewrite !count_filter_cons.
  specialize (IH (fun t' Ht' => H t' (list_elem_of_further _ _ _ Ht'))).
  specialize (H t (list_elem_of_here _ _)). lia.
Qed.

Lemma false_flags_0 g :
  false_flags g = 0 <-> existsb (false_flag g) (tds g) = false.
Proof.
  unfold false_flags. induction (tds g) as [|t l IH]; [done|].
  rewrite count_filter_cons. cbn [existsb].
  destruct (false_flag g t); cbn [Z.b2z orb]; [split; [lia|done]|].
  rewrite <- IH. lia.
Qed.

(** The mines and the false flags are the unknown mined tds and the
    flagged tds. *)
Lemma mines_flags_count g :
  grid_ok g = true -> table_ok g = true -> flags_ok g = true -> mines_covered g ->
  mined_cells g + false_flags g = unknown_mines g + count_class classes.flagged (table g).
Proof.
  intros Hok Htab Hfl Hcov.
  rewrite (mined_cells_tds _ Hok Htab), (count_class_tds _ _ Htab).
  unfold unknown_mines, false_flags.
  apply filter_length_sum2. intros [[r c] td] Ht.
  pose proof (tds_lookup _ _ Ht) as Htd. cbn [fst snd] in *.
  unfold false_flag, unknown_mine. cbn [fst snd].
  pose proof (proj1 (flags_ok_spec g) Hfl r c td Htd) as Hok_td.
  destruct (is_mined g r c) eqn:Hm; cbn [negb].
  - destruct (Hcov r c Hm) as [Hu|Hf]; unfold elements_td in *; rewrite Htd in *;
      cbn [hasClass] in *.
    + rewrite Hu. apply bool_decide_eq_true in Hu.
      assert (Hnf : bool_decide (classes.flagged ∈ td) = false).
      { apply bool_decide_eq_false. intros Hf. by apply Hok_td. }
      by rewrite Hnf.
    + rewrite Hf. apply bool_decide_eq_true in Hf.
      assert (Hnu : bool_decide (classes.unknown ∈ td) = false).
      { apply bool_decide_eq_false. by apply Hok_td. }
      by rewrite Hnu.
  - rewrite !andb_false_r, andb_true_r. done.
Qed.

Lemma filter_and_length {A} (p q : A -> bool) (l : list A) :
  (length (List.filter (fun t => p t && q t) l) <= length (List.filter p l))%nat
  /\ (length (List.filter (fun t => p t && q t) l) = length (List.filter p l)
      <-> forall t, t ∈ l -> p t = true -> q t = true).
Proof.
  induction l as [|t l [IH1 IH2]].
  - split; [done|]. split; [|done]. intros _ t Ht. by apply elem_of_nil in Ht.
  - cbn [List.filter]. destruct (p t) eqn:Hp, (q t) eqn:Hq; cbn [andb length].
    + split; [lia|]. split.
      * intros H t' Ht'. apply elem_of_cons in Ht' as [->|Ht']; [done|].
        apply IH2; [lia|done].
      * intros H. f_equal. apply IH2. intros t' Ht'. apply H. by right.
    + split; [lia|]. split; [lia|]. intros H.
      specialize (H t (list_elem_of_here _ _) Hp). congruence.
    + split; [done|]. rewrite IH2. split.
      * intros H t' Ht'. apply elem_of_cons in Ht' as [->|Ht']; [congruence|]. by apply H.
      * intros H t' Ht'. apply H. by right.
    + split; [done|]. rewrite IH2. split.
      * intros H t' Ht'. apply elem_of_cons in Ht' as [->|Ht']; [congruence|]. by apply H.
      * intros H t' Ht'. apply H. by right.
Qed.

Lemma lookup2_concat {A} (a : list (list A)) i j v :
  lookup2 a i j = Some v -> v ∈ concat a.
Proof.
  intros (_ & _ & ar & Har & Hv)%lookup2_Some.
  apply list_elem_of_lookup_2 in Har, Hv.
  apply list_elem_of_In, in_concat. exists ar. by rewrite <- !list_elem_of_In.
Qed.

Lemma tds_elem g r c td : elements_td g r c = Some td -> (r, c, td) ∈ tds g.
Proof.
  intros Htd. rewrite tds_positions. apply (lookup2_concat _ r c).
  rewrite lookup2_positions. unfold elements_td in Htd. by rewrite Htd.
Qed.

(** The unknown mined tds are among the unknown tds; they are all of them
    exactly when every unknown td is on a mine. *)
Lemma unknown_mines_le g :
  table_ok g = true ->
  unknown_mines g <= count_class classes.unknown (table g)
  /\ (unknown_mines g = count_class classes.unknown (table g)
      <-> forall r c, unknown_at g (r, c) = true -> is_mined g r c = true).
Proof.
  intros Htab. rewrite (count_class_tds _ _ Htab). unfold unknown_mines.
  destruct (filter_and_length (fun t : Z * Z * classList => bool_decide (classes.unknown ∈ t.2))
              (fun t => is_mined g t.1.1 t.1.2) (tds g)) as [Hle Heq].
  change (fun t : Z * Z * classList => bool_decide (classes.unknown ∈ t.2) && is_mined g t.1.1 t.1.2)
    with (unknown_mine g) in *.
  split; [lia|]. rewrite Nat2Z.inj_iff, Heq. split.
  - intros H r c Hu. unfold unknown_at, hasClass in Hu. cbn [fst snd] in Hu.
    destruct (elements_td g r c) as [td|] eqn:Htd; [|done].
    by apply (H (r, c, td)); [apply tds_elem|].
  - intros H [[r c] td] Ht Hu. cbn [fst snd] in *. apply H. unfold unknown_at. cbn [fst snd].
    unfold elements_td. pose proof (tds_lookup _ _ Ht) as Hl. cbn [fst snd] in Hl.
    by rewrite Hl.
Qed.

Lemma count_class_pos cl g r c td :
  elements_td g r c = Some td -> cl ∈ td -> 1 <= count_class cl (table g).
Proof.
  intros Htd Hcl. unfold count_class.
  pose proof (count2_alter2 (fun cs : classList => bool_decide (cl ∈ cs))
                (fun _ => []) r c (table g) td Htd) as Hc.
  cbn beta in Hc. rewrite (bool_decide_eq_true_2 _ Hcl) in Hc.
  rewrite (bool_decide_eq_false_2 (cl ∈ [])) in Hc by apply not_elem_of_nil.
  pose proof (count_class_nonneg cl (alter2 (fun _ => []) r c (table g))) as Hpos.
  unfold count_class in Hpos. simpl in Hc. lia.
Qed.

(** The tds that validation shows as missed mines are no longer unknown. *)
Lemma count_unknown_missed g :
  table_ok g = true ->
  count_class classes.unknown (missed_table g) =
  count_class classes.unknown (table g) - unknown_mines g.
Proof.
  intros Htab.
  set (G := fun t : Z * Z * classList =>
              if unknown_mine g t then missed_classes t.2 else t.2).
  assert (H1 : count_class classes.unknown (missed_table g)
               = Z.of_nat (length (List.filter
                   (fun t => bool_decide (classes.unknown ∈ G t)) (tds g)))).
  { rewrite tds_positions. unfold count_class.
    change (Z.of_nat (length (List.filter (fun t => bool_decide (classes.unknown ∈ G t))
                                (concat (positions g)))))
      with (count2 (fun t => bool_decide (classes.unknown ∈ G t)) (positions g)).
    apply (count2_pointwise _ _ (rows (stats g)) (cols (stats g))).
    - by apply rectangular_missed_table.
    - by rewrite rectangular_positions.
    - intros i j. rewrite lookup2_missed_table, lookup2_positions.
      by destruct (lookup2 (table g) i j). }
  rewrite H1, (count_class_tds _ _ Htab). unfold unknown_mines.
  enough (Z.of_nat (length (List.filter (fun t : Z * Z * classList =>
                                          bool_decide (classes.unknown ∈ t.2)) (tds g)))
          = Z.of_nat (length (List.filter (unknown_mine g) (tds g)))
            + Z.of_nat (length (List.filter
                (fun t => bool_decide (classes.unknown ∈ G t)) (tds g)))) by lia.
  apply filter_length_sum. intros t _. unfold G, unknown_mine.
  destruct (bool_decide (classes.unknown ∈ t.2)) eqn:Hu; cbn [andb].
  - destruct (is_mined g t.1.1 t.1.2); [|by rewrite Hu].
    pose proof (hasClass_missed_unknown t.2) as Hm. cbn [hasClass] in Hm. by rewrite Hm.
  - by rewrite Hu.
Qed.

Lemma validate_result_data g :
  stats (validate_result g) = stats g /\ grid (validate_result g) = grid g
  /\ modal (validate_result g) = modal g /\ active (validate_result g) = false
  /\ isGameActive (validate_result g) = false.
Proof.
  unfold validate_result, isGameActive. destruct (_ && _); simpl; by destruct (grid g).
Qed.

Lemma validate_result_unknown g :
  table_ok g = true -> 1 <= count_class classes.unknown (table g) ->
  1 <= count_class classes.unknown (table (validate_result g)).
Proof.
  intros Htab Hu. unfold validate_result.
  destruct (Z.eqb_spec (unknown_mines g) 0) as [H0|H0]; cbn [negb andb]; [done|].
  destruct (Z.eqb_spec (unknown_mines g) (count_class classes.unknown (table g))) as [H1|H1];
    cbn [negb]; [done|].
  cbn [table set_gameresult set_table]. rewrite (count_unknown_missed _ Htab).
  destruct (unknown_mines_le g Htab) as [Hle _]. lia.
Qed.

(** The closing check of a click on a running game. *)
Lemma click_check_running g :
  isGameActive g = true -> grid_ok g = true -> table_ok g = true ->
  (minesPlanted (stats g) = 0 -> 1 <= count_class classes.unknown (table g)) ->
  click_check false g =
  Ok (if (minesPlanted (stats g) =? 0)
         || (count_class classes.unknown (table g) <=? minesPlanted (stats g))
      then validate_result g else g).
Proof.
  intros Hact Hok Htab Hzero. unfold click_check. rewrite Hact. cbn [negb andb].
  destruct (Z.eqb_spec (minesPlanted (stats g)) 0) as [H0|H0]; cbn [orb].
  - rewrite (validate_active g Hact Hok Htab). cbn [mbind res_bind].
    destruct (validate_result_data g) as (-> & _).
    pose proof (validate_result_unknown g Htab (Hzero H0)) as Hu.
    destruct (Z.leb_spec (count_class classes.unknown (table (validate_result g)))
                (minesPlanted (stats g))); [lia|done].
  - cbn [mbind res_bind]. destruct (_ <=? _); [|done].
    by rewrite (validate_active g Hact Hok Htab).
Qed.

Lemma cellClicked_on_cell shiftKey r c fuel g cl :
  grid_ok g = true -> in_bounds g r c = true -> cellAt g r c = Some cl ->
  cellClicked shiftKey r c fuel g =
  (p ← click_action shiftKey r c fuel cl
         (set_stats (set_clicks (clicks (stats g) + 1) (stats g)) g);
   click_check p.2 p.1).
Proof.
  intros Hok Hin Hcl. by rewrite cellClicked_split, (getCell_ok _ _ _ Hok), Hin, Hcl.
Qed.

(** The click counter is no part of the board. *)
Lemma adjacent_mines_clicks n g r c :
  adjacent_mines (set_stats (set_clicks n (stats g)) g) r c = adjacent_mines g r c.
Proof. unfold adjacent_mines. f_equal. Qed.

Lemma click_check_data b g g' :
  click_check b g = Ok g' -> stats g' = stats g /\ grid g' = grid g.
Proof.
  unfold click_check. destruct (_ && _); [|by intros [= <-]].
  assert (Hv : forall g1 g2, validate g1 = Ok g2 -> stats g2 = stats g1 /\ grid g2 = grid g1).
  { intros g1 g2 H. by destruct (validate_ends _ _ H) as (_ & ? & ?). }
  destruct (_ =? _).
  - destruct (validate g) as [g1| |] eqn:E1; cbn [mbind res_bind]; try done.
    destruct (Hv _ _ E1) as [Hs Hg]. destruct (_ <=? _).
    + intros H. destruct (Hv _ _ H) as [Hs' Hg']. split; congruence.
    + by intros [= <-].
  - cbn [mbind res_bind]. destruct (_ <=? _); [apply Hv|by intros [= <-]].
Qed.

Lemma hasClass_elements_td cl g r c td :
  elements_td g r c = Some td -> hasClass cl (elements_td g r c) = bool_decide (cl ∈ td).
Proof. by intros ->. Qed.

(** X6. A click never changes the grid, the size of the board, the mine
    count or the seconds.  The counter of mines moves only with a
    shift-click on a cell of the board: one up when the td was flagged, one
    down otherwise. *)
Theorem cellClicked_frame (shiftKey : bool) (r c : Z) (fuel : nat) (g g' : game) :
  grid_ok g = true -> table_ok g = true ->
  count_class classes.unknown (table g) < Z.of_nat fuel ->
  cellClicked shiftKey r c fuel g = Ok g' ->
  grid g' = grid g
  /\ rows (stats g') = rows (stats g) /\ cols (stats g') = cols (stats g)
  /\ mines (stats g') = mines (stats g) /\ seconds (stats g') = seconds (stats g)
  /\ minesPlanted (stats g') =
     minesPlanted (stats g)
     + (if shiftKey && in_bounds g r c
        then if hasClass classes.flagged (elements_td g r c) then 1 else -1
        else 0).
Proof.
  intros Hok Htab Hfuel.
  set (g1 := set_stats (set_clicks (clicks (stats g) + 1) (stats g)) g).
  destruct (in_bounds g r c) eqn:Hin.
  2:{ rewrite cellClicked_split, (getCell_ok _ _ _ Hok), Hin. cbn [mbind res_bind].
      intros [= <-]. rewrite andb_false_r. cbn. repeat split; lia. }
  destruct (is_mined_cellAt _ _ _ Hok Hin) as (cl & Hcl & Hmc).
  rewrite (cellClicked_on_cell _ _ _ _ _ cl Hok Hin Hcl). fold g1.
  destruct (elements_td_in_bounds _ _ _ Htab Hin) as [td Htd].
  destruct shiftKey; cbn [andb].
  - rewrite (click_action_shift r c fuel cl g1 td Htd). cbn [mbind res_bind fst snd].
    intros [Hs Hg]%click_check_data. rewrite Hs, Hg, Htd. cbn [hasClass].
    by destruct (bool_decide _).
  - destruct (mined cl) eqn:Hm.
    + unfold click_action. rewrite Hm. cbn [negb].
      destruct (validate _) as [g2| |] eqn:E2; cbn [mbind res_bind fst snd]; try done.
      destruct (validate_ends _ _ E2) as (_ & Hs2 & Hg2).
      intros [Hs Hg]%click_check_data. rewrite Hs, Hg, Hs2, Hg2. cbn. repeat split; lia.
    + destruct (Z.eq_dec (adjacent_mines g1 r c) 0) as [Hn|Hn].
      * rewrite (click_action_empty r c fuel cl g1 Hok Hm Hn).
        destruct (revealEmptyAdjacent_fill fuel (r, c) g1 Hok Hfuel) as (g2 & Hrun2 & Hrel).
        cbn [fst snd] in Hrun2. rewrite Hrun2. cbn [mbind res_bind fst snd].
        destruct (fill_data _ _ _ Hrel) as (Hg2 & Hs2 & _).
        intros [Hs Hg]%click_check_data. rewrite Hs, Hg, Hs2, Hg2. cbn. repeat split; lia.
      * rewrite (click_action_number r c fuel cl g1 Hok Hm Hn). cbn [mbind res_bind fst snd].
        intros [Hs Hg]%click_check_data. rewrite Hs, Hg. cbn. repeat split; lia.
Qed.

Lemma cellClicked_frame_witness :
  exists g',
    cellClicked true 2 1 10 board3 = Ok g'
    /\ grid g' = grid board3 /\ minesPlanted (stats g') = 1.
Proof.
  eexists. split; [vm_compute; reflexivity|].
  destruct (cellClicked_frame true 2 1 10 board3 _ eq_refl eq_refl eq_refl eq_refl)
    as (Hg & _ & _ & _ & _ & Hmp).
  split; [exact Hg|exact Hmp].
Defined.

Lemma existsb_false_flag g :
  existsb (false_flag g) (tds g) = true <->
  exists r c, hasClass classes.flagged (elements_td g r c) = true /\ is_mined g r c = false.
Proof.
  rewrite existsb_exists. split.
  - intros ([[r c] td] & Ht%list_elem_of_In & Hff). exists r, c.
    pose proof (tds_lookup _ _ Ht) as Hl. cbn [fst snd] in Hl.
    unfold elements_td. rewrite Hl. unfold false_flag in Hff. cbn [fst snd hasClass] in *.
    apply andb_true_iff in Hff as [? ?%negb_true_iff]. done.
  - intros (r & c & Hf & Hm). destruct (elements_td g r c) as [td|] eqn:Htd; [|done].
    exists (r, c, td). split; [by apply list_elem_of_In, tds_elem|].
    unfold false_flag. cbn [fst snd hasClass] in *. by rewrite Hf, Hm.
Qed.

(** What a plain click on a mine-free cell of a running game leaves before
    the closing check. *)
Lemma reveal_action r c fuel cl g :
  grid_ok g = true -> table_ok g = true ->
  count_class classes.unknown (table g) < Z.of_nat fuel ->
  in_bounds g r c = true -> cellAt g r c = Some cl -> mined cl = false ->
  exists g2,
    click_action false r c fuel cl g = Ok (g2, false)
    /\ same_data g g2
    /\ grid_ok g2 = true /\ table_ok g2 = true
    /\ (flags_ok g = true -> flags_ok g2 = true)
    /\ (in_play g -> in_play g2)
    /\ (adjacent_mines g r c = 0 -> fill_rel g g2 [(r, c)])
    /\ (adjacent_mines g r c <> 0 ->
        g2 = with_td r c (shown_number (adjacent_mines g r c)) g).
Proof.
  intros Hok Htab Hfuel Hin Hcl Hm.
  destruct (click_action_spec false r c fuel cl g Hok Htab Hfuel Hin Hcl)
    as (g2 & b & Hrun & _ & Hok2 & Htab2 & Hfl2 & _ & Hgo).
  destruct (Z.eq_dec (adjacent_mines g r c) 0) as [Hn|Hn].
  - rewrite (click_action_empty r c fuel cl g Hok Hm Hn) in Hrun.
    destruct (revealEmptyAdjacent_fill fuel (r, c) g Hok Hfuel) as (g3 & Hrun3 & Hrel).
    cbn [fst snd] in Hrun3. rewrite Hrun3 in Hrun. cbn [mbind res_bind] in Hrun.
    injection Hrun as <- <-. exists g3.
    rewrite (click_action_empty r c fuel cl g Hok Hm Hn), Hrun3. cbn [mbind res_bind].
    split; [done|]. split; [apply (fill_data _ _ _ Hrel)|]. do 3 (split; [done|]).
    split; [apply Hgo; done|]. split; [done|]. intros ?. done.
  - rewrite (click_action_number r c fuel cl g Hok Hm Hn) in Hrun.
    injection Hrun as <- <-. eexists.
    rewrite (click_action_number r c fuel cl g Hok Hm Hn).
    split; [done|]. split; [done|]. do 3 (split; [done|]).
    split; [apply Hgo; done|]. split; [intros ?; done|done].
Qed.

(** X12. In a running game in play with at least one mine, a plain click
    on a mine-free cell of the board returns; the game is ended by it
    exactly when afterwards no flag sits on a mine-free cell and every
    unknown td hides a mine, and then the heading is "You Win!"; otherwise
    the game goes on and the heading is as before. *)
Theorem cellClicked_clears (r c : Z) (fuel : nat) (g : game) :
  playing g -> isGameActive g = true -> 1 <= mined_cells g ->
  count_class classes.unknown (table g) < Z.of_nat fuel ->
  in_bounds g r c = true -> is_mined g r c = false ->
  exists g',
    cellClicked false r c fuel g = Ok g'
    /\ (isGameActive g' = false <->
        existsb (false_flag g') (tds g') = false
        /\ forall r' c', unknown_at g' (r', c') = true -> is_mined g' r' c' = true)
    /\ (isGameActive g' = false -> gameresult g' = Some "You Win!"%string)
    /\ (isGameActive g' = true -> gameresult g' = gameresult g).
Proof.
  intros (Hok & Htab & Hfl & Hplay) Hact Hmines Hfuel Hin Hm.
  destruct (Hplay Hact) as [Hinp [Hlt Hzero]].
  destruct (is_mined_cellAt _ _ _ Hok Hin) as (cl & Hcl & Hmc). rewrite Hm in Hmc.
  rewrite (cellClicked_on_cell _ _ _ _ _ cl Hok Hin Hcl).
  set (g1 := set_stats (set_clicks (clicks (stats g) + 1) (stats g)) g).
  destruct (reveal_action r c fuel cl g1 Hok Htab Hfuel Hin Hcl Hmc)
    as (g2 & -> & Hsame & Hok2 & Htab2 & Hfl2 & Hinp2 & _).
  cbn [mbind res_bind fst snd].
  destruct Hsame as (Hg2 & Hs2 & Ha2 & Hr2 & _).
  assert (Hact2 : isGameActive g2 = true).
  { unfold isGameActive in *. by rewrite Hg2, Ha2. }
  assert (Hmp2 : minesPlanted (stats g2) = minesPlanted (stats g)) by (by rewrite Hs2).
  assert (Hmc2 : mined_cells g2 = mined_cells g) by (unfold mined_cells; by rewrite Hg2).
  specialize (Hfl2 Hfl). destruct (Hinp2 Hinp) as [Hcov2 Hcount2].
  pose proof (mines_flags_count g2 Hok2 Htab2 Hfl2 Hcov2) as Hsum.
  destruct (unknown_mines_le g2 Htab2) as [Hle Heq].
  pose proof (false_flags_0 g2) as Hff0.
  assert (Hffpos : 0 <= false_flags g2) by (unfold false_flags; lia).
  rewrite (click_check_running g2 Hact2 Hok2 Htab2) by lia.
  destruct (Z.eqb_spec (minesPlanted (stats g2)) 0) as [H0|_]; [lia|]. cbn [orb].
  destruct (Z.leb_spec (count_class classes.unknown (table g2)) (minesPlanted (stats g2)))
    as [Hend|Hgo].
  - (* the last mine-free cell is revealed *)
    assert (Hnoff : false_flags g2 = 0) by lia.
    assert (Hall : unknown_mines g2 = count_class classes.unknown (table g2)) by lia.
    eexists. split; [reflexivity|].
    assert (Hres : validate_result g2 =
                   set_gameresult (Some "You Win!"%string) (set_active false g2)).
    { unfold validate_result. rewrite (proj1 Hff0 Hnoff).
      destruct (Z.eqb_spec (unknown_mines g2) (count_class classes.unknown (table g2)));
        [|done]. by rewrite andb_false_r. }
    rewrite Hres. split; [|split].
    + split; [|intros _; unfold isGameActive; simpl; by destruct (grid g2)].
      intros _. split; [by apply Hff0|]. by apply Heq.
    + done.
    + unfold isGameActive. simpl. by destruct (grid g2).
  - exists g2. split; [done|]. split; [|split].
    + split; [congruence|]. intros [Hnoff Hall]. apply Hff0 in Hnoff. apply Heq in Hall. lia.
    + congruence.
    + by rewrite Hr2.
Qed.

Lemma elem_of_toggle_flag cl td :
  cl ∈ toggle_flag td <->
  if bool_decide (classes.flagged ∈ td)
  then cl = classes.unknown \/ cl = classes.sprite \/ (cl ∈ td /\ cl <> classes.flagged)
  else cl = classes.flagged \/ cl = classes.sprite \/ (cl ∈ td /\ cl <> classes.unknown).
Proof.
  unfold toggle_flag. cbn zeta.
  assert (Hf1 : bool_decide (classes.flagged ∈ addClass [classes.sprite]
                               (removeClass classes.unknown td))
                = bool_decide (classes.flagged ∈ td)).
  { apply bool_decide_ext.
    rewrite elem_of_addClass, elem_of_removeClass, list_elem_of_singleton.
    split; [intros [[? _]|?]; done|]. intros ?. by left. }
  rewrite Hf1. destruct (bool_decide (classes.flagged ∈ td)).
  - rewrite elem_of_addClass, elem_of_removeClass, elem_of_addClass, elem_of_removeClass,
      !list_elem_of_singleton.
    destruct (decide (cl = classes.unknown)) as [->|Hu]; [split; auto|].
    destruct (decide (cl = classes.sprite)) as [->|Hs]; [split; [auto|]|].
    { intros _. left. split; [by right|done]. }
    split; [intros [[[[? _]|?] ?]|?]; auto; done|].
    intros [?|[?|[? ?]]]; try done. left. split; [by left|done].
  - rewrite elem_of_addClass, elem_of_addClass, elem_of_removeClass, !list_elem_of_singleton.
    split; [intros [[[? ?]|?]|?]; auto|]. intros [?|[?|[? ?]]]; auto.
Qed.

(** What a shift-click on a td of a running game leaves before the closing
    check. *)
Lemma shift_action r c fuel cl g td :
  grid_ok g = true -> table_ok g = true ->
  in_bounds g r c = true -> cellAt g r c = Some cl -> elements_td g r c = Some td ->
  exists g2,
    click_action true r c fuel cl g = Ok (g2, false)
    /\ grid g2 = grid g /\ active g2 = active g
    /\ gameresult g2 = gameresult g /\ modal g2 = modal g
    /\ stats g2 = set_minesPlanted
                    (minesPlanted (stats g)
                     + (if bool_decide (classes.flagged ∈ td) then 1 else -1)) (stats g)
    /\ table g2 = alter2 toggle_flag r c (table g)
    /\ grid_ok g2 = true /\ table_ok g2 = true
    /\ (flags_ok g = true -> flags_ok g2 = true)
    /\ (in_play g -> in_play g2).
Proof.
  intros Hok Htab Hin Hcl Htd.
  assert (Hfuel : count_class classes.unknown (table g)
                  < Z.of_nat (S (Z.to_nat (count_class classes.unknown (table g))))).
  { pose proof (count_class_nonneg classes.unknown (table g)). lia. }
  destruct (click_action_spec true r c _ cl g Hok Htab Hfuel Hin Hcl)
    as (g2 & b & Hrun & _ & Hok2 & Htab2 & Hfl2 & _ & Hgo).
  rewrite (click_action_shift r c _ cl g td Htd) in Hrun. injection Hrun as <- <-.
  eexists. split; [apply (click_action_shift r c fuel cl g td Htd)|].
  do 6 (split; [done|]). do 3 (split; [done|]). by apply Hgo.
Qed.

Lemma elements_td_table g g' :
  table g' = table g -> forall r c, elements_td g' r c = elements_td g r c.
Proof. intros H r c. unfold elements_td. by rewrite H. Qed.

(** X13. In a running game in play whose counter of mines stands at 1, a
    shift-click on an unknown cell ends the game without touching the
    dialog: "You Win!" when the cell is mined and no flag sat on a mine-free
    cell, "You Lose!" otherwise. *)
Theorem cellClicked_last_flag (r c : Z) (fuel : nat) (g : game) :
  playing g -> isGameActive g = true -> in_bounds g r c = true ->
  unknown_at g (r, c) = true -> minesPlanted (stats g) = 1 ->
  exists g',
    cellClicked true r c fuel g = Ok g'
    /\ isGameActive g' = false /\ modal g' = modal g
    /\ gameresult g' =
       Some (if is_mined g r c && negb (existsb (false_flag g) (tds g))
             then "You Win!" else "You Lose!")%string.
Proof.
  intros (Hok & Htab & Hfl & Hplay) Hact Hin Hunk Hone.
  destruct (Hplay Hact) as [Hinp [Hlt Hzero]].
  destruct (is_mined_cellAt _ _ _ Hok Hin) as (cl & Hcl & Hmc).
  destruct (elements_td_in_bounds _ _ _ Htab Hin) as [td Htd].
  assert (Hu : classes.unknown ∈ td).
  { unfold unknown_at in Hunk. cbn [fst snd] in Hunk. rewrite Htd in Hunk.
    by apply hasClass_Some. }
  assert (Hnf : classes.flagged ∉ td).
  { intros Hf. by apply (proj1 (flags_ok_spec g) Hfl r c td Htd). }
  rewrite (cellClicked_on_cell _ _ _ _ _ cl Hok Hin Hcl).
  set (g1 := set_stats (set_clicks (clicks (stats g) + 1) (stats g)) g).
  destruct (shift_action r c fuel cl g1 td Hok Htab Hin Hcl Htd)
    as (g2 & -> & Hg2 & Ha2 & Hr2 & Hm2 & Hs2 & Ht2 & Hok2 & Htab2 & Hfl2 & Hinp2).
  cbn [mbind res_bind fst snd].
  rewrite (bool_decide_eq_false_2 _ Hnf) in Hs2.
  assert (Hact2 : isGameActive g2 = true).
  { unfold isGameActive in *. by rewrite Hg2, Ha2. }
  assert (Hmp2 : minesPlanted (stats g2) = 0).
  { rewrite Hs2. cbn. lia. }
  assert (Htoggle : forall cl', cl' ∈ toggle_flag td <->
            cl' = classes.flagged \/ cl' = classes.sprite
            \/ (cl' ∈ td /\ cl' <> classes.unknown)).
  { intros cl'. rewrite elem_of_toggle_flag. by rewrite (bool_decide_eq_false_2 _ Hnf). }
  assert (Htd2 : forall r' c', elements_td g2 r' c'
            = if decide (r = r' /\ c = c') then toggle_flag <$> elements_td g r' c'
              else elements_td g r' c').
  { intros r' c'. unfold elements_td. rewrite Ht2. apply lookup2_alter2. }
  assert (HU2 : count_class classes.unknown (table g2)
                = count_class classes.unknown (table g) - 1).
  { rewrite Ht2. unfold count_class.
    rewrite (count2_alter2 _ _ _ _ _ _ Htd). cbn beta.
    rewrite (bool_decide_eq_true_2 _ Hu), bool_decide_eq_false_2; [simpl; lia|].
    rewrite Htoggle. intros [?|[?|[_ ?]]]; done. }
  specialize (Hfl2 Hfl). destruct (Hinp2 Hinp) as [Hcov2 Hcount2].
  pose proof (mines_flags_count g2 Hok2 Htab2 Hfl2 Hcov2) as Hsum.
  rewrite (click_check_running g2 Hact2 Hok2 Htab2) by lia.
  rewrite Hmp2. cbn [Z.eqb orb].
  destruct (validate_result_data g2) as (_ & _ & Hmod & _ & Hina).
  eexists. split; [reflexivity|]. split; [done|]. split; [by rewrite Hmod|].
  assert (Hres : gameresult (validate_result g2)
                 = Some (if existsb (false_flag g2) (tds g2)
                         then "You Lose!" else "You Win!")%string).
  { unfold validate_result.
    destruct (existsb (false_flag g2) (tds g2)) eqn:Hex; [by destruct (_ && _)|].
    apply (false_flags_0 g2) in Hex.
    destruct (Z.eqb_spec (unknown_mines g2) 0) as [?|?]; [done|lia]. }
  rewrite Hres. f_equal.
  assert (Hiff : existsb (false_flag g2) (tds g2) = true
                 <-> is_mined g r c = false \/ existsb (false_flag g) (tds g) = true).
  { rewrite !existsb_false_flag. split.
    - intros (r' & c' & Hf & Hm). rewrite Htd2 in Hf.
      change (is_mined g2 r' c') with
        (in_bounds g2 r' c' && match cellAt g2 r' c' with Some cl => mined cl | None => false end)
        in Hm.
      assert (Hm' : is_mined g r' c' = false).
      { unfold is_mined, in_bounds, cellAt in *. rewrite Hg2, Hs2 in Hm. exact Hm. }
      destruct (decide (r = r' /\ c = c')) as [[<- <-]|Hd]; [by left|].
      right. by exists r', c'.
    - intros [Hm|(r' & c' & Hf & Hm)].
      + exists r, c. rewrite Htd2, decide_True, Htd by done. split.
        * apply hasClass_Some, Htoggle. by left.
        * unfold is_mined, in_bounds, cellAt in *. rewrite Hg2, Hs2. exact Hm.
      + exists r', c'. rewrite Htd2. split.
        * destruct (decide (r = r' /\ c = c')) as [[<- <-]|Hd]; [|done].
          rewrite Htd in Hf. apply hasClass_Some in Hf. done.
        * unfold is_mined, in_bounds, cellAt in *. rewrite Hg2, Hs2. exact Hm. }
  destruct (existsb (false_flag g2) (tds g2)).
  - destruct (proj1 Hiff eq_refl) as [-> | ->]; [done|by rewrite andb_false_r].
  - destruct (is_mined g r c); [|by destruct Hiff as [_ H]; discriminate H; left].
    destruct (existsb (false_flag g) (tds g)); [|done].
    destruct Hiff as [_ H]. discriminate H. by right.
Qed.

Lemma data_board g g' :
  grid g' = grid g -> rows (stats g') = rows (stats g) -> cols (stats g') = cols (stats g) ->
  (forall r c, in_bounds g' r c = in_bounds g r c)
  /\ (forall r c, cellAt g' r c = cellAt g r c)
  /\ (forall r c, is_mined g' r c = is_mined g r c)
  /\ mined_cells g' = mined_cells g.
Proof.
  intros Hg Hr Hc. unfold is_mined, in_bounds, cellAt, mined_cells. rewrite Hg, Hr, Hc. done.
Qed.

(** X10. In a running game in play, a shift-click on an unknown cell
    flags it and takes one from the counter of mines, and a second
    shift-click on the same cell takes the flag off again (the counter
    being neither 0 nor 1 at the start, so that neither click validates).
    After the two clicks the game still runs, the grid is the same, the
    statistics differ only by two more clicks, every other td is as it was,
    and the td of the cell has the classes it had and the class sprite,
    which the first click adds and the second does not take away. *)
Theorem cellClicked_flag_unflag (r c : Z) (fuel : nat) (g : game) :
  playing g -> isGameActive g = true -> in_bounds g r c = true ->
  unknown_at g (r, c) = true ->
  minesPlanted (stats g) <> 0 -> minesPlanted (stats g) <> 1 ->
  exists g1 g2,
    cellClicked true r c fuel g = Ok g1
    /\ cellClicked true r c fuel g1 = Ok g2
    /\ hasClass classes.flagged (elements_td g1 r c) = true
    /\ unknown_at g1 (r, c) = false
    /\ minesPlanted (stats g1) = minesPlanted (stats g) - 1
    /\ isGameActive g1 = true /\ isGameActive g2 = true
    /\ grid g2 = grid g
    /\ stats g2 = set_clicks (clicks (stats g) + 2) (stats g)
    /\ (forall cl, cl <> classes.sprite ->
          hasClass cl (elements_td g2 r c) = hasClass cl (elements_td g r c))
    /\ hasClass classes.sprite (elements_td g2 r c) = true
    /\ (forall r' c', (r', c') <> (r, c) -> elements_td g2 r' c' = elements_td g r' c').
Proof.
  intros (Hok & Htab & Hfl & Hplay) Hact Hin Hunk Hne0 Hne1.
  destruct (Hplay Hact) as [Hinp [Hlt Hzero]].
  destruct (is_mined_cellAt _ _ _ Hok Hin) as (cl & Hcl & Hmc).
  destruct (elements_td_in_bounds _ _ _ Htab Hin) as [td Htd].
  assert (Hu : classes.unknown ∈ td).
  { unfold unknown_at in Hunk. cbn [fst snd] in Hunk. rewrite Htd in Hunk.
    by apply hasClass_Some. }
  assert (Hnf : classes.flagged ∉ td).
  { intros Hf. by apply (proj1 (flags_ok_spec g) Hfl r c td Htd). }
  assert (Ht1 : forall cl', cl' ∈ toggle_flag td <->
            cl' = classes.flagged \/ cl' = classes.sprite
            \/ (cl' ∈ td /\ cl' <> classes.unknown)).
  { intros cl'. rewrite elem_of_toggle_flag. by rewrite (bool_decide_eq_false_2 _ Hnf). }
  assert (Hf1 : classes.flagged ∈ toggle_flag td) by (apply Ht1; by left).
  assert (Hu1 : classes.unknown ∉ toggle_flag td).
  { rewrite Ht1. intros [?|[?|[_ ?]]]; done. }
  assert (Ht2 : forall cl', cl' ∈ toggle_flag (toggle_flag td) <->
            cl' = classes.unknown \/ cl' = classes.sprite
            \/ (cl' ∈ toggle_flag td /\ cl' <> classes.flagged)).
  { intros cl'. rewrite elem_of_toggle_flag. by rewrite (bool_decide_eq_true_2 _ Hf1). }
  (* the first click *)
  rewrite (cellClicked_on_cell _ _ _ _ _ cl Hok Hin Hcl).
  set (ga := set_stats (set_clicks (clicks (stats g) + 1) (stats g)) g).
  destruct (shift_action r c fuel cl ga td Hok Htab Hin Hcl Htd)
    as (g1 & -> & Hg1 & Ha1 & Hr1 & Hm1 & Hs1 & Htb1 & Hok1 & Htab1 & Hfl1 & Hinp1).
  cbn [mbind res_bind fst snd].
  rewrite (bool_decide_eq_false_2 _ Hnf) in Hs1.
  assert (Hact1 : isGameActive g1 = true).
  { unfold isGameActive in *. by rewrite Hg1, Ha1. }
  assert (Hmp1 : minesPlanted (stats g1) = minesPlanted (stats g) - 1).
  { rewrite Hs1. cbn. lia. }
  assert (HU1 : count_class classes.unknown (table g1)
                = count_class classes.unknown (table g) - 1).
  { rewrite Htb1. unfold count_class.
    rewrite (count2_alter2 _ _ _ _ _ _ Htd). cbn beta.
    rewrite (bool_decide_eq_true_2 _ Hu), (bool_decide_eq_false_2 _ Hu1). simpl. lia. }
  rewrite (click_check_running g1 Hact1 Hok1 Htab1) by lia.
  destruct (Z.eqb_spec (minesPlanted (stats g1)) 0) as [?|_]; [lia|]. cbn [orb].
  destruct (Z.leb_spec (count_class classes.unknown (table g1)) (minesPlanted (stats g1)))
    as [?|_]; [lia|].
  assert (Htd1 : elements_td g1 r c = Some (toggle_flag td)).
  { unfold elements_td. rewrite Htb1, lookup2_alter2_eq. change (table ga) with (table g).
    unfold elements_td in Htd. by rewrite Htd. }
  (* the second click *)
  destruct (data_board g g1 Hg1) as (Hin1 & Hcl1 & _); [by rewrite Hs1..|].
  assert (Hin' : in_bounds g1 r c = true) by (by rewrite Hin1).
  assert (Hcl' : cellAt g1 r c = Some cl) by (by rewrite Hcl1).
  exists g1. rewrite (cellClicked_on_cell _ _ _ _ _ cl Hok1 Hin' Hcl').
  set (gb := set_stats (set_clicks (clicks (stats g1) + 1) (stats g1)) g1).
  destruct (shift_action r c fuel cl gb (toggle_flag td) Hok1 Htab1 Hin' Hcl' Htd1)
    as (g2 & -> & Hg2 & Ha2 & Hr2 & Hm2 & Hs2 & Htb2 & Hok2 & Htab2 & Hfl2 & Hinp2).
  cbn [mbind res_bind fst snd].
  rewrite (bool_decide_eq_true_2 _ Hf1) in Hs2.
  assert (Hact2 : isGameActive g2 = true).
  { unfold isGameActive in *. rewrite Hg2, Ha2. exact Hact1. }
  assert (Hmp2 : minesPlanted (stats g2) = minesPlanted (stats g)).
  { rewrite Hs2. cbn. lia. }
  assert (HU2 : count_class classes.unknown (table g2)
                = count_class classes.unknown (table g)).
  { rewrite Htb2. unfold count_class.
    rewrite (count2_alter2 _ _ _ _ _ _ Htd1). cbn beta.
    pose proof HU1 as HU1'. unfold count_class in HU1'.
    rewrite HU1', (bool_decide_eq_false_2 _ Hu1), bool_decide_eq_true_2; [simpl; lia|].
    apply Ht2. by left. }
  rewrite (click_check_running g2 Hact2 Hok2 Htab2) by lia.
  destruct (Z.eqb_spec (minesPlanted (stats g2)) 0) as [?|_]; [lia|]. cbn [orb].
  destruct (Z.leb_spec (count_class classes.unknown (table g2)) (minesPlanted (stats g2)))
    as [?|_]; [lia|].
  assert (Htd2 : forall r' c', elements_td g2 r' c'
            = if decide (r = r' /\ c = c')
              then (toggle_flag ∘ toggle_flag) <$> elements_td g r' c'
              else elements_td g r' c').
  { intros r' c'. unfold elements_td. rewrite Htb2.
    change (table gb) with (table g1). rewrite Htb1.
    change (table ga) with (table g). rewrite alter2_alter2. apply lookup2_alter2. }
  exists g2. split; [done|]. split; [done|].
  split; [rewrite Htd1; by apply hasClass_Some|].
  split.
  { unfold unknown_at. cbn [fst snd]. rewrite Htd1. cbn [hasClass].
    by apply bool_decide_eq_false_2. }
  split; [done|]. split; [done|]. split; [done|].
  split; [by rewrite Hg2|].
  split.
  { rewrite Hs2. change (stats gb) with (set_clicks (clicks (stats g1) + 1) (stats g1)).
    rewrite Hs1. change (stats ga) with (set_clicks (clicks (stats g) + 1) (stats g)).
    destruct (stats g). unfold set_minesPlanted, set_clicks. cbn. f_equal; lia. }
  split.
  { intros cl' Hsp. rewrite Htd2, decide_True, Htd by done.
    cbn [fmap option_fmap option_map hasClass compose]. apply bool_decide_ext.
    rewrite Ht2, Ht1. split.
    - intros [->|[?|[[?|[?|[? _]]] ?]]]; done.
    - intros Hmem. destruct (decide (cl' = classes.unknown)) as [->|Hne]; [by left|].
      right. right. split; [by right; right|]. intros ->. done. }
  split.
  { rewrite Htd2, decide_True, Htd by done.
    cbn [fmap option_fmap option_map hasClass compose]. apply bool_decide_eq_true_2.
    apply Ht2. right. by left. }
  intros r' c' Hne. rewrite Htd2, decide_False; [done|]. intros [-> ->]. done.
Qed.

(** A plain click on a mine-free cell of a game in play: after the class
    changes the game is won when no more unknown tds than mines to flag are
    left, and goes on otherwise. *)
Lemma cellClicked_reveal r c fuel g cl :
  playing g -> isGameActive g = true -> 1 <= mined_cells g ->
  count_class classes.unknown (table g) < Z.of_nat fuel ->
  in_bounds g r c = true -> cellAt g r c = Some cl -> mined cl = false ->
  exists g2,
    click_action false r c fuel cl
      (set_stats (set_clicks (clicks (stats g) + 1) (stats g)) g) = Ok (g2, false)
    /\ cellClicked false r c fuel g =
       Ok (if count_class classes.unknown (table g2) <=? minesPlanted (stats g)
           then set_gameresult (Some "You Win!"%string) (set_active false g2)
           else g2).
Proof.
  intros (Hok & Htab & Hfl & Hplay) Hact Hmines Hfuel Hin Hcl Hmc.
  destruct (Hplay Hact) as [Hinp [Hlt Hzero]].
  rewrite (cellClicked_on_cell _ _ _ _ _ cl Hok Hin Hcl).
  set (g1 := set_stats (set_clicks (clicks (stats g) + 1) (stats g)) g).
  destruct (reveal_action r c fuel cl g1 Hok Htab Hfuel Hin Hcl Hmc)
    as (g2 & Hrun & Hsame & Hok2 & Htab2 & Hfl2 & Hinp2 & _).
  exists g2. split; [exact Hrun|]. rewrite Hrun. cbn [mbind res_bind fst snd].
  destruct Hsame as (Hg2 & Hs2 & Ha2 & Hr2 & _).
  assert (Hact2 : isGameActive g2 = true).
  { unfold isGameActive in *. by rewrite Hg2, Ha2. }
  assert (Hmp2 : minesPlanted (stats g2) = minesPlanted (stats g)) by (by rewrite Hs2).
  assert (Hmc2 : mined_cells g2 = mined_cells g) by (unfold mined_cells; by rewrite Hg2).
  specialize (Hfl2 Hfl). destruct (Hinp2 Hinp) as [Hcov2 Hcount2].
  pose proof (mines_flags_count g2 Hok2 Htab2 Hfl2 Hcov2) as Hsum.
  destruct (unknown_mines_le g2 Htab2) as [Hle Heq].
  assert (Hffpos : 0 <= false_flags g2) by (unfold false_flags; lia).
  rewrite (click_check_running g2 Hact2 Hok2 Htab2) by lia. rewrite Hmp2.
  destruct (Z.eqb_spec (minesPlanted (stats g)) 0) as [H0|_]; [lia|]. cbn [orb].
  destruct (Z.leb_spec (count_class classes.unknown (table g2)) (minesPlanted (stats g)))
    as [Hend|Hgo]; [|done].
  assert (Hnoff : false_flags g2 = 0) by lia.
  assert (Hall : unknown_mines g2 = count_class classes.unknown (table g2)) by lia.
  f_equal. unfold validate_result. rewrite (proj1 (false_flags_0 g2) Hnoff).
  destruct (Z.eqb_spec (unknown_mines g2) (count_class classes.unknown (table g2))); [|done].
  by rewrite andb_false_r.
Qed.

Lemma adjacent_mine g r c :
  1 <= adjacent_mines g r c ->
  exists d, d ∈ directions /\ is_mined g (r + y d) (c + x d) = true.
Proof.
  rewrite adjacent_mines_directions.
  destruct (List.filter _ directions) as [|d l] eqn:E; [simpl; lia|]. intros _.
  assert (Hd : In d (List.filter (fun d => is_mined g (r + y d) (c + x d)) directions)).
  { rewrite E. by left. }
  apply filter_In in Hd as [Hd Hm]. exists d. split; [by apply list_elem_of_In|done].
Qed.

Lemma number_class_singleton n :
  1 <= n <= 8 -> exists cl, number_class n = [cl].
Proof.
  intros Hn.
  assert (H : n = 1 \/ n = 2 \/ n = 3 \/ n = 4 \/ n = 5 \/ n = 6 \/ n = 7 \/ n = 8) by lia.
  repeat (destruct H as [->|H]; [eexists; reflexivity|]). subst. eexists. reflexivity.
Qed.

Lemma number_class_inj n m :
  1 <= n <= 8 -> 1 <= m <= 8 -> number_class n = number_class m -> n = m.
Proof.
  intros Hn Hm.
  assert (H : n = 1 \/ n = 2 \/ n = 3 \/ n = 4 \/ n = 5 \/ n = 6 \/ n = 7 \/ n = 8) by lia.
  assert (H' : m = 1 \/ m = 2 \/ m = 3 \/ m = 4 \/ m = 5 \/ m = 6 \/ m = 7 \/ m = 8) by lia.
  clear Hn Hm.
  repeat (destruct H as [->|H]); subst;
    repeat (destruct H' as [->|H']); subst; (done || (intros [=])).
Qed.

Lemma elem_of_shown_number cl n td :
  cl ∈ shown_number n td <->
  (cl ∈ td /\ cl <> classes.unknown) \/ cl = classes.sprite \/ cl = classes.empty
  \/ cl ∈ number_class n.
Proof.
  unfold shown_number.
  rewrite elem_of_addClass, elem_of_removeClass, elem_of_app, !elem_of_cons, elem_of_nil.
  tauto.
Qed.

(** X11. In a running game in play, a plain click on a mine-free cell
    with [n >= 1] adjacent mines changes only the td of that cell: it loses
    unknown and gains sprite, empty and the one class that stands for [n],
    and no other number between 1 and 8 has that class. *)
Theorem cellClicked_number (r c : Z) (fuel : nat) (g : game) :
  playing g -> isGameActive g = true ->
  count_class classes.unknown (table g) < Z.of_nat fuel ->
  in_bounds g r c = true -> is_mined g r c = false -> 1 <= adjacent_mines g r c ->
  exists g',
    cellClicked false r c fuel g = Ok g'
    /\ elements_td g' r c = shown_number (adjacent_mines g r c) <$> elements_td g r c
    /\ (forall r' c', (r', c') <> (r, c) -> elements_td g' r' c' = elements_td g r' c')
    /\ unknown_at g' (r, c) = false
    /\ hasClass classes.empty (elements_td g' r c) = true
    /\ (exists cl, number_class (adjacent_mines g r c) = [cl]
                   /\ hasClass cl (elements_td g' r c) = true)
    /\ (forall n, 1 <= n <= 8 ->
          number_class n = number_class (adjacent_mines g r c) -> n = adjacent_mines g r c).
Proof.
  intros Hplay Hact Hfuel Hin Hm Hnum.
  pose proof Hplay as (Hok & Htab & Hfl & _).
  destruct (is_mined_cellAt _ _ _ Hok Hin) as (cl & Hcl & Hmc). rewrite Hm in Hmc.
  assert (Hmines : 1 <= mined_cells g).
  { destruct (adjacent_mine g r c Hnum) as (d & _ & Hd). by eapply mined_cells_pos. }
  destruct (cellClicked_reveal r c fuel g cl Hplay Hact Hmines Hfuel Hin Hcl Hmc)
    as (g2 & Hact2 & ->).
  set (g1 := set_stats (set_clicks (clicks (stats g) + 1) (stats g)) g) in *.
  pose proof (adjacent_mines_clicks (clicks (stats g) + 1) g r c) as Hadj1. fold g1 in Hadj1.
  rewrite (click_action_number r c fuel cl g1 Hok Hmc) in Hact2 by lia.
  injection Hact2 as <-. rewrite Hadj1.
  destruct (elements_td_in_bounds _ _ _ Htab Hin) as [td Htd].
  set (n := adjacent_mines g r c) in *.
  assert (Htd' : forall g0 r' c', table g0 = table (with_td r c (shown_number n) g1) ->
            elements_td g0 r' c'
            = if decide (r = r' /\ c = c') then shown_number n <$> elements_td g r' c'
              else elements_td g r' c').
  { intros g0 r' c' Ht. unfold elements_td. rewrite Ht. apply lookup2_alter2. }
  pose proof (adjacent_mines_range g r c) as Hrange. fold n in Hrange.
  destruct (number_class_singleton n) as [ncl Hncl]; [lia|].
  eexists. split; [reflexivity|].
  match goal with |- context [elements_td ?g0 r c] =>
    assert (Hall : forall r' c', elements_td g0 r' c'
              = if decide (r = r' /\ c = c') then shown_number n <$> elements_td g r' c'
                else elements_td g r' c')
  end.
  { intros r' c'. apply Htd'. by destruct (_ <=? _). }
  rewrite Hall, decide_True, Htd by done. cbn [fmap option_fmap option_map].
  split; [done|]. split.
  { intros r' c' Hne. rewrite Hall, decide_False; [done|]. intros [-> ->]. done. }
  split.
  { unfold unknown_at. cbn [fst snd]. rewrite Hall, decide_True, Htd by done.
    cbn [fmap option_fmap option_map hasClass]. apply bool_decide_eq_false_2.
    rewrite elem_of_shown_number, Hncl, list_elem_of_singleton.
    intros [[_ ?]|[?|[?|Heq]]]; try done.
    eapply (number_class_no_unknown n). rewrite Hncl. by apply list_elem_of_singleton. }
  split.
  { apply hasClass_Some, elem_of_shown_number. right. right. by left. }
  split.
  { exists ncl. split; [done|]. apply hasClass_Some, elem_of_shown_number.
    right. right. right. rewrite Hncl. by apply list_elem_of_singleton. }
  intros k Hk Heq. apply number_class_inj; [done|lia|done].
Qed.

(** X8. In a running game in play with at least one mine, a click returns
    and leaves the dialog as it was: [validate] is never reached a second
    time, so the error notice is not shown. *)
Theorem cellClicked_no_notice (shiftKey : bool) (r c : Z) (fuel : nat) (g : game) :
  playing g -> isGameActive g = true -> 1 <= mined_cells g ->
  count_class classes.unknown (table g) < Z.of_nat fuel ->
  exists g', cellClicked shiftKey r c fuel g = Ok g' /\ modal g' = modal g.
Proof.
  intros Hplay Hact Hmines Hfuel.
  pose proof Hplay as (Hok & Htab & Hfl & Hplay').
  destruct (Hplay' Hact) as [Hinp [Hlt Hzero]].
  set (g1 := set_stats (set_clicks (clicks (stats g) + 1) (stats g)) g).
  destruct (in_bounds g r c) eqn:Hin.
  2:{ rewrite cellClicked_split, (getCell_ok _ _ _ Hok), Hin. cbn [mbind res_bind].
      by eexists. }
  destruct (is_mined_cellAt _ _ _ Hok Hin) as (cl & Hcl & Hmc).
  destruct (elements_td_in_bounds _ _ _ Htab Hin) as [td Htd].
  destruct shiftKey.
  - rewrite (cellClicked_on_cell _ _ _ _ _ cl Hok Hin Hcl). fold g1.
    destruct (shift_action r c fuel cl g1 td Hok Htab Hin Hcl Htd)
      as (g2 & -> & Hg2 & Ha2 & Hr2 & Hm2 & Hs2 & Ht2 & Hok2 & Htab2 & Hfl2 & Hinp2).
    cbn [mbind res_bind fst snd].
    assert (Hact2 : isGameActive g2 = true).
    { unfold isGameActive in *. by rewrite Hg2, Ha2. }
    assert (HU2 : count_class classes.unknown (table g2)
                  = count_class classes.unknown (table g)
                    - Z.b2z (bool_decide (classes.unknown ∈ td))
                    + Z.b2z (bool_decide (classes.unknown ∈ toggle_flag td))).
    { rewrite Ht2. unfold count_class. by rewrite (count2_alter2 _ _ _ _ _ _ Htd). }
    assert (Hpos : minesPlanted (stats g2) = 0 ->
                   1 <= count_class classes.unknown (table g2)).
    { rewrite Hs2. cbn [minesPlanted set_minesPlanted].
      change (minesPlanted (stats g1)) with (minesPlanted (stats g)).
      destruct (bool_decide (classes.flagged ∈ td)) eqn:Hflag.
      - intros _. rewrite HU2.
        assert (classes.unknown ∈ toggle_flag td).
        { rewrite elem_of_toggle_flag, Hflag. by left. }
        rewrite (bool_decide_eq_true_2 (classes.unknown ∈ toggle_flag td)) by done.
        pose proof (count_class_nonneg classes.unknown (table g)).
        destruct (bool_decide (classes.unknown ∈ td)) eqn:Hu; [|simpl; lia].
        apply bool_decide_eq_true in Hu.
        pose proof (count_class_pos _ _ _ _ _ Htd Hu). simpl. lia.
      - intros ?. rewrite HU2.
        destruct (bool_decide (classes.unknown ∈ td)),
          (bool_decide (classes.unknown ∈ toggle_flag td)); simpl; lia. }
    rewrite (click_check_running g2 Hact2 Hok2 Htab2 Hpos).
    eexists. split; [reflexivity|].
    destruct (validate_result_data g2) as (_ & _ & Hmod & _).
    destruct (_ || _); [by rewrite Hmod|done].
  - destruct (mined cl) eqn:Hm.
    + rewrite (cellClicked_on_cell _ _ _ _ _ cl Hok Hin Hcl). fold g1.
      unfold click_action. rewrite Hm. cbn [negb].
      set (g2 := with_td r c (addClass [classes.mined; classes.sprite]) g1).
      assert (Htab2 : table_ok g2 = true) by (unfold g2; by rewrite table_ok_with_td).
      rewrite (validate_active g2 Hact Hok Htab2). cbn [mbind res_bind fst snd].
      unfold click_check. cbn [negb andb]. eexists. split; [reflexivity|].
      by destruct (validate_result_data g2) as (_ & _ & -> & _).
    + destruct (cellClicked_reveal r c fuel g cl Hplay Hact Hmines Hfuel Hin Hcl Hm)
        as (g2 & Hrun & ->).
      destruct (reveal_action r c fuel cl g1 Hok Htab Hfuel Hin Hcl Hm)
        as (g2' & Hrun' & Hsame & _).
      fold g1 in Hrun. rewrite Hrun in Hrun'. injection Hrun' as <-.
      destruct Hsame as (_ & _ & _ & _ & Hmod).
      eexists. split; [reflexivity|]. by destruct (_ <=? _).
Qed.

(** X7. A game in play that is still running after a click was running
    before it, and then: every mined cell is unknown or flagged, the
    counter of mines is the number of mines less the number of flags, it is
    below the number of unknown tds, and no td is both flagged and
    unknown. *)
Theorem cellClicked_counter (shiftKey : bool) (r c : Z) (fuel : nat) (g g' : game) :
  playing g ->
  count_class classes.unknown (table g) < Z.of_nat fuel ->
  cellClicked shiftKey r c fuel g = Ok g' ->
  isGameActive g' = true ->
  isGameActive g = true
  /\ (forall r' c', is_mined g' r' c' = true ->
        hasClass classes.unknown (elements_td g' r' c') = true
        \/ hasClass classes.flagged (elements_td g' r' c') = true)
  /\ minesPlanted (stats g') = mined_cells g' - count_class classes.flagged (table g')
  /\ minesPlanted (stats g') < count_class classes.unknown (table g')
  /\ (forall r' c' td, elements_td g' r' c' = Some td ->
        classes.flagged ∈ td -> classes.unknown ∉ td).
Proof.
  intros Hplay Hfuel Hrun Hact'.
  destruct (cellClicked_playing _ _ _ _ _ _ Hplay Hfuel Hrun) as (Hok' & Htab' & Hfl' & Hp').
  destruct (Hp' Hact') as [[Hcov Hcount] [Hlt _]].
  split; [|split; [exact Hcov|split; [exact Hcount|split; [exact Hlt|]]]].
  - destruct (isGameActive g) eqn:Hact; [done|].
    destruct Hplay as (Hok & Htab & _).
    destruct (in_bounds g r c) eqn:Hin.
    2:{ rewrite cellClicked_split, (getCell_ok _ _ _ Hok), Hin in Hrun.
        cbn [mbind res_bind] in Hrun. injection Hrun as <-.
        change (isGameActive g = true) in Hact'. congruence. }
    destruct (is_mined_cellAt _ _ _ Hok Hin) as (cl & Hcl & _).
    rewrite (cellClicked_on_cell _ _ _ _ _ cl Hok Hin Hcl) in Hrun.
    set (g1 := set_stats (set_clicks (clicks (stats g) + 1) (stats g)) g) in *.
    destruct (click_action_spec shiftKey r c fuel cl g1 Hok Htab Hfuel Hin Hcl)
      as (g2 & b & Hrun2 & _ & Hok2 & Htab2 & _ & Hmine & Hgo).
    rewrite Hrun2 in Hrun. cbn [mbind res_bind fst snd] in Hrun.
    assert (Hina2 : isGameActive g2 = false).
    { destruct b; [by apply Hmine|]. destruct (Hgo eq_refl) as [-> _]. exact Hact. }
    unfold click_check in Hrun. rewrite Hina2, andb_false_r in Hrun.
    injection Hrun as <-. congruence.
  - intros r' c' td. by apply (proj1 (flags_ok_spec g') Hfl').
Qed.

(** ** Starting a new game *)

(** What the planting loop never touches. *)
Lemma plantAllMines_keeps fuel random n g g' :
  plantAllMines fuel random n g = Ok g' ->
  rows (stats g') = rows (stats g) /\ cols (stats g') = cols (stats g)
  /\ clicks (stats g') = clicks (stats g) /\ seconds (stats g') = seconds (stats g)
  /\ table g' = table g /\ active g' = active g
  /\ gameresult g' = gameresult g /\ modal g' = modal g.
Proof.
  revert n g. induction fuel as [|fuel IH]; intros n g; cbn [plantAllMines];
    destruct (JS.lt _ _); intros H; simplify_eq/=; try done.
  destruct (plantMine _ _ g) as [[g1 planted]| |] eqn:Hp; simplify_eq/=.
  apply IH in H as (-> & -> & -> & -> & -> & -> & -> & ->).
  pose proof (plantMine_stats _ _ _ _ _ Hp) as Hs.
  assert (Hrest : table g1 = table g /\ active g1 = active g
                  /\ gameresult g1 = gameresult g /\ modal g1 = modal g).
  { unfold plantMine in Hp.
    repeat (match type of Hp with
            | context [match ?e with _ => _ end] => destruct e
            end; simplify_eq/=); done. }
  destruct Hrest as (Ht & Ha & Hr & Hm).
  destruct planted; simpl; rewrite ?Hs; done.
Qed.

(** The page that [init] builds for a new game. *)
Lemma init_new_state sizeOfGame numberOfMines fuel random g g' :
  init None sizeOfGame numberOfMines fuel random g = Ok g' ->
  rows (stats g') = 8 * sizeOfGame /\ cols (stats g') = 8 * sizeOfGame
  /\ clicks (stats g') = 0 /\ seconds (stats g') = 0
  /\ active g' = true /\ gameresult g' = None /\ modal g' = None
  /\ table g' = replicate (Z.to_nat (8 * sizeOfGame))
                  (replicate (Z.to_nat (8 * sizeOfGame)) [classes.unknown]).
Proof.
  intros Hinit. unfold init in Hinit. cbn [mbind res_bind] in Hinit.
  destruct (plantAllMines fuel random 0 _) as [g1| |] eqn:Hplant; simplify_eq/=.
  apply plantAllMines_keeps in Hplant as (Hr & Hc & Hcl & Hs & _ & _ & Hres & _).
  simpl in *. rewrite Hr, Hc. done.
Qed.

Lemma lookup2_replicate {A} h w (v : A) r c :
  lookup2 (replicate (Z.to_nat h) (replicate (Z.to_nat w) v)) r c =
  if (0 <=? r) && (r <? h) && (0 <=? c) && (c <? w) then Some v else None.
Proof.
  destruct (_ && _) eqn:E.
  - apply andb_true_iff in E as [[[?%Z.leb_le ?%Z.ltb_lt]%andb_true_iff ?%Z.leb_le]%andb_true_iff
                                   ?%Z.ltb_lt].
    apply lookup2_Some. split; [lia|]. split; [lia|].
    exists (replicate (Z.to_nat w) v). split; apply lookup_replicate_2; lia.
  - destruct (lookup2 _ r c) as [v'|] eqn:El; [|done].
    apply lookup2_Some in El as (? & ? & ar & [-> ?]%lookup_replicate & [_ ?]%lookup_replicate).
    assert ((0 <=? r) && (r <? h) && (0 <=? c) && (c <? w) = true); [|congruence].
    rewrite !andb_true_iff, !Z.leb_le, !Z.ltb_lt. lia.
Qed.

(** X5. A new game on a board of [8 * sizeOfGame] rows and columns, with
    a whole number [m] of mines that is less than the number of cells (the
    number in the mine field, or 10 when [isNaN] rejects it): with a fair
    random stream [init] returns, and whenever it returns the game is
    running, there is no result heading and no dialog, clicks and seconds
    are 0, the counter of mines stands at [m], exactly [m] cells are mined,
    and every td of the board has the one class unknown. *)
Theorem init_new_game (sizeOfGame : Z) (numberOfMines : JS.value) (random : nat -> Q)
    (g : game) (m : Z) :
  unit_interval random -> 1 <= sizeOfGame ->
  is_integer (JS.ToNumber (if JS.isNaN numberOfMines
                           then JS.Number (JS.of_Z 10) else numberOfMines)) m ->
  0 <= m < (8 * sizeOfGame) * (8 * sizeOfGame) ->
  (fair random (8 * sizeOfGame) (8 * sizeOfGame) ->
   exists fuel g', init None sizeOfGame numberOfMines fuel random g = Ok g')
  /\ (forall fuel g',
        init None sizeOfGame numberOfMines fuel random g = Ok g' ->
        isGameActive g' = true /\ gameresult g' = None /\ modal g' = None
        /\ rows (stats g') = 8 * sizeOfGame /\ cols (stats g') = 8 * sizeOfGame
        /\ clicks (stats g') = 0 /\ seconds (stats g') = 0
        /\ minesPlanted (stats g') = m /\ mined_cells g' = m
        /\ grid_ok g' = true
        /\ (forall r c, elements_td g' r c =
              if in_bounds g' r c then Some [classes.unknown] else None)).
Proof.
  intros Hu Hsize Hm Hrange. split.
  - intros Hfair. unfold init. cbn [mbind res_bind].
    set (g0 := generateGrid sizeOfGame numberOfMines (init_defaults (set_gameresult None g))).
    assert (Hfresh : fresh_board g0) by (by apply generateGrid_fresh).
    assert (Hrows : rows (stats g0) = 8 * sizeOfGame) by done.
    assert (Hcols : cols (stats g0) = 8 * sizeOfGame) by done.
    assert (Hinv : planting_inv g0) by (apply fresh_board_inv; [done|lia..]).
    assert (Hmines : mines (stats g0) = if JS.isNaN numberOfMines
                                        then JS.Number (JS.of_Z 10) else numberOfMines).
    { unfold g0, generateGrid. simpl. by destruct (JS.isNaN numberOfMines). }
    rewrite <- Hmines in Hm.
    destruct (plantAllMines_terminates random m (8 * sizeOfGame) (8 * sizeOfGame) Hu Hfair
                ltac:(lia) _ g0 0%nat eq_refl Hrows Hcols Hinv Hm) as (fuel & g1 & Hrun).
    exists fuel. rewrite Hrun. by eexists.
  - intros fuel g' Hinit.
    destruct (init_playing _ _ _ _ _ _ _ Hu Hsize Hm Hrange Hinit)
      as ((Hok & Htab & Hfl & Hplay) & Hact & Hmc).
    destruct (Hplay Hact) as [[_ Hcount] _].
    assert (Hsize0 : 0 <= sizeOfGame) by lia.
    destruct (init_new_shape _ _ _ _ _ _ Hsize0 Hinit) as (_ & _ & _ & _ & _ & Hflags).
    destruct (init_new_state _ _ _ _ _ _ Hinit) as (Hr & Hc & Hcl & Hs & _ & Hres & Hmod & Ht).
    do 7 (split; [done|]). split; [lia|]. do 2 (split; [done|]).
    intros r c. unfold elements_td, in_bounds. rewrite Ht, Hr, Hc. apply lookup2_replicate.
Qed.

Lemma init_new_game_witness :
  exists g',
    init None 1 (JS.Str "3") 10 (sweep 8 8) blank = Ok g'
    /\ isGameActive g' = true /\ mined_cells g' = 3 /\ rows (stats g') = 8.
Proof.
  assert (Hm : is_integer (JS.ToNumber (if JS.isNaN (JS.Str "3")
                             then JS.Number (JS.of_Z 10) else JS.Str "3")) 3).
  { vm_compute. reflexivity. }
  assert (Hinit : exists g', init None 1 (JS.Str "3") 10 (sweep 8 8) blank = Ok g').
  { eexists. vm_compute. reflexivity. }
  destruct Hinit as [g' Hinit]. exists g'. split; [exact Hinit|].
  destruct (proj2 (init_new_game 1 (JS.Str "3") (sweep 8 8) blank 3
                     (sweep_unit 8 8 ltac:(lia) ltac:(lia)) ltac:(lia) Hm ltac:(lia))
              10%nat g' Hinit)
    as (Ha & _ & _ & Hr & _ & _ & _ & _ & Hmc & _).
  split; [exact Ha|]. split; [exact Hmc|exact Hr].
Defined.

(** ** Clicks on the three by three board *)

Lemma small_board g :
  rows (stats g) = 3 -> cols (stats g) = 3 ->
  forall r c, in_bounds g r c = true ->
    (r = 0 \/ r = 1 \/ r = 2) /\ (c = 0 \/ c = 1 \/ c = 2).
Proof. intros Hr Hc r c [? ?]%in_bounds_spec. lia. Qed.

Lemma board3_playing : playing board3.
Proof.
  do 3 (split; [reflexivity|]). intros _. split; split; try (intros; reflexivity || done).
  intros r c Hm. left.
  assert (Hin : in_bounds board3 r c = true).
  { unfold is_mined in Hm. by apply andb_true_iff in Hm as [? _]. }
  destruct (small_board board3 eq_refl eq_refl r c Hin) as [[-> | [-> | ->]] [-> | [-> | ->]]];
    reflexivity.
Qed.

Lemma board3_flagged_playing : playing board3_flagged.
Proof.
  do 3 (split; [reflexivity|]). intros _. split; split; try (intros; reflexivity || done).
  intros r c Hm.
  assert (Hin : in_bounds board3_flagged r c = true).
  { unfold is_mined in Hm. by apply andb_true_iff in Hm as [? _]. }
  destruct (small_board board3_flagged eq_refl eq_refl r c Hin)
    as [[-> | [-> | ->]] [-> | [-> | ->]]]; (left; reflexivity) || (vm_compute in Hm; discriminate).
Qed.

Lemma cellClicked_mine_loses_witness :
  exists g',
    cellClicked false 0 1 0 board3 = Ok g'
    /\ gameresult g' = Some "You Lose!"%string /\ isGameActive g' = false.
Proof. exact (cellClicked_mine_loses 0 1 0 board3 board3_playing eq_refl eq_refl). Defined.

Lemma cellClicked_counter_witness :
  exists g',
    cellClicked true 2 1 10 board3 = Ok g'
    /\ minesPlanted (stats g') = mined_cells g' - count_class classes.flagged (table g').
Proof.
  eexists. split; [vm_compute; reflexivity|].
  exact (proj1 (proj2 (proj2 (cellClicked_counter true 2 1 10 board3 _
                                board3_playing eq_refl eq_refl eq_refl)))).
Defined.

Lemma cellClicked_no_notice_witness :
  exists g', cellClicked false 0 0 10 board3 = Ok g' /\ modal g' = None.
Proof.
  exact (cellClicked_no_notice false 0 0 10 board3 board3_playing eq_refl
           ltac:(vm_compute; discriminate) eq_refl).
Defined.

Lemma cellClicked_flag_unflag_witness :
  exists g1 g2,
    cellClicked true 2 2 0 board3 = Ok g1 /\ cellClicked true 2 2 0 g1 = Ok g2
    /\ minesPlanted (stats g2) = 2
    /\ hasClass classes.unknown (elements_td g2 2 2) = true.
Proof.
  destruct (cellClicked_flag_unflag 2 2 0 board3 board3_playing eq_refl eq_refl eq_refl
              ltac:(discriminate) ltac:(discriminate))
    as (g1 & g2 & H1 & H2 & _ & _ & _ & _ & _ & _ & Hs & Hcl & _).
  exists g1, g2. split; [exact H1|]. split; [exact H2|]. split; [by rewrite Hs|].
  by rewrite Hcl.
Defined.

Lemma cellClicked_number_witness :
  exists g',
    cellClicked false 1 1 10 board3 = Ok g'
    /\ hasClass classes.two (elements_td g' 1 1) = true
    /\ unknown_at g' (1, 1) = false.
Proof.
  destruct (cellClicked_number 1 1 10 board3 board3_playing eq_refl eq_refl eq_refl eq_refl
              ltac:(vm_compute; discriminate))
    as (g' & Hrun & _ & _ & Hu & _ & (cl & Hcl & Hhas) & _).
  exists g'. split; [exact Hrun|]. split; [|exact Hu].
  vm_compute in Hcl. injection Hcl as <-. exact Hhas.
Defined.

Lemma cellClicked_clears_witness :
  exists g',
    cellClicked false 2 2 10 board3 = Ok g'
    /\ (isGameActive g' = false -> gameresult g' = Some "You Win!"%string).
Proof.
  destruct (cellClicked_clears 2 2 10 board3 board3_playing eq_refl
              ltac:(vm_compute; discriminate) eq_refl eq_refl eq_refl)
    as (g' & Hrun & _ & Hwin & _).
  by exists g'.
Defined.

Lemma cellClicked_last_flag_witness :
  exists g',
    cellClicked true 0 0 0 board3_flagged = Ok g'
    /\ isGameActive g' = false /\ gameresult g' = Some "You Lose!"%string.
Proof.
  destruct (cellClicked_last_flag 0 0 0 board3_flagged board3_flagged_playing
              eq_refl eq_refl eq_refl eq_refl) as (g' & Hrun & Hina & _ & Hres).
  exists g'. split; [exact Hrun|]. split; [exact Hina|]. exact Hres.
Defined.

(** ** A board without mines *)

Lemma filter_none {A} (p : A -> bool) (l : list A) :
  (forall t, t ∈ l -> p t = false) -> List.filter p l = [].
Proof.
  induction l as [|t l IH]; intros H; [done|]. cbn [List.filter].
  rewrite (H t (list_elem_of_here _ _)). apply IH. intros t' Ht'. apply H. by right.
Qed.

Lemma count_class_zero cl g :
  table_ok g = true ->
  (forall r c td, elements_td g r c = Some td -> cl ∉ td) ->
  count_class cl (table g) = 0.
Proof.
  intros Htab H. rewrite (count_class_tds _ _ Htab), filter_none; [done|].
  intros [[r c] td] Ht. apply bool_decide_eq_false_2. cbn [snd].
  apply (H r c). apply (tds_lookup _ _ Ht).
Qed.

Lemma no_mines g :
  grid_ok g = true -> mined_cells g = 0 ->
  (forall r c, is_mined g r c = false) /\ (forall r c, adjacent_mines g r c = 0).
Proof.
  intros Hok H0.
  assert (Hm : forall r c, is_mined g r c = false).
  { intros r c. destruct (is_mined g r c) eqn:E; [|done].
    pose proof (mined_cells_pos g r c Hok E). lia. }
  split; [exact Hm|]. intros r c.
  pose proof (adjacent_mines_range g r c) as Hr.
  destruct (Z.eq_dec (adjacent_mines g r c) 0) as [?|Hne]; [done|].
  destruct (adjacent_mine g r c) as (d & _ & Hd); [lia|]. by rewrite Hm in Hd.
Qed.

(** On a board whose cells are all fillable the reveal walks from any cell
    to any other. *)
Lemma reach_walk g s d (n : nat) q :
  (forall p, in_bounds g p.1 p.2 = true -> fillable g p = true) ->
  d ∈ directions -> reach g s q ->
  (forall i, 0 < i <= Z.of_nat n -> in_bounds g (q.1 + i * y d) (q.2 + i * x d) = true) ->
  reach g s (q.1 + Z.of_nat n * y d, q.2 + Z.of_nat n * x d).
Proof.
  intros Hall Hd Hq. induction n as [|n IH]; intros Hin.
  - destruct q as [q1 q2]. cbn [fst snd]. by replace (q1 + _) with q1 by lia;
      replace (q2 + _) with q2 by lia.
  - assert (Hstep : reach g s (move (q.1 + Z.of_nat n * y d, q.2 + Z.of_nat n * x d) d)).
    { apply reach_step; [apply IH; intros i Hi; apply Hin; lia|done|].
      apply Hall. unfold move. cbn [fst snd].
      replace (q.1 + Z.of_nat n * y d + y d) with (q.1 + Z.of_nat (S n) * y d) by lia.
      replace (q.2 + Z.of_nat n * x d + x d) with (q.2 + Z.of_nat (S n) * x d) by lia.
      apply Hin. lia. }
    unfold move in Hstep. cbn [fst snd] in Hstep.
    replace (q.1 + Z.of_nat (S n) * y d) with (q.1 + Z.of_nat n * y d + y d) by lia.
    by replace (q.2 + Z.of_nat (S n) * x d) with (q.2 + Z.of_nat n * x d + x d) by lia.
Qed.

Lemma reach_all g s p :
  (forall p, in_bounds g p.1 p.2 = true -> fillable g p = true) ->
  in_bounds g s.1 s.2 = true -> in_bounds g p.1 p.2 = true -> reach g s p.
Proof.
  intros Hall Hs Hp. destruct s as [r c], p as [r' c']. cbn [fst snd] in *.
  apply in_bounds_spec in Hs as Hs', Hp as Hp'.
  assert (Hin : forall a b, 0 <= a < rows (stats g) -> 0 <= b < cols (stats g) ->
                  in_bounds g a b = true).
  { intros a b ? ?. by apply in_bounds_spec. }
  assert (H0 : reach g (r, c) (r, c)) by (apply reach_start, Hall; done).
  (* along the column to the row of [p] *)
  assert (H1 : reach g (r, c) (r', c)).
  { destruct (Z.le_gt_cases r r').
    - pose proof (reach_walk g (r, c) (Direction 0 1) (Z.to_nat (r' - r)) (r, c) Hall) as Hw.
      cbn [fst snd x y] in Hw.
      replace (r + Z.of_nat (Z.to_nat (r' - r)) * 1) with r' in Hw by lia.
      replace (c + Z.of_nat (Z.to_nat (r' - r)) * 0) with c in Hw by lia.
      apply Hw; [unfold directions; rewrite !elem_of_cons; tauto|done|]. intros i Hi. apply Hin; lia.
    - pose proof (reach_walk g (r, c) (Direction 0 (-1)) (Z.to_nat (r - r')) (r, c) Hall) as Hw.
      cbn [fst snd x y] in Hw.
      replace (r + Z.of_nat (Z.to_nat (r - r')) * -1) with r' in Hw by lia.
      replace (c + Z.of_nat (Z.to_nat (r - r')) * 0) with c in Hw by lia.
      apply Hw; [unfold directions; rewrite !elem_of_cons; tauto|done|]. intros i Hi. apply Hin; lia. }
  (* along the row to [p] *)
  destruct (Z.le_gt_cases c c').
  - pose proof (reach_walk g (r, c) (Direction 1 0) (Z.to_nat (c' - c)) (r', c) Hall) as Hw.
    cbn [fst snd x y] in Hw.
    replace (r' + Z.of_nat (Z.to_nat (c' - c)) * 0) with r' in Hw by lia.
    replace (c + Z.of_nat (Z.to_nat (c' - c)) * 1) with c' in Hw by lia.
    apply Hw; [unfold directions; rewrite !elem_of_cons; tauto|done|]. intros i Hi. apply Hin; lia.
  - pose proof (reach_walk g (r, c) (Direction (-1) 0) (Z.to_nat (c - c')) (r', c) Hall) as Hw.
    cbn [fst snd x y] in Hw.
    replace (r' + Z.of_nat (Z.to_nat (c - c')) * 0) with r' in Hw by lia.
    replace (c + Z.of_nat (Z.to_nat (c - c')) * -1) with c' in Hw by lia.
    apply Hw; [unfold directions; rewrite !elem_of_cons; tauto|done|]. intros i Hi. apply Hin; lia.
Qed.

(** X9. On a running board without any mine whose tds are all unknown
    and whose counter of mines is 0, the first plain click on a cell of the
    board reveals every td as empty and wins the game, and the dialog then
    shows the error notice of [validate]: both checks that close
    [cellClicked] call [validate], the second on the game that the first
    has ended. *)
Theorem cellClicked_no_mines (r c : Z) (fuel : nat) (g : game) :
  grid_ok g = true -> table_ok g = true -> isGameActive g = true ->
  mined_cells g = 0 -> minesPlanted (stats g) = 0 ->
  (forall r' c', in_bounds g r' c' = true ->
     elements_td g r' c' = Some [classes.unknown]) ->
  count_class classes.unknown (table g) < Z.of_nat fuel ->
  in_bounds g r c = true ->
  exists g',
    cellClicked false r c fuel g = Ok g'
    /\ gameresult g' = Some "You Win!"%string
    /\ isGameActive g' = false
    /\ modal g' = Some ("Error",
         "You must be actively playing a game in order to <strong>validate</strong>.")%string
    /\ (forall r' c', in_bounds g r' c' = true ->
          elements_td g' r' c' = Some [classes.empty]).
Proof.
  intros Hok Htab Hact Hmc Hmp Hunk Hfuel Hin.
  destruct (no_mines g Hok Hmc) as [Hnm Hadj].
  destruct (is_mined_cellAt _ _ _ Hok Hin) as (cl & Hcl & Hm). rewrite Hnm in Hm.
  rewrite (cellClicked_on_cell _ _ _ _ _ cl Hok Hin Hcl).
  set (g1 := set_stats (set_clicks (clicks (stats g) + 1) (stats g)) g).
  pose proof (adjacent_mines_clicks (clicks (stats g) + 1) g r c) as Hadj1. fold g1 in Hadj1.
  rewrite (Hadj r c) in Hadj1.
  rewrite (click_action_empty r c fuel cl g1 Hok Hm Hadj1).
  destruct (revealEmptyAdjacent_exact fuel r c g1 Hok Hfuel)
    as (g2 & -> & Hrel & _ & Hreach & _).
  cbn [mbind res_bind fst snd].
  assert (Hall : forall p, in_bounds g1 p.1 p.2 = true -> fillable g1 p = true).
  { intros p Hp. apply fillable_spec. split; [done|]. split; [|split; [apply Hnm|apply Hadj]].
    unfold unknown_at. change (elements_td g1 p.1 p.2) with (elements_td g p.1 p.2).
    by rewrite (Hunk _ _ Hp). }
  assert (Htd2 : forall r' c', in_bounds g r' c' = true ->
                   elements_td g2 r' c' = Some [classes.empty]).
  { intros r' c' Hp.
    pose proof (Hreach (r', c') (reach_all g1 (r, c) (r', c') Hall Hin Hp)) as Hre.
    cbn [fst snd] in Hre. rewrite Hre.
    change (elements_td g1 r' c') with (elements_td g r' c').
    by rewrite (Hunk _ _ Hp). }
  destruct (fill_data _ _ _ Hrel) as (Hg2 & Hs2 & Ha2 & Hr2 & Hm2).
  assert (Hok2 : grid_ok g2 = true) by (unfold grid_ok; by rewrite Hg2, Hs2).
  assert (Htab2 : table_ok g2 = true).
  { unfold table_ok. by rewrite Hs2, (fill_shape _ _ _ Hrel). }
  assert (Hact2 : isGameActive g2 = true).
  { unfold isGameActive in *. by rewrite Hg2, Ha2. }
  destruct (data_board g1 g2 Hg2) as (Hin2 & _ & Hmined2 & _); [by rewrite Hs2..|].
  assert (Hnone : forall cl' r' c' td, cl' <> classes.empty ->
                    elements_td g2 r' c' = Some td -> cl' ∉ td).
  { intros cl' r' c' td Hne Htd.
    assert (Hp : in_bounds g r' c' = true).
    { change (in_bounds g1 r' c' = true). rewrite <- (Hin2 r' c'). apply in_bounds_spec.
      apply (proj1 (rectangular_index _ _ _ r' c' Htab2)).
      unfold elements_td in Htd. by rewrite Htd. }
    rewrite (Htd2 _ _ Hp) in Htd. injection Htd as <-.
    rewrite list_elem_of_singleton. done. }
  assert (HU2 : count_class classes.unknown (table g2) = 0).
  { apply (count_class_zero _ _ Htab2). intros r' c' td. by apply Hnone. }
  assert (Hum2 : unknown_mines g2 = 0).
  { destruct (unknown_mines_le g2 Htab2) as [Hle _].
    assert (0 <= unknown_mines g2) by (unfold unknown_mines; lia). lia. }
  assert (Hff2 : existsb (false_flag g2) (tds g2) = false).
  { destruct (existsb (false_flag g2) (tds g2)) eqn:E; [|done].
    apply existsb_false_flag in E as (r' & c' & Hf & _).
    destruct (elements_td g2 r' c') as [td|] eqn:Etd; [|done].
    apply hasClass_Some in Hf. by edestruct (Hnone classes.flagged r' c' td). }
  assert (Hres : validate_result g2
                 = set_gameresult (Some "You Win!"%string) (set_active false g2)).
  { unfold validate_result. by rewrite Hum2, Hff2. }
  unfold click_check. rewrite Hact2. cbn [negb andb].
  rewrite Hs2. change (minesPlanted (stats g1)) with (minesPlanted (stats g)).
  rewrite Hmp. cbn [Z.eqb].
  rewrite (validate_active g2 Hact2 Hok2 Htab2), Hres. cbn [mbind res_bind].
  cbn [table set_gameresult set_active stats]. rewrite HU2, Hs2.
  change (minesPlanted (stats g1)) with (minesPlanted (stats g)). rewrite Hmp.
  cbn [Z.leb Z.compare].
  rewrite validate_inactive by (unfold isGameActive; simpl; by destruct (grid g2)).
  eexists. split; [reflexivity|]. split; [done|].
  split; [unfold isGameActive; simpl; by destruct (grid g2)|]. split; [done|].
  exact Htd2.
Qed.

Lemma cellClicked_no_mines_witness :
  exists g g',
    init None 1 (JS.Str "0") 0 (sweep 8 8) blank = Ok g
    /\ cellClicked false 3 4 100 g = Ok g'
    /\ gameresult g' = Some "You Win!"%string
    /\ modal g' = Some ("Error",
         "You must be actively playing a game in order to <strong>validate</strong>.")%string.
Proof.
  set (g0 := Game true (Some (replicate 8 (replicate 8 (Cell false))))
               (Stats 0 8 (JS.Str "0") 0 8 0)
               (replicate 8 (replicate 8 [classes.unknown])) None None).
  assert (Hcells : forall r' c', in_bounds g0 r' c' = true ->
                     elements_td g0 r' c' = Some [classes.unknown]).
  { intros r' c' Hp. unfold elements_td, in_bounds, g0 in *. cbn [table stats rows cols] in *.
    pose proof (lookup2_replicate 8 8 [classes.unknown] r' c') as Hl.
    change (Z.to_nat 8) with 8%nat in Hl. by rewrite Hl, Hp. }
  destruct (cellClicked_no_mines 3 4 100 g0 eq_refl eq_refl eq_refl eq_refl eq_refl
              Hcells eq_refl eq_refl) as (g' & Hrun & Hres & _ & Hmod & _).
  exists g0, g'. split; [vm_compute; reflexivity|]. split; [exact Hrun|]. by split.
Defined.

(** ** Cheating *)

Lemma each_td_imap (f : Z -> Z -> classList -> res classList)
    (F : Z -> Z -> classList -> classList) h w (t : list (list classList)) :
  rectangular h w t = true ->
  (forall r c td, 0 <= r < h -> 0 <= c < w -> f r c td = Ok (F r c td)) ->
  each_td f t =
  Ok (imap (fun r tr => imap (fun c td => F (Z.of_nat r) (Z.of_nat c) td) tr) t).
Proof.
  intros [Hlen Hrows]%rectangular_spec Hf. unfold each_td.
  apply (each_from_imap 0 _ (fun r tr => imap (fun c td => F (Z.of_nat r) (Z.of_nat c) td) tr)).
  intros i tr Htr. cbn [Nat.add].
  assert (Hi : 0 <= Z.of_nat i < h).
  { apply lookup_lt_Some in Htr. lia. }
  assert (Hw : Z.of_nat (length tr) = w) by (apply Hrows; by eapply list_elem_of_lookup_2).
  apply (each_from_imap 0 _ (fun c td => F (Z.of_nat i) (Z.of_nat c) td)).
  intros j td Htd. cbn [Nat.add]. apply Hf; [done|].
  apply lookup_lt_Some in Htd. lia.
Qed.

Lemma cheatGame_ok g :
  grid_ok g = true -> table_ok g = true ->
  cheatGame g = Ok (set_table (cheat_table g) (modal_close g)).
Proof.
  intros Hok Htab. unfold cheatGame. cbn zeta.
  rewrite (each_td_imap (cheat_td (modal_close g))
             (fun r c td => if is_mined g r c then addClass [classes.cheat] td else td)
             (rows (stats g)) (cols (stats g))); [done|exact Htab|].
  intros r c td Hr Hc. unfold cheat_td.
  assert (Hin : in_bounds g r c = true) by (by apply in_bounds_spec).
  change (getCell (modal_close g) r c) with (getCell g r c).
  rewrite (getCell_ok _ _ _ Hok), Hin.
  destruct (is_mined_cellAt _ _ _ Hok Hin) as (cl & -> & Hm). cbn [mbind res_bind].
  by rewrite Hm.
Qed.

Lemma lookup2_cheat_table g r c :
  lookup2 (cheat_table g) r c =
  (fun td => if is_mined g r c then addClass [classes.cheat] td else td)
    <$> lookup2 (table g) r c.
Proof.
  unfold cheat_table, lookup2, index.
  destruct (Z.leb_spec 0 r); [|done]. rewrite list_lookup_imap.
  destruct (table g !! Z.to_nat r) as [tr|]; [|done]. simpl.
  destruct (Z.leb_spec 0 c); [|done]. rewrite list_lookup_imap.
  destruct (tr !! Z.to_nat c) as [td|]; [|done]. simpl. by rewrite !Z2Nat.id.
Qed.

Lemma rectangular_ext {A} h w (a b : list (list A)) :
  rectangular h w a = true -> rectangular h w b = true ->
  (forall i j, lookup2 a i j = lookup2 b i j) -> a = b.
Proof.
  intros Ha Hb Hab.
  pose proof Ha as [Hla Hwa]%rectangular_spec. pose proof Hb as [Hlb Hwb]%rectangular_spec.
  apply list_eq. intros i.
  destruct (a !! i) as [ar|] eqn:Ea, (b !! i) as [br|] eqn:Eb.
  - f_equal. apply list_eq. intros j.
    specialize (Hab (Z.of_nat i) (Z.of_nat j)). unfold lookup2, index in Hab.
    destruct (Z.leb_spec 0 (Z.of_nat i)); [|lia].
    destruct (Z.leb_spec 0 (Z.of_nat j)); [|lia].
    rewrite !Nat2Z.id, Ea, Eb in Hab. simpl in Hab. exact Hab.
  - apply lookup_lt_Some in Ea. apply lookup_ge_None in Eb. lia.
  - apply lookup_ge_None in Ea. apply lookup_lt_Some in Eb. lia.
  - done.
Qed.

Lemma rectangular_cheat_table h w g :
  rectangular h w (cheat_table g) = rectangular h w (table g).
Proof.
  apply (rectangular_imap (fun r c td =>
    if is_mined g (Z.of_nat r) (Z.of_nat c) then addClass [classes.cheat] td else td)).
Qed.

Lemma cheatGame_other_classes g r c cl :
  cl <> classes.cheat ->
  hasClass cl (elements_td (set_table (cheat_table g) (modal_close g)) r c)
  = hasClass cl (elements_td g r c).
Proof.
  intros Hne.
  change (elements_td (set_table (cheat_table g) (modal_close g)) r c)
    with (lookup2 (cheat_table g) r c).
  rewrite lookup2_cheat_table.
  change (lookup2 (table g) r c) with (elements_td g r c).
  destruct (elements_td g r c) as [td|]; [|done].
  cbn [fmap option_fmap option_map hasClass]. destruct (is_mined g r c); [|done].
  apply bool_decide_ext. rewrite elem_of_addClass, list_elem_of_singleton. tauto.
Qed.

(** X14. On a page of the right shape [cheatGame] returns, closes the
    dialog, and keeps the grid, the statistics, the result heading and
    whether the game runs; the td of a mined cell gains the class cheat,
    every other td and every other class is as before; cheating a second
    time changes nothing. *)
Theorem cheatGame_marks (g : game) :
  grid_ok g = true -> table_ok g = true ->
  exists g',
    cheatGame g = Ok g'
    /\ grid g' = grid g /\ stats g' = stats g /\ active g' = active g
    /\ gameresult g' = gameresult g /\ modal g' = None
    /\ (forall r c, elements_td g' r c =
          (fun td => if is_mined g r c then addClass [classes.cheat] td else td)
            <$> elements_td g r c)
    /\ (forall r c cl, cl <> classes.cheat ->
          hasClass cl (elements_td g' r c) = hasClass cl (elements_td g r c))
    /\ (forall r c, in_bounds g r c = true ->
          hasClass classes.cheat (elements_td g' r c) =
          hasClass classes.cheat (elements_td g r c) || is_mined g r c)
    /\ cheatGame g' = Ok g'.
Proof.
  intros Hok Htab. rewrite (cheatGame_ok g Hok Htab). eexists. split; [reflexivity|].
  do 5 (split; [done|]).
  assert (Htd : forall r c,
    elements_td (set_table (cheat_table g) (modal_close g)) r c
    = (fun td => if is_mined g r c then addClass [classes.cheat] td else td)
        <$> elements_td g r c).
  { intros r c. apply lookup2_cheat_table. }
  split; [exact Htd|]. split; [|split].
  - intros r c cl Hne. by apply cheatGame_other_classes.
  - intros r c Hin. rewrite Htd.
    destruct (elements_td_in_bounds _ _ _ Htab Hin) as [td ->].
    cbn [fmap option_fmap option_map hasClass]. destruct (is_mined g r c).
    + rewrite orb_true_r. apply bool_decide_eq_true_2.
      rewrite elem_of_addClass, list_elem_of_singleton. by right.
    + by rewrite orb_false_r.
  - set (g' := set_table (cheat_table g) (modal_close g)).
    assert (Htab' : table_ok g' = true).
    { unfold table_ok, g'. cbn [table set_table stats modal_close set_modal].
      by rewrite rectangular_cheat_table. }
    rewrite (cheatGame_ok g' Hok Htab'). f_equal.
    assert (cheat_table g' = table g') as ->; [|by destruct g].
    apply (rectangular_ext (rows (stats g)) (cols (stats g))).
    + rewrite rectangular_cheat_table. exact Htab'.
    + exact Htab'.
    + intros i j. rewrite lookup2_cheat_table.
      change (lookup2 (table g') i j) with (elements_td g' i j). unfold g'. rewrite Htd.
      change (is_mined (set_table (cheat_table g) (modal_close g)) i j) with (is_mined g i j).
      destruct (elements_td g i j) as [td|]; [|done].
      cbn [fmap option_fmap option_map]. destruct (is_mined g i j); [|done].
      f_equal. unfold addClass at 1. cbn [foldl].
      rewrite bool_decide_eq_true_2; [done|].
      rewrite elem_of_addClass, list_elem_of_singleton. by right.
Qed.

Lemma cheatGame_marks_witness :
  exists g',
    cheatGame board3 = Ok g'
    /\ elements_td g' 0 1 = Some [classes.unknown; classes.cheat]
    /\ elements_td g' 1 1 = Some [classes.unknown].
Proof.
  destruct (cheatGame_marks board3 eq_refl eq_refl) as (g' & Hrun & _ & _ & _ & _ & _ & Htd & _).
  exists g'. split; [exact Hrun|]. by rewrite !Htd.
Defined.

(** What validation decides depends on the mines and on which tds are
    unknown and which are flagged, and on nothing else. *)
Lemma verdict_similar g g' :
  grid g' = grid g -> stats g' = stats g ->
  table_ok g = true -> table_ok g' = true ->
  (forall r c, hasClass classes.unknown (elements_td g' r c)
               = hasClass classes.unknown (elements_td g r c)) ->
  (forall r c, hasClass classes.flagged (elements_td g' r c)
               = hasClass classes.flagged (elements_td g r c)) ->
  unknown_mines g' = unknown_mines g
  /\ count_class classes.unknown (table g') = count_class classes.unknown (table g)
  /\ existsb (false_flag g') (tds g') = existsb (false_flag g) (tds g).
Proof.
  intros Hg Hs Htab Htab' Hu Hf.
  destruct (data_board g g' Hg) as (_ & _ & Hm & _); [by rewrite Hs..|].
  unfold table_ok in Htab'. rewrite Hs in Htab'.
  assert (Hsome : forall i j, is_Some (lookup2 (table g') i j)
                              <-> is_Some (lookup2 (table g) i j)).
  { intros i j. by rewrite (rectangular_index _ _ _ _ _ Htab),
      (rectangular_index _ _ _ _ _ Htab'). }
  split; [|split].
  - unfold unknown_mines. rewrite !tds_positions.
    change (count2 (unknown_mine g') (positions g') = count2 (unknown_mine g) (positions g)).
    apply (count2_pointwise _ _ (rows (stats g)) (cols (stats g)));
      [by rewrite rectangular_positions..|].
    intros i j. rewrite !lookup2_positions. specialize (Hu i j). unfold elements_td in Hu.
    destruct (lookup2 (table g') i j) as [td'|] eqn:E', (lookup2 (table g) i j) as [td|] eqn:E;
      cbn [fmap option_fmap option_map hasClass] in *; try done.
    + unfold unknown_mine. cbn [fst snd]. by rewrite Hu, Hm.
    + destruct (proj1 (Hsome i j)) as [? ?]; [by rewrite E'|]. congruence.
    + destruct (proj2 (Hsome i j)) as [? ?]; [by rewrite E|]. congruence.
  - unfold count_class.
    apply (count2_pointwise _ _ (rows (stats g)) (cols (stats g))); [done..|].
    intros i j. specialize (Hu i j). unfold elements_td in Hu.
    destruct (lookup2 (table g') i j) as [td'|] eqn:E', (lookup2 (table g) i j) as [td|] eqn:E;
      cbn [fmap option_fmap option_map hasClass] in *; try done.
    + by rewrite Hu.
    + destruct (proj1 (Hsome i j)) as [? ?]; [by rewrite E'|]. congruence.
    + destruct (proj2 (Hsome i j)) as [? ?]; [by rewrite E|]. congruence.
  - apply eq_true_iff_eq. rewrite !existsb_false_flag.
    split; intros (r & c & Hfl & Hmn); exists r, c.
    + by rewrite <- Hf, <- Hm.
    + by rewrite Hf, Hm.
Qed.

Lemma validate_result_similar g g' :
  grid g' = grid g -> stats g' = stats g ->
  table_ok g = true -> table_ok g' = true ->
  (forall r c, hasClass classes.unknown (elements_td g' r c)
               = hasClass classes.unknown (elements_td g r c)) ->
  (forall r c, hasClass classes.flagged (elements_td g' r c)
               = hasClass classes.flagged (elements_td g r c)) ->
  gameresult (validate_result g') = gameresult (validate_result g)
  /\ forall cl,
       (forall r c, hasClass cl (elements_td g' r c) = hasClass cl (elements_td g r c)) ->
       forall r c, hasClass cl (elements_td (validate_result g') r c)
                   = hasClass cl (elements_td (validate_result g) r c).
Proof.
  intros Hg Hs Htab Htab' Hu Hf.
  destruct (verdict_similar g g' Hg Hs Htab Htab' Hu Hf) as (Hum & HU & Hff).
  destruct (data_board g g' Hg) as (_ & _ & Hm & _); [by rewrite Hs..|].
  unfold validate_result. rewrite Hum, HU, Hff.
  destruct (_ && _); [|split; [done|]; intros cl Hcl r c; apply Hcl].
  split; [done|]. intros cl Hcl r c. unfold elements_td.
  cbn [table set_gameresult set_table]. rewrite !lookup2_missed_table.
  specialize (Hcl r c). specialize (Hu r c). unfold elements_td in Hcl, Hu.
  assert (Hsome : is_Some (lookup2 (table g') r c) <-> is_Some (lookup2 (table g) r c)).
  { unfold table_ok in Htab'. rewrite Hs in Htab'.
    by rewrite (rectangular_index _ _ _ _ _ Htab), (rectangular_index _ _ _ _ _ Htab'). }
  destruct (lookup2 (table g') r c) as [td'|] eqn:E', (lookup2 (table g) r c) as [td|] eqn:E;
    cbn [fmap option_fmap option_map hasClass] in *.
  - unfold unknown_mine. cbn [fst snd]. rewrite Hu, Hm.
    destruct (_ && _); [|done]. apply bool_decide_ext. unfold missed_classes.
    rewrite !elem_of_addClass, !elem_of_removeClass.
    assert (Hiff : cl ∈ td' <-> cl ∈ td).
    { split; intros H; apply (bool_decide_eq_true _); [rewrite <- Hcl|rewrite Hcl];
        by apply bool_decide_eq_true_2. }
    tauto.
  - destruct (proj1 Hsome) as [? ?]; [by eexists|]. congruence.
  - destruct (proj2 Hsome) as [? ?]; [by eexists|]. congruence.
  - done.
Qed.

(** X15. Cheating does not change what [validate] decides: on a running
    game of the right shape, validating after [cheatGame] gives the same
    heading as validating at once, and the tds then differ at most in the
    class cheat. *)
Theorem cheatGame_verdict (g : game) :
  isGameActive g = true -> grid_ok g = true -> table_ok g = true ->
  exists g' v v',
    cheatGame g = Ok g' /\ validate g = Ok v /\ validate g' = Ok v'
    /\ gameresult v' = gameresult v
    /\ (forall r c cl, cl <> classes.cheat ->
          hasClass cl (elements_td v' r c) = hasClass cl (elements_td v r c)).
Proof.
  intros Hact Hok Htab.
  pose proof (cheatGame_ok g Hok Htab) as Hrun.
  set (g' := set_table (cheat_table g) (modal_close g)) in Hrun.
  assert (Hg : grid g' = grid g) by done.
  assert (Hs : stats g' = stats g) by done.
  assert (Ha : active g' = active g) by done.
  assert (Hcl : forall r c cl, cl <> classes.cheat ->
            hasClass cl (elements_td g' r c) = hasClass cl (elements_td g r c)).
  { intros r c cl Hne. by apply cheatGame_other_classes. }
  assert (Hok' : grid_ok g' = true) by (unfold grid_ok; by rewrite Hg, Hs).
  assert (Htab' : table_ok g' = true).
  { unfold table_ok, g'. cbn [table set_table stats modal_close set_modal].
    by rewrite rectangular_cheat_table. }
  assert (Hact' : isGameActive g' = true).
  { unfold isGameActive in *. by rewrite Hg, Ha. }
  exists g', (validate_result g), (validate_result g').
  split; [done|]. split; [by apply validate_active|]. split; [by apply validate_active|].
  destruct (validate_result_similar g g' Hg Hs Htab Htab') as [Hres Hkeep].
  - intros r c. by apply Hcl.
  - intros r c. by apply Hcl.
  - split; [done|]. intros r c cl Hne. apply Hkeep. intros r' c'. by apply Hcl.
Qed.

Lemma cheatGame_verdict_witness :
  exists g' v v',
    cheatGame board3 = Ok g' /\ validate board3 = Ok v /\ validate g' = Ok v'
    /\ gameresult v' = gameresult v.
Proof.
  destruct (cheatGame_verdict board3 eq_refl eq_refl eq_refl)
    as (g' & v & v' & H1 & H2 & H3 & H4 & _).
  by exists g', v, v'.
Defined.

(** ** The page: the timer, the click binding, local storage *)

Lemma events_cellClicked_split shiftKey r c fuel p :
  events.cellClicked shiftKey r c fuel p =
  currentCell ← getCell (doc p) r c;
  let p := on_doc (fun g => set_stats (set_clicks (clicks (stats g) + 1) (stats g)) g) p in
  match currentCell with
  | Some cl => q ← page_action shiftKey r c fuel cl p; page_check q.2 q.1
  | None => Ok p
  end.
Proof.
  unfold events.cellClicked, page_action, page_check.
  destruct (getCell (doc p) r c) as [[cl|]| |]; try done. cbn [mbind res_bind]. cbn zeta.
  match goal with |- mbind _ ?m = mbind _ ?m' => change m' with m; destruct m as [[g2 b]| |] end;
    done.
Qed.

Lemma doc_clearInterval p : doc (clearInterval p) = doc p.
Proof. unfold clearInterval. by destruct (timer p). Qed.

Lemma doc_stopped p : doc (stopped p) = doc p.
Proof. apply doc_clearInterval. Qed.

Lemma events_validate_doc p :
  events.validate p =
  (g ← validate (doc p);
   Ok (set_doc g (if isGameActive (doc p) then stopped p else p))).
Proof.
  unfold events.validate. destruct (isGameActive (doc p)); cbn [negb]; [|done].
  cbn zeta. change (doc (bindings.clickCellUnbind (clearInterval p))) with (doc (clearInterval p)).
  by rewrite doc_clearInterval.
Qed.

Lemma set_doc_doc p : set_doc (doc p) p = p.
Proof. by destruct p. Qed.

Lemma set_doc_set_doc g g' p : set_doc g (set_doc g' p) = set_doc g p.
Proof. done. Qed.

Lemma set_doc_stopped g g' p : set_doc g (stopped (set_doc g' p)) = set_doc g (stopped p).
Proof. unfold stopped, clearInterval. cbn. by destruct (timer p). Qed.

Lemma page_action_doc shiftKey r c fuel cl p :
  page_action shiftKey r c fuel cl p =
  (q ← click_action shiftKey r c fuel cl (doc p);
   Ok (set_doc q.1 (if q.2 && isGameActive (doc p) then stopped p else p), q.2)).
Proof.
  unfold page_action, click_action. destruct shiftKey.
  - cbn zeta. cbn [on_doc doc set_doc].
    destruct (hasClass _ _); cbn [mbind res_bind fst snd andb]; done.
  - destruct (negb (mined cl)).
    + destruct (countSurroundingMines (doc p) r c) as [num| |]; cbn [mbind res_bind]; try done.
      destruct (num =? 0); cbn [mbind res_bind fst snd andb]; [|done].
      destruct (revealEmptyAdjacent fuel r c (doc p)); cbn [mbind res_bind fst snd andb]; done.
    + cbn zeta. rewrite events_validate_doc. cbn [on_doc doc set_doc].
      destruct (validate _) as [g1| |]; cbn [mbind res_bind fst snd andb]; try done.
      change (isGameActive (with_td r c (addClass [classes.mined; classes.sprite]) (doc p)))
        with (isGameActive (doc p)).
      unfold on_doc. destruct (isGameActive (doc p)); [|done]. by rewrite set_doc_stopped.
Qed.

Lemma page_check_doc b p :
  page_check b p =
  (g ← click_check b (doc p);
   Ok (set_doc g (if isGameActive (doc p) && negb (isGameActive g) then stopped p else p))).
Proof.
  unfold page_check, click_check.
  destruct (negb b && isGameActive (doc p)) eqn:Hcond; cbn [mbind res_bind].
  2:{ rewrite andb_negb_r. by rewrite set_doc_doc. }
  apply andb_true_iff in Hcond as [_ Hact]. rewrite Hact. cbn [andb].
  destruct (minesPlanted (stats (doc p)) =? 0).
  - rewrite events_validate_doc, Hact.
    destruct (validate (doc p)) as [g1| |] eqn:E1; cbn [mbind res_bind]; try done.
    destruct (validate_ends _ _ E1) as (Hina1 & _). cbn [doc set_doc].
    destruct (_ <=? _).
    + rewrite events_validate_doc. cbn [doc set_doc]. rewrite Hina1.
      destruct (validate g1) as [g2| |] eqn:E2; cbn [mbind res_bind]; try done.
      destruct (validate_ends _ _ E2) as (Hina2 & _). by rewrite Hina2.
    + cbn [mbind res_bind]. by rewrite Hina1.
  - cbn [mbind res_bind]. destruct (_ <=? _).
    + rewrite events_validate_doc, Hact.
      destruct (validate (doc p)) as [g1| |] eqn:E1; cbn [mbind res_bind]; try done.
      destruct (validate_ends _ _ E1) as (Hina1 & _). by rewrite Hina1.
    + cbn [mbind res_bind]. by rewrite Hact, set_doc_doc.
Qed.

(** A plain reveal changes the table and nothing else. *)
Lemma for_each_rel {A S} (R : S -> S -> Prop) (l : list A) (body : A -> S -> res S) s s' :
  (forall s0, R s0 s0) -> (forall s1 s2 s3, R s1 s2 -> R s2 s3 -> R s1 s3) ->
  (forall a s1 s2, a ∈ l -> body a s1 = Ok s2 -> R s1 s2) ->
  for_each l s body = Ok s' -> R s s'.
Proof.
  intros Hrefl Htrans. revert s. induction l as [|a l IH]; intros s Hbody; cbn [for_each].
  - intros [= <-]. apply Hrefl.
  - destruct (body a s) as [s1| |] eqn:E; cbn [mbind res_bind]; try done.
    intros Hrest. apply (Htrans _ s1).
    + apply (Hbody a); [by left|done].
    + apply IH; [|done]. intros a' s2 s3 Ha'. apply Hbody. by right.
Qed.

Lemma revealEmptyAdjacent_data fuel r c g g' :
  revealEmptyAdjacent fuel r c g = Ok g' -> same_data g g'.
Proof.
  revert r c g g'. induction fuel as [|fuel IH]; intros r c g g'; [done|].
  cbn [revealEmptyAdjacent]. destruct (_ || _); [intros [= <-]; apply same_data_refl|].
  destruct (getCell g r c) as [cellToCheck| |]; cbn [mbind res_bind]; try done.
  destruct (countSurroundingMines g r c) as [num| |]; cbn [mbind res_bind]; try done.
  match goal with |- context [mbind _ ?m] => destruct m as [[|]| |] end;
    cbn [mbind res_bind]; try done; [intros [= <-]; apply same_data_refl|].
  intros Hrun.
  apply (same_data_trans _ (with_td r c (fun cs => addClass [classes.empty]
                                          (removeClass classes.unknown cs)) g)); [done|].
  revert Hrun. apply for_each_rel.
  - apply same_data_refl.
  - apply same_data_trans.
  - intros d g1 g2 _. apply IH.
Qed.

Lemma click_action_active shiftKey r c fuel cl g g2 b :
  click_action shiftKey r c fuel cl g = Ok (g2, b) ->
  isGameActive g2 = if b then false else isGameActive g.
Proof.
  unfold click_action. destruct shiftKey.
  - destruct (hasClass _ _); by intros [= <- <-].
  - destruct (negb (mined cl)).
    + destruct (countSurroundingMines g r c) as [num| |]; cbn [mbind res_bind]; try done.
      destruct (num =? 0); [|by intros [= <- <-]].
      destruct (revealEmptyAdjacent fuel r c g) as [g3| |] eqn:E; cbn [mbind res_bind];
        try done.
      intros [= <- <-]. apply revealEmptyAdjacent_data in E as (Hg & _ & Ha & _).
      unfold isGameActive. by rewrite Hg, Ha.
    + destruct (validate _) as [g3| |] eqn:E; cbn [mbind res_bind]; try done.
      intros [= <- <-]. by destruct (validate_ends _ _ E).
Qed.

Lemma click_check_active b g g' :
  click_check b g = Ok g' -> isGameActive g' = true -> isGameActive g = true.
Proof.
  unfold click_check. destruct (isGameActive g) eqn:Hact; [done|].
  rewrite andb_false_r. intros [= <-] ?. congruence.
Qed.

(** [events.cellClicked] does to [data] and to the table what [cellClicked]
    does; the timer is cleared and the clicks are unbound when the click
    ends the game. *)
Lemma events_cellClicked_doc shiftKey r c fuel p :
  events.cellClicked shiftKey r c fuel p =
  (g ← cellClicked shiftKey r c fuel (doc p);
   Ok (set_doc g (if isGameActive (doc p) && negb (isGameActive g) then stopped p else p))).
Proof.
  rewrite events_cellClicked_split, cellClicked_split.
  destruct (getCell (doc p) r c) as [[cl|]| |]; cbn [mbind res_bind]; try done.
  2:{ cbn zeta. unfold on_doc.
      change (isGameActive (set_stats _ (doc p))) with (isGameActive (doc p)).
      by rewrite andb_negb_r. }
  cbn zeta. rewrite page_action_doc. cbn [on_doc doc set_doc].
  set (g1 := set_stats (set_clicks (clicks (stats (doc p)) + 1) (stats (doc p))) (doc p)).
  change (isGameActive g1) with (isGameActive (doc p)).
  destruct (click_action shiftKey r c fuel cl g1) as [[g2 b]| |] eqn:Eact;
    cbn [mbind res_bind fst snd]; try done.
  pose proof (click_action_active _ _ _ _ _ _ _ _ Eact) as Hact2.
  change (isGameActive g1) with (isGameActive (doc p)) in Hact2.
  rewrite page_check_doc. cbn [doc set_doc].
  destruct (click_check b g2) as [g3| |] eqn:Echeck; cbn [mbind res_bind]; try done.
  f_equal. rewrite Hact2.
  destruct b; cbn [andb].
  - unfold click_check in Echeck. cbn [negb andb] in Echeck. injection Echeck as <-.
    rewrite Hact2. cbn [negb]. rewrite andb_true_r. unfold on_doc.
    destruct (isGameActive (doc p)); rewrite set_doc_set_doc; [by rewrite set_doc_stopped|done].
  - unfold on_doc. destruct (isGameActive (doc p)) eqn:Hact; cbn [andb]; [|done].
    destruct (isGameActive g3); cbn [negb]; [done|].
    by rewrite set_doc_set_doc, set_doc_stopped.
Qed.

(** *** The shape of the game is kept *)

Lemma game_inv_playing g : game_inv true g <-> playing g.
Proof.
  unfold game_inv, playing. split.
  - intros (? & ? & ? & H). repeat (split; [done|]). by apply H.
  - intros (? & ? & ? & H). repeat (split; [done|]). by intros _.
Qed.

Lemma game_inv_shape strict g :
  game_inv strict g -> grid_ok g = true /\ table_ok g = true /\ flags_ok g = true.
Proof. intros (? & ? & ? & _). done. Qed.

Lemma game_inv_weaken g : game_inv true g -> forall strict, game_inv strict g.
Proof. intros (? & ? & ? & H) strict. repeat (split; [done|]). intros _. by apply H. Qed.

(** Only [data.active], the grid, the table and the numbers of rows, columns
    and mines to flag matter. *)
Lemma game_inv_ext strict g g' :
  active g' = active g -> grid g' = grid g -> table g' = table g ->
  rows (stats g') = rows (stats g) -> cols (stats g') = cols (stats g) ->
  minesPlanted (stats g') = minesPlanted (stats g) ->
  game_inv strict g -> game_inv strict g'.
Proof.
  intros Ha Hg Ht Hr Hc Hmp (Hok & Htab & Hfl & Hplay).
  destruct (data_board g g' Hg Hr Hc) as (Hin & Hcl & Hm & Hmc).
  split; [unfold grid_ok; by rewrite Hg, Hr, Hc|].
  split; [unfold table_ok; by rewrite Ht, Hr, Hc|].
  split; [unfold flags_ok; by rewrite Ht|].
  intros Hs Hact.
  assert (Hact0 : isGameActive g = true) by (unfold isGameActive in *; by rewrite <- Hg, <- Ha).
  destruct (Hplay Hs Hact0) as [[Hcov Hcount] [Hlt Hzero]].
  split; split.
  - intros r c Hmined. rewrite Hm in Hmined. rewrite !(elements_td_table g g' Ht).
    by apply Hcov.
  - by rewrite Hmp, Hmc, Ht.
  - by rewrite Hmp, Ht.
  - rewrite Hmp, Hmc. exact Hzero.
Qed.

Lemma game_inv_inactive strict g :
  grid_ok g = true -> table_ok g = true -> flags_ok g = true ->
  isGameActive g = false -> game_inv strict g.
Proof. intros ? ? ? Hina. repeat (split; [done|]). intros _ ?. congruence. Qed.

Lemma game_inv_validate strict g g' :
  game_inv strict g -> validate g = Ok g' -> game_inv strict g'.
Proof.
  intros (Hok & Htab & Hfl & _) Hrun.
  destruct (validate_total g) as (g'' & Hrun' & Hs & Hg & Hina & Hrect & Hfl'); [done|].
  rewrite Hrun in Hrun'. injection Hrun' as <-.
  apply game_inv_inactive; [| |by apply Hfl'|done].
  - unfold grid_ok. by rewrite Hg, Hs.
  - unfold table_ok. rewrite Hs. by apply Hrect.
Qed.

Lemma game_inv_cellClicked strict shiftKey r c fuel g g' :
  game_inv strict g ->
  count_class classes.unknown (table g) < Z.of_nat fuel ->
  cellClicked shiftKey r c fuel g = Ok g' -> game_inv strict g'.
Proof.
  intros Hinv Hfuel Hrun. destruct strict.
  - apply game_inv_playing. apply game_inv_playing in Hinv.
    by eapply cellClicked_playing.
  - destruct Hinv as (Hok & Htab & Hfl & _).
    destruct (cellClicked_shape _ _ _ _ _ _ Hok Htab Hfl Hfuel Hrun) as (? & ? & ?).
    repeat (split; [done|]). done.
Qed.

Lemma count_class_similar cl h w (t t' : list (list classList)) :
  rectangular h w t = true -> rectangular h w t' = true ->
  (forall r c, hasClass cl (lookup2 t' r c) = hasClass cl (lookup2 t r c)) ->
  count_class cl t' = count_class cl t.
Proof.
  intros Ht Ht' Hcl. unfold count_class. apply (count2_pointwise _ _ h w); [done..|].
  intros i j. specialize (Hcl i j).
  assert (Hsome : is_Some (lookup2 t' i j) <-> is_Some (lookup2 t i j)).
  { by rewrite (rectangular_index _ _ _ _ _ Ht), (rectangular_index _ _ _ _ _ Ht'). }
  destruct (lookup2 t' i j) as [td'|] eqn:E', (lookup2 t i j) as [td|] eqn:E;
    cbn [fmap option_fmap option_map hasClass] in *.
  - by rewrite Hcl.
  - destruct (proj1 Hsome) as [? ?]; [by eexists|]. congruence.
  - destruct (proj2 Hsome) as [? ?]; [by eexists|]. congruence.
  - done.
Qed.

(** Class changes that leave [unknown] and [flagged] alone keep the game as
    it is. *)
Lemma game_inv_similar strict g g' :
  grid g' = grid g -> stats g' = stats g -> active g' = active g ->
  table_ok g' = true ->
  (forall r c, hasClass classes.unknown (elements_td g' r c)
               = hasClass classes.unknown (elements_td g r c)) ->
  (forall r c, hasClass classes.flagged (elements_td g' r c)
               = hasClass classes.flagged (elements_td g r c)) ->
  game_inv strict g -> game_inv strict g'.
Proof.
  intros Hg Hs Ha Htab' Hu Hf (Hok & Htab & Hfl & Hplay).
  destruct (data_board g g' Hg) as (Hin & Hcl & Hm & Hmc); [by rewrite Hs..|].
  assert (Htab'' : rectangular (rows (stats g)) (cols (stats g)) (table g') = true).
  { unfold table_ok in Htab'. by rewrite Hs in Htab'. }
  split; [unfold grid_ok; by rewrite Hg, Hs|]. split; [done|].
  split.
  { apply flags_ok_spec. intros r c td' Htd' Hfl' Hun'.
    specialize (Hu r c). specialize (Hf r c). rewrite Htd' in Hu, Hf.
    cbn [hasClass] in Hu, Hf.
    rewrite (bool_decide_eq_true_2 _ Hfl') in Hf. rewrite (bool_decide_eq_true_2 _ Hun') in Hu.
    destruct (elements_td g r c) as [td|] eqn:Etd; [|done].
    symmetry in Hu, Hf. apply hasClass_Some in Hu, Hf.
    by apply (proj1 (flags_ok_spec g) Hfl r c td Etd). }
  intros Hstrict Hact.
  assert (Hact0 : isGameActive g = true) by (unfold isGameActive in *; by rewrite <- Hg, <- Ha).
  destruct (Hplay Hstrict Hact0) as [[Hcov Hcount] [Hlt Hzero]].
  assert (HU : count_class classes.unknown (table g') = count_class classes.unknown (table g)).
  { by apply (count_class_similar _ (rows (stats g)) (cols (stats g))). }
  assert (HF : count_class classes.flagged (table g') = count_class classes.flagged (table g)).
  { by apply (count_class_similar _ (rows (stats g)) (cols (stats g))). }
  split; split.
  - intros r c Hmined. rewrite Hm in Hmined. rewrite Hu, Hf. by apply Hcov.
  - by rewrite Hs, Hmc, HF.
  - by rewrite Hs, HU.
  - rewrite Hs, Hmc. exact Hzero.
Qed.

Lemma game_inv_cheatGame strict g g' :
  game_inv strict g -> cheatGame g = Ok g' -> game_inv strict g'.
Proof.
  intros Hinv Hrun. pose proof Hinv as (Hok & Htab & _).
  rewrite (cheatGame_ok g Hok Htab) in Hrun. injection Hrun as <-.
  assert (Htd : forall r c cl, cl <> classes.cheat ->
    hasClass cl (elements_td (set_table (cheat_table g) (modal_close g)) r c)
    = hasClass cl (elements_td g r c)).
  { intros r c cl Hne. unfold elements_td. cbn [table set_table].
    rewrite lookup2_cheat_table. destruct (lookup2 (table g) r c) as [td|]; [|done].
    cbn [fmap option_fmap option_map hasClass]. destruct (is_mined g r c); [|done].
    apply bool_decide_ext. rewrite elem_of_addClass, list_elem_of_singleton. tauto. }
  apply (game_inv_similar strict g); try done.
  - unfold table_ok. cbn [table set_table stats modal_close set_modal].
    by rewrite rectangular_cheat_table.
  - intros r c. by apply Htd.
  - intros r c. by apply Htd.
Qed.

(** *** A new game *)

Lemma plantMine_returns r c g :
  grid_ok g = true -> in_bounds g r c = true ->
  exists g1 planted, plantMine r c g = Ok (g1, planted).
Proof.
  intros Hok Hin. destruct (is_mined g r c) eqn:Hm.
  - rewrite (plantMine_mined _ _ _ Hok Hin Hm). by eexists _, _.
  - destruct (plantMine_fresh _ _ _ Hok Hin Hm) as (g1 & -> & _). by eexists _, _.
Qed.

(** With [Math.random] in [0, 1) the planting loop reads no cell off the
    board. *)
Lemma plantAllMines_no_error fuel random n g :
  unit_interval random -> grid_ok g = true ->
  1 <= rows (stats g) -> 1 <= cols (stats g) ->
  plantAllMines fuel random n g <> TypeError.
Proof.
  intros Hu. revert n g. induction fuel as [|fuel IH]; intros n g Hok Hr Hc;
    cbn [plantAllMines]; destruct (JS.lt _ _); try done.
  pose proof (draw_in_bounds random g n Hu Hr Hc) as Hin. unfold draw in Hin.
  cbn [fst snd] in Hin.
  destruct (plantMine_returns _ _ g Hok Hin) as (g1 & planted & Hp). rewrite Hp.
  cbn [mbind res_bind].
  pose proof (plantMine_stats _ _ _ _ _ Hp) as Hs.
  pose proof (plantMine_grid_ok _ _ _ _ _ Hp) as Hg.
  assert (Hok1 : forall s, rows s = rows (stats g) -> cols s = cols (stats g) ->
                   grid_ok (set_stats s g1) = true).
  { intros s Hrs Hcs. unfold grid_ok in *. cbn [grid set_stats stats].
    rewrite Hrs, Hcs. rewrite Hs in Hg. by rewrite Hg. }
  apply IH; destruct planted; cbn [stats set_stats set_minesPlanted rows cols];
    rewrite ?Hs; try done.
  - by apply Hok1.
  - by rewrite Hg.
Qed.

Lemma init_new_no_error sizeOfGame numberOfMines fuel random g :
  unit_interval random -> 1 <= sizeOfGame ->
  init None sizeOfGame numberOfMines fuel random g <> TypeError.
Proof.
  intros Hu Hsize. unfold init. cbn [mbind res_bind].
  set (g0 := generateGrid sizeOfGame numberOfMines (init_defaults (set_gameresult None g))).
  assert (Hne : plantAllMines fuel random 0 g0 <> TypeError).
  { apply plantAllMines_no_error; [done| |unfold g0; simpl; lia..].
    unfold grid_ok, g0, generateGrid. simpl. apply rectangular_replicate; lia. }
  by destruct (plantAllMines fuel random 0 g0).
Qed.

Lemma game_inv_init_new strict sizeOfGame numberOfMines fuel random g g' p :
  allowed strict fuel (Start sizeOfGame numberOfMines random) p ->
  init None sizeOfGame numberOfMines fuel random g = Ok g' ->
  game_inv strict g' /\ isGameActive g' = true.
Proof.
  intros (Hu & Hsize & Hm) Hinit.
  assert (Hsize0 : 0 <= sizeOfGame) by lia.
  destruct (init_new_shape _ _ _ _ _ _ Hsize0 Hinit) as (Hact & Hok & Htab & Hfl & _).
  assert (Hactive : isGameActive g' = true).
  { unfold isGameActive, grid_ok in *. by destruct (grid g'). }
  split; [|done]. destruct strict.
  - destruct (Hm eq_refl) as (m & Hint & Hrange).
    apply game_inv_playing. by eapply init_playing.
  - repeat (split; [done|]). done.
Qed.

(** *** A saved game *)

Lemma init_saved sd sizeOfGame numberOfMines fuel random g :
  init (Some sd) sizeOfGame numberOfMines fuel random g =
  Ok (set_active true
        (set_table (gametable sd)
           (set_grid (gamegrid sd) (set_stats (gamestats sd) (set_gameresult None g))))).
Proof. done. Qed.

Lemma game_inv_stored strict sd g :
  game_inv strict (stored_game sd) ->
  game_inv strict
    (set_active true
       (set_table (gametable sd)
          (set_grid (gamegrid sd) (set_stats (gamestats sd) g)))).
Proof. by apply game_inv_ext. Qed.

Lemma game_inv_store strict g :
  game_inv strict g -> isGameActive g = true ->
  game_inv strict (stored_game (SavedGame (stats g) (grid g) (table g))).
Proof.
  intros Hinv Hact. apply (game_inv_ext strict g); try done.
  unfold isGameActive in Hact. cbn. by destruct (grid g).
Qed.

(** *** Every page the events lead to *)

Lemma same_game_inv strict g g' :
  same_game g g' ->
  (no_game g \/ game_inv strict g) ->
  (no_game g' \/ game_inv strict g') /\ isGameActive g' = isGameActive g.
Proof.
  intros (Ha & Hg & Ht & Hr & Hc & Hmp) Hinv. split.
  - destruct Hinv as [(? & ? & ?)|Hinv]; [left|right].
    + unfold no_game. by rewrite Ha, Hg, Ht.
    + by apply (game_inv_ext strict g).
  - unfold isGameActive. by rewrite Hg, Ha.
Qed.

Lemma same_game_modal m g : same_game g (set_modal m g).
Proof. done. Qed.

Lemma same_game_seconds {A} (l : list A) g :
  same_game g (foldr (fun _ g' => updateClock g') g l).
Proof.
  induction l as [|a l IH]; [done|]. cbn [foldr].
  destruct IH as (? & ? & ? & ? & ? & ?). done.
Qed.

Lemma no_game_inactive g : no_game g -> isGameActive g = false.
Proof. intros (Hg & _). unfold isGameActive. by rewrite Hg. Qed.

Lemma game_inv_grid strict g : game_inv strict g -> isGameActive g = active g.
Proof.
  intros (Hok & _). unfold isGameActive, grid_ok in *. by destruct (grid g).
Qed.

Lemma page_inv_doc strict g p :
  page_inv strict p ->
  (no_game g \/ game_inv strict g) -> isGameActive g = isGameActive (doc p) ->
  page_inv strict (set_doc g p).
Proof.
  intros (_ & Hbind & Hstore) Hg Hact. split; [done|]. split; [|done].
  cbn [doc set_doc delegated timer intervals]. by rewrite Hact.
Qed.

Lemma filter_timer h : filter (fun h' : nat => h' ≠ h) [h] = [].
Proof. cbn. by rewrite decide_False by (intros H; by apply H). Qed.

(** After the game is over no handler and no interval is left. *)
Lemma page_inv_stopped strict g p :
  page_inv strict p ->
  (no_game g \/ game_inv strict g) -> isGameActive g = false ->
  page_inv strict (set_doc g (stopped p)).
Proof.
  intros (_ & Hbind & Hstore) Hg Hact. split; [done|]. split.
  2:{ unfold stopped, clearInterval. cbn. by destruct (timer p). }
  cbn [doc set_doc]. rewrite Hact. unfold stopped, clearInterval, bindings.clickCellUnbind.
  destruct (isGameActive (doc p)).
  - destruct Hbind as (_ & h & -> & ->). cbn. split; [done|]. apply filter_timer.
  - destruct Hbind as (_ & Hi). destruct (timer p); cbn; by rewrite ?Hi.
Qed.

(** After [init] one handler and one interval are there. *)
Lemma page_inv_started strict g p :
  page_inv strict p ->
  game_inv strict g -> isGameActive g = true ->
  page_inv strict
    (setInterval (bindings.clickCell
       (set_doc g (clearInterval (bindings.clickCellUnbind p))))).
Proof.
  intros (_ & Hbind & Hstore) Hg Hact. split; [by right|]. split.
  2:{ unfold clearInterval. cbn. by destruct (timer p). }
  assert (Hcleared : intervals (clearInterval (bindings.clickCellUnbind p)) = []).
  { unfold clearInterval, bindings.clickCellUnbind. cbn.
    destruct (isGameActive (doc p)).
    - destruct Hbind as (_ & h & -> & ->). cbn. apply filter_timer.
    - destruct Hbind as (_ & Hi). destruct (timer p); cbn; by rewrite ?Hi. }
  assert (Hdoc : doc (setInterval (bindings.clickCell
                   (set_doc g (clearInterval (bindings.clickCellUnbind p))))) = g) by done.
  rewrite Hdoc, Hact. split.
  - unfold clearInterval. cbn. by destruct (timer p).
  - eexists. split; [reflexivity|]. unfold setInterval. cbn [intervals].
    f_equal. exact Hcleared.
Qed.

Lemma for_each_one {A S} (a : A) (s : S) (body : A -> S -> res S) :
  for_each [a] s body = body a s.
Proof. cbn [for_each]. by destruct (body a s). Qed.

(** With the handler bound once, a click on a covered or flagged td is one
    call of [events.cellClicked]; no other click is handled. *)
Lemma click_handled strict shiftKey r c fuel p :
  page_inv strict p ->
  click shiftKey r c fuel p =
  if isGameActive (doc p)
     && (hasClass classes.unknown (elements_td (doc p) r c)
         || hasClass classes.flagged (elements_td (doc p) r c))
  then events.cellClicked shiftKey r c fuel p
  else Ok p.
Proof.
  intros (_ & Hbind & _). unfold click.
  destruct (elements_td (doc p) r c) as [td|]; cbn [hasClass]; [|by rewrite andb_false_r].
  destruct (_ || _); [|by rewrite andb_false_r]. rewrite andb_true_r.
  destruct (isGameActive (doc p)).
  - destruct Hbind as (-> & _).
    exact (for_each_one () p (fun _ p' => events.cellClicked shiftKey r c fuel p')).
  - by destruct Hbind as (-> & _).
Qed.

Lemma page_inv_opened strict s :
  store_inv strict s -> page_inv strict (Page blank None [] 0 0 s).
Proof. intros Hs. split; [by left|]. split; [done|exact Hs]. Qed.

Lemma page_inv_cellClicked strict shiftKey r c fuel p p' :
  page_inv strict p -> isGameActive (doc p) = true ->
  count_class classes.unknown (table (doc p)) < Z.of_nat fuel ->
  events.cellClicked shiftKey r c fuel p = Ok p' -> page_inv strict p'.
Proof.
  intros Hinv Hact Hfuel. rewrite events_cellClicked_doc, Hact.
  destruct (cellClicked shiftKey r c fuel (doc p)) as [g'| |] eqn:Hrun;
    cbn [mbind res_bind andb]; try done.
  intros [= <-].
  assert (Hg : game_inv strict (doc p)).
  { destruct Hinv as ([Hno|Hg] & _); [|done]. apply no_game_inactive in Hno. congruence. }
  pose proof (game_inv_cellClicked _ _ _ _ _ _ _ Hg Hfuel Hrun) as Hg'.
  destruct (isGameActive g') eqn:Hact'; cbn [negb].
  - apply page_inv_doc; [done|by right|congruence].
  - apply page_inv_stopped; [done|by right|done].
Qed.

Lemma cheatGame_active g g' : cheatGame g = Ok g' -> isGameActive g' = isGameActive g.
Proof.
  unfold cheatGame. cbn zeta.
  destruct (each_td _ _) as [t'| |]; cbn [mbind res_bind]; try done. by intros [= <-].
Qed.

Lemma page_inv_modal strict m p :
  page_inv strict p -> page_inv strict (set_doc (set_modal m (doc p)) p).
Proof.
  intros Hinv.
  destruct (same_game_inv strict (doc p) _ (same_game_modal m _) (proj1 Hinv)) as [? ?].
  by apply page_inv_doc.
Qed.

Lemma page_inv_fire strict fuel e p p' :
  page_inv strict p -> allowed strict fuel e p -> fire fuel e p = Ok p' ->
  page_inv strict p'.
Proof.
  intros Hinv Hall. pose proof Hinv as (Hdoc & Hbind & Hstore).
  destruct e as [sizeOfGame numberOfMines random|shiftKey r c| | | | | |]; cbn [fire].
  - (* a new game *)
    unfold events.init. cbn zeta.
    change (doc (clearInterval (bindings.clickCellUnbind p))) with
      (doc (clearInterval (set_delegated 0 p))).
    rewrite doc_clearInterval. cbn [doc set_delegated].
    destruct (init None _ _ _ _ (doc p)) as [g| |] eqn:Hinit; cbn [mbind res_bind]; try done.
    intros [= <-].
    destruct (game_inv_init_new _ _ _ _ _ _ _ p Hall Hinit) as [Hg Hact].
    by apply page_inv_started.
  - (* a click on a td *)
    rewrite (click_handled strict _ _ _ _ _ Hinv).
    destruct (isGameActive (doc p)) eqn:Hact; cbn [andb]; [|by intros [= <-]].
    destruct (_ || _); [|by intros [= <-]].
    by apply page_inv_cellClicked.
  - (* the validate button *)
    rewrite events_validate_doc.
    destruct (validate (doc p)) as [g| |] eqn:Hrun; cbn [mbind res_bind]; try done.
    intros [= <-]. destruct (validate_ends _ _ Hrun) as (Hina & _).
    destruct (isGameActive (doc p)) eqn:Hact.
    + apply page_inv_stopped; [done| |done]. right.
      destruct Hdoc as [Hno|Hg]; [apply no_game_inactive in Hno; congruence|].
      by eapply game_inv_validate.
    + rewrite (validate_inactive _ Hact) in Hrun. injection Hrun as <-.
      by apply page_inv_modal.
  - (* cheating *)
    unfold events.cheat. destruct (isGameActive (doc p)) eqn:Hact.
    + destruct (cheatGame (doc p)) as [g| |] eqn:Hrun; cbn [mbind res_bind]; try done.
      intros [= <-].
      apply page_inv_doc; [done| |by rewrite (cheatGame_active _ _ Hrun)]. right.
      destruct Hdoc as [Hno|Hg]; [apply no_game_inactive in Hno; congruence|].
      by eapply game_inv_cheatGame.
    + intros [= <-]. by apply page_inv_modal.
  - (* saving *)
    intros [= <-]. unfold events.save.
    destruct (isGameActive (doc p)) eqn:Hact; cbn [negb]; [|by apply page_inv_modal].
    destruct (localStorage p) as [store|] eqn:Hls; [|by apply page_inv_modal].
    cbn zeta.
    destruct (page_inv_modal strict (Some ("Save Successful",
                "Your game has successfully been saved")%string) p Hinv) as (Hd & Hb & _).
    split; [exact Hd|]. split; [exact Hb|].
    intros sd [= <-].
    destruct Hdoc as [Hno|Hg]; [apply no_game_inactive in Hno; congruence|].
    by apply game_inv_store.
  - (* loading *)
    unfold events.loadGame. cbn zeta. cbn [on_doc set_doc localStorage doc].
    pose proof (page_inv_modal strict None p Hinv) as Hinv0.
    destruct (localStorage p) as [[sd|]|] eqn:Hls.
    + unfold events.init. cbn zeta.
      change (doc (clearInterval (bindings.clickCellUnbind ?q))) with
        (doc (clearInterval (set_delegated 0 q))).
      rewrite doc_clearInterval. cbn [doc set_delegated set_doc].
      rewrite init_saved. cbn [mbind res_bind]. intros [= <-].
      pose proof (Hstore sd eq_refl) as Hsd.
      set (g := set_active true _).
      assert (Hg : game_inv strict g) by (by apply game_inv_stored).
      assert (Hact : isGameActive g = true) by (by rewrite (game_inv_grid _ _ Hg)).
      pose proof (page_inv_modal strict (Some ("Load Successful",
                    "Your previously saved game has successfully been loaded")%string)
                    _ Hinv0) as Hq.
      apply (page_inv_started strict g _ Hq Hg Hact).
    + intros [= <-].
      exact (page_inv_modal strict (Some ("Error",
               "You do not have any saved games to <strong>load</strong>...")%string)
               _ Hinv0).
    + intros [= <-].
      exact (page_inv_modal strict (Some ("Error",
               "Saving &amp; loading was implemented with localstorage. Your browser does not support this feature and is unable to load/save.")%string)
               _ Hinv0).
  - (* closing a dialog *)
    intros [= <-]. by apply page_inv_modal.
  - (* a second *)
    intros [= <-]. unfold second.
    destruct (same_game_inv strict (doc p) _ (same_game_seconds (intervals p) _) Hdoc)
      as [? ?].
    by apply page_inv_doc.
Qed.

Lemma reachable_inv strict p : reachable strict p -> page_inv strict p.
Proof.
  induction 1 as [s Hs|p fuel e p' _ IH Hall Hfire].
  - by apply page_inv_opened.
  - by eapply page_inv_fire.
Qed.

Lemma reachable_steps strict es p p' :
  reachable strict p -> steps strict es p p' -> reachable strict p'.
Proof.
  intros Hp Hsteps. induction Hsteps as [|fuel e es p p1 p2 Hall Hfire _ IH]; [done|].
  apply IH. by eapply reachable_fire.
Qed.

Lemma reachable_opened_empty strict : reachable strict opened.
Proof. apply reachable_opened. intros sd [=]. Qed.

(** X16. On every page that the events lead to, the clock runs exactly
    while a game runs: in a running game [data.timer] is the one running
    interval and a second adds one to the seconds ([updateClock] once); with
    no game running no interval runs and a second changes nothing. *)
Theorem second_ticks (p : page) :
  reachable false p ->
  (isGameActive (doc p) = true ->
   second p = on_doc updateClock p
   /\ exists h, timer p = Some h /\ intervals p = [h])
  /\ (isGameActive (doc p) = false -> second p = p /\ intervals p = []).
Proof.
  intros (_ & Hbind & _)%reachable_inv. split; intros Hact; rewrite Hact in Hbind.
  - destruct Hbind as (_ & h & Ht & Hi). split; [|by exists h].
    unfold second. by rewrite Hi.
  - destruct Hbind as (_ & Hi). split; [|done]. unfold second. rewrite Hi. cbn [foldr].
    apply set_doc_doc.
Qed.

(** X17. On every page that the events lead to, a click on a td does
    nothing when no game runs, and nothing when the td is neither unknown
    nor flagged; in a running game exactly one click handler is bound, so a
    click on an unknown or flagged td is one call of [cellClicked]. *)
Theorem click_bound (shiftKey : bool) (r c : Z) (fuel : nat) (p : page) :
  reachable false p ->
  (isGameActive (doc p) = false -> click shiftKey r c fuel p = Ok p)
  /\ (hasClass classes.unknown (elements_td (doc p) r c) = false ->
      hasClass classes.flagged (elements_td (doc p) r c) = false ->
      click shiftKey r c fuel p = Ok p)
  /\ (isGameActive (doc p) = true ->
      hasClass classes.unknown (elements_td (doc p) r c) = true
      \/ hasClass classes.flagged (elements_td (doc p) r c) = true ->
      delegated p = 1%nat
      /\ click shiftKey r c fuel p = events.cellClicked shiftKey r c fuel p).
Proof.
  intros Hinv%reachable_inv. rewrite (click_handled false _ _ _ _ _ Hinv).
  split; [by intros ->|]. split; [intros -> ->; by rewrite andb_false_r|].
  intros Hact Htd. destruct Hinv as (_ & Hbind & _). rewrite Hact in *.
  split; [by destruct Hbind|]. by destruct Htd as [-> | ->]; rewrite ?orb_true_r.
Qed.

(** X18. On every page that the events lead to, no event raises a
    TypeError, and every event other than the start of a new game returns
    (a click with fuel above the number of unknown tds).  The start of a
    new game can only fail to return, while the planting loop draws. *)
Theorem fire_no_error (fuel : nat) (e : event) (p : page) :
  reachable false p -> allowed false fuel e p ->
  fire fuel e p <> TypeError
  /\ ((forall sizeOfGame numberOfMines random,
         e <> Start sizeOfGame numberOfMines random) ->
      exists p', fire fuel e p = Ok p').
Proof.
  intros Hinv%reachable_inv Hall. pose proof Hinv as (Hdoc & Hbind & Hstore).
  assert (Hshape : isGameActive (doc p) = true ->
                   grid_ok (doc p) = true /\ table_ok (doc p) = true).
  { intros Hact. destruct Hdoc as [Hno|(? & ? & _)]; [|done].
    apply no_game_inactive in Hno. congruence. }
  destruct e as [sizeOfGame numberOfMines random|shiftKey r c| | | | | |]; cbn [fire].
  - split; [|intros Hne; by edestruct Hne].
    destruct Hall as (Hu & Hsize & _). unfold events.init. cbn zeta.
    pose proof (init_new_no_error sizeOfGame numberOfMines fuel random
                  (doc (clearInterval (bindings.clickCellUnbind p))) Hu Hsize) as Hne.
    by destruct (init None _ _ _ _ _).
  - rewrite (click_handled false _ _ _ _ _ Hinv).
    destruct (isGameActive (doc p)) eqn:Hact; cbn [andb]; [|split; [done|by eexists]].
    destruct (_ || _); [|split; [done|by eexists]].
    rewrite events_cellClicked_doc. destruct (Hshape eq_refl) as [Hok Htab].
    destruct (cellClicked_returns shiftKey r c fuel (doc p) Hok Htab Hall) as (g' & -> & _).
    split; [done|by eexists].
  - rewrite events_validate_doc.
    destruct (validate_total (doc p) Hshape) as (g' & -> & _). split; [done|by eexists].
  - unfold events.cheat. destruct (isGameActive (doc p)) eqn:Hact; [|split; [done|by eexists]].
    destruct (Hshape eq_refl) as [Hok Htab]. rewrite (cheatGame_ok _ Hok Htab).
    split; [done|by eexists].
  - split; [done|by eexists].
  - unfold events.loadGame. cbn zeta. cbn [on_doc set_doc localStorage].
    destruct (localStorage p) as [[sd|]|]; [|split; [done|by eexists]..].
    unfold events.init. cbn zeta. rewrite init_saved. split; [done|by eexists].
  - split; [done|by eexists].
  - split; [done|by eexists].
Qed.

(** X19. When every new game is started with a whole number of mines
    that is less than the number of cells, every page that the events lead
    to either has no game yet or holds a game in play, and so does every
    game in local storage, which is stored as running. *)
Theorem reachable_playing (p : page) :
  reachable true p ->
  (no_game (doc p) \/ playing (doc p))
  /\ (forall sd, localStorage p = Some (Some sd) ->
        playing (stored_game sd) /\ isGameActive (stored_game sd) = true).
Proof.
  intros (Hdoc & _ & Hstore)%reachable_inv. split.
  - destruct Hdoc as [?|?]; [by left|right; by apply game_inv_playing].
  - intros sd Hsd. pose proof (Hstore sd Hsd) as Hg. split; [by apply game_inv_playing|].
    by rewrite (game_inv_grid _ _ Hg).
Qed.

(** A click on a mine reveals nothing, so the fuel is not looked at. *)
Lemma cellClicked_mine_fuel r c fuel fuel' g :
  grid_ok g = true -> is_mined g r c = true ->
  cellClicked false r c fuel g = cellClicked false r c fuel' g.
Proof.
  intros Hok Hm.
  assert (Hin : in_bounds g r c = true).
  { unfold is_mined in Hm. by apply andb_true_iff in Hm as [? _]. }
  destruct (is_mined_cellAt _ _ _ Hok Hin) as (cl & Hcl & Hmc). rewrite Hm in Hmc.
  rewrite !(cellClicked_on_cell _ _ _ _ _ cl Hok Hin Hcl).
  unfold click_action. by rewrite Hmc.
Qed.

(** X20. When every new game is started with a whole number of mines that
    is less than the number of cells, a plain click on a mined cell of a
    running game ends it with "You Lose!"; the click handler is unbound and
    the timer is cleared, so that later clicks and seconds change
    nothing. *)
Theorem click_mine_ends (r c : Z) (fuel : nat) (p : page) :
  reachable true p -> isGameActive (doc p) = true -> is_mined (doc p) r c = true ->
  exists p',
    click false r c fuel p = Ok p'
    /\ gameresult (doc p') = Some "You Lose!"%string
    /\ isGameActive (doc p') = false
    /\ delegated p' = 0%nat /\ intervals p' = []
    /\ (forall shiftKey r' c' fuel', click shiftKey r' c' fuel' p' = Ok p')
    /\ second p' = p'.
Proof.
  intros Hinv%reachable_inv Hact Hm. pose proof Hinv as (Hdoc & Hbind & Hstore).
  assert (Hplay : playing (doc p)).
  { destruct Hdoc as [Hno|Hg]; [apply no_game_inactive in Hno; congruence|].
    by apply game_inv_playing. }
  destruct (cellClicked_mine_loses r c fuel (doc p) Hplay Hact Hm) as (g' & Hrun & Hres & Hina).
  pose proof Hplay as (Hok & _ & _ & Hp). destruct (Hp Hact) as [[Hcov _] _].
  rewrite (click_handled true _ _ _ _ _ Hinv), Hact. cbn [andb].
  assert (Htd : hasClass classes.unknown (elements_td (doc p) r c)
                || hasClass classes.flagged (elements_td (doc p) r c) = true).
  { apply orb_true_iff. by apply Hcov. }
  rewrite Htd, events_cellClicked_doc, Hrun. cbn [mbind res_bind]. rewrite Hact, Hina. cbn [andb negb].
  eexists. split; [reflexivity|].
  assert (Hinv' : page_inv true (set_doc g' (stopped p))).
  { apply page_inv_stopped; [done| |done]. right. apply game_inv_playing.
    set (fuel' := S (Z.to_nat (count_class classes.unknown (table (doc p))))).
    assert (Hfuel : count_class classes.unknown (table (doc p)) < Z.of_nat fuel').
    { pose proof (count_class_nonneg classes.unknown (table (doc p))). unfold fuel'. lia. }
    apply (cellClicked_playing false r c fuel' (doc p) g' Hplay Hfuel).
    by rewrite <- (cellClicked_mine_fuel r c fuel fuel' (doc p) Hok Hm). }
  split; [done|]. split; [done|].
  pose proof Hinv' as (_ & Hbind' & _). cbn [doc set_doc] in Hbind'. rewrite Hina in Hbind'.
  destruct Hbind' as [Hd Hi]. split; [done|]. split; [done|]. split.
  - intros shiftKey r' c' fuel'. rewrite (click_handled true _ _ _ _ _ Hinv').
    cbn [doc set_doc]. by rewrite Hina.
  - unfold second. rewrite Hi. cbn [foldr]. apply set_doc_doc.
Qed.

Lemma fire_store fuel e p p' :
  fire fuel e p = Ok p' -> e <> Save -> localStorage p' = localStorage p.
Proof.
  assert (Hclear : forall q, localStorage (clearInterval q) = localStorage q).
  { intros q. unfold clearInterval. by destruct (timer q). }
  assert (Hinit : forall sd s m fu ra q q',
            events.init sd s m fu ra q = Ok q' -> localStorage q' = localStorage q).
  { intros sd s m fu ra q q'. unfold events.init. cbn zeta.
    destruct (init _ _ _ _ _ _) as [g| |]; cbn [mbind res_bind]; try done.
    intros [= <-]. cbn. by rewrite Hclear. }
  assert (Hcell : forall sh r c fu q q',
            events.cellClicked sh r c fu q = Ok q' -> localStorage q' = localStorage q).
  { intros sh r c fu q q'. rewrite events_cellClicked_doc.
    destruct (cellClicked _ _ _ _ _) as [g| |]; cbn [mbind res_bind]; try done.
    intros [= <-]. destruct (_ && _); [|done]. unfold stopped. cbn. by rewrite Hclear. }
  destruct e as [sizeOfGame numberOfMines random|shiftKey r c| | | | | |]; cbn [fire];
    intros Hfire Hne; try done.
  - by eapply Hinit.
  - unfold click in Hfire. destruct (elements_td (doc p) r c) as [td|]; [|by injection Hfire as <-].
    destruct (_ || _); [|by injection Hfire as <-].
    revert Hfire.
    apply (for_each_rel (fun q q' => localStorage q' = localStorage q)); [done|congruence|].
    intros _ q q' _. apply Hcell.
  - rewrite events_validate_doc in Hfire.
    destruct (validate (doc p)) as [g| |]; cbn [mbind res_bind] in Hfire; try done.
    injection Hfire as <-. destruct (isGameActive (doc p)); [|done].
    unfold stopped. cbn. by rewrite Hclear.
  - unfold events.cheat in Hfire. destruct (isGameActive (doc p)); [|by injection Hfire as <-].
    destruct (cheatGame (doc p)) as [g| |]; cbn [mbind res_bind] in Hfire; try done.
    by injection Hfire as <-.
  - unfold events.loadGame in Hfire. cbn zeta in Hfire.
    cbn [on_doc set_doc localStorage] in Hfire.
    destruct (localStorage p) as [[sd|]|] eqn:Hls; [|by injection Hfire as <-..].
    apply Hinit in Hfire. by rewrite Hfire.
  - by injection Hfire as <-.
  - by injection Hfire as <-.
Qed.

Lemma steps_store strict es p p' :
  steps strict es p p' -> Save ∉ es -> localStorage p' = localStorage p.
Proof.
  induction 1 as [|fuel e es p p1 p2 Hall Hfire _ IH]; [done|].
  intros Hno. rewrite IH by (intros ?; apply Hno; by right).
  apply (fire_store _ _ _ _ Hfire). intros ->. apply Hno. by left.
Qed.

(** X21. A running game saved with local storage present comes back with
    [loadGame], whatever events other than a save happened in between: the
    statistics, the grid and the table are those of the moment of saving,
    the game runs, the result heading is gone, the dialog confirms the
    load, and one click handler and one interval are running. *)
Theorem save_load (es : list event) (p p2 : page) :
  reachable false p -> isGameActive (doc p) = true ->
  is_Some (localStorage p) -> JSON_exact (mines (stats (doc p))) = true ->
  steps false es (events.save p) p2 -> Save ∉ es ->
  exists p3,
    events.loadGame p2 = Ok p3
    /\ stats (doc p3) = stats (doc p) /\ grid (doc p3) = grid (doc p)
    /\ table (doc p3) = table (doc p)
    /\ isGameActive (doc p3) = true /\ gameresult (doc p3) = None
    /\ modal (doc p3) = Some ("Load Successful",
          "Your previously saved game has successfully been loaded")%string
    /\ delegated p3 = 1%nat
    /\ exists h, timer p3 = Some h /\ intervals p3 = [h].
Proof.
  intros Hp Hact [store Hls] _ Hsteps Hno.
  assert (Hsaved : reachable false (events.save p)).
  { by apply (reachable_fire false p 0 Save). }
  pose proof (reachable_inv _ _ (reachable_steps _ _ _ _ Hsaved Hsteps)) as Hinv2.
  pose proof (steps_store _ _ _ _ Hsteps Hno) as Hstore.
  assert (Hs : localStorage (events.save p)
               = Some (Some (SavedGame (stats (doc p)) (grid (doc p)) (table (doc p))))).
  { unfold events.save. by rewrite Hact, Hls. }
  rewrite Hs in Hstore.
  assert (Hload : fire 0 Load p2 = events.loadGame p2) by done.
  destruct (events.loadGame p2) as [p3| |] eqn:Hrun.
  2,3: revert Hrun; unfold events.loadGame; cbn zeta; cbn [on_doc set_doc localStorage];
       rewrite Hstore; by unfold events.init.
  pose proof (page_inv_fire false 0 Load p2 p3 Hinv2 I Hload) as (_ & Hbind3 & _).
  exists p3. split; [done|].
  unfold events.loadGame in Hrun. cbn zeta in Hrun. cbn [on_doc set_doc localStorage] in Hrun.
  rewrite Hstore in Hrun. unfold events.init in Hrun. cbn zeta in Hrun.
  rewrite init_saved in Hrun. cbn [mbind res_bind] in Hrun. injection Hrun as <-.
  set (q := clearInterval _) in *.
  assert (Hq : modal (doc q) = Some ("Load Successful",
                 "Your previously saved game has successfully been loaded")%string).
  { unfold q. by rewrite doc_clearInterval. }
  assert (Hgrid : is_Some (grid (doc p))).
  { unfold isGameActive in Hact. destruct (grid (doc p)); [by eexists|].
    by rewrite ?andb_false_r in Hact. }
  destruct Hgrid as [a Ha]. unfold isGameActive in Hbind3 |- *.
  cbn in Hbind3 |- *. rewrite Ha in Hbind3 |- *. cbn in Hbind3 |- *.
  by destruct Hbind3 as [-> Hi].
Qed.

(** *** A game on the small board *)

Lemma fire_started : fire 10 (Start 1 (JS.Str "3") (sweep 8 8)) opened = Ok started.
Proof. vm_compute. reflexivity. Qed.

Lemma allowed_started strict : allowed strict 10 (Start 1 (JS.Str "3") (sweep 8 8)) opened.
Proof.
  split; [apply sweep_unit; lia|]. split; [lia|]. intros _. exists 3.
  split; [vm_compute; reflexivity|lia].
Qed.

Lemma reachable_started strict : reachable strict started.
Proof.
  apply (reachable_fire strict opened 10 (Start 1 (JS.Str "3") (sweep 8 8)) started).
  - apply reachable_opened_empty.
  - apply allowed_started.
  - apply fire_started.
Qed.

Lemma steps_played strict :
  steps strict [Click true 0 0; Second] (events.save started) played.
Proof.
  apply (steps_cons strict 65 (Click true 0 0) [Second] (events.save started)
           flag_put played).
  - vm_compute. reflexivity.
  - vm_compute. reflexivity.
  - apply (steps_cons strict 0 Second [] flag_put played played); [done| |apply steps_nil].
    vm_compute. reflexivity.
Qed.

Lemma second_ticks_witness :
  seconds (stats (doc (second started))) = 1
  /\ seconds (stats (doc (second (second started)))) = 2.
Proof.
  assert (H1 : reachable false (second started)).
  { by apply (reachable_fire false started 0 Second (second started) (reachable_started false)). }
  destruct (second_ticks started (reachable_started false)) as [Hs _].
  destruct (second_ticks (second started) H1) as [Hs' _].
  destruct (Hs eq_refl) as [E1 _]. destruct (Hs' eq_refl) as [E2 _].
  rewrite E2, E1. split; reflexivity.
Defined.

Lemma click_bound_witness :
  delegated started = 1%nat
  /\ click false 0 0 65 started = events.cellClicked false 0 0 65 started.
Proof.
  destruct (click_bound false 0 0 65 started (reachable_started false)) as (_ & _ & H).
  apply H; [reflexivity|left; reflexivity].
Defined.

Lemma fire_no_error_witness :
  fire 65 (Click false 7 7) started <> TypeError
  /\ exists p', fire 65 (Click false 7 7) started = Ok p'.
Proof.
  assert (Hall : allowed false 65 (Click false 7 7) started) by (vm_compute; reflexivity).
  destruct (fire_no_error 65 (Click false 7 7) started (reachable_started false) Hall)
    as [Hne Hok].
  split; [exact Hne|]. apply Hok. intros ? ? ?. discriminate.
Defined.

Lemma reachable_playing_witness : playing (doc started).
Proof.
  destruct (reachable_playing started (reachable_started true)) as [[Hno | Hp] _].
  - destruct Hno as (Hg & _). discriminate Hg.
  - exact Hp.
Defined.

Lemma click_mine_ends_witness :
  exists p',
    click false 0 1 0 started = Ok p'
    /\ gameresult (doc p') = Some "You Lose!"%string
    /\ delegated p' = 0%nat /\ intervals p' = [] /\ second p' = p'.
Proof.
  destruct (click_mine_ends 0 1 0 started (reachable_started true) eq_refl eq_refl)
    as (p' & Hrun & Hres & _ & Hd & Hi & _ & Hs).
  exists p'. split; [exact Hrun|]. split; [exact Hres|]. split; [exact Hd|].
  split; [exact Hi|exact Hs].
Defined.

Lemma save_load_witness :
  exists p3,
    events.loadGame played = Ok p3
    /\ table (doc p3) = table (doc started)
    /\ stats (doc p3) = stats (doc started)
    /\ delegated p3 = 1%nat.
Proof.
  assert (Hno : Save ∉ [Click true 0 0; Second]).
  { intros Hin. apply elem_of_cons in Hin as [Hin | Hin]; [discriminate|].
    apply elem_of_cons in Hin as [Hin | Hin]; [discriminate|]. by apply elem_of_nil in Hin. }
  destruct (save_load [Click true 0 0; Second] started played (reachable_started false)
              eq_refl (mk_is_Some _ _ eq_refl) eq_refl (steps_played false) Hno)
    as (p3 & Hrun & Hst & _ & Htab & _ & _ & _ & Hd & _).
  exists p3. split; [exact Hrun|]. split; [exact Htab|]. split; [exact Hst|exact Hd].
Defined.
